(** * Loki datasource: query dispatch, fallback and time alignment

    A shallow embedding of [public/app/plugins/datasource/loki/datasource.ts]
    and the properties its specification states about it.

    Numbers.  The TypeScript code computes with JavaScript numbers, which
    are IEEE-754 doubles.  Every quantity that matters here is a whole
    number (epoch milliseconds and nanoseconds, intervals in milliseconds,
    line limits), so numbers are embedded as [Z], a double as the whole
    number it holds.  Milliseconds, intervals and limits stay below 2^53,
    where doubles hold every whole number and [+], [-] and [*] are exact;
    on them the operations that leave the integers ([a / b], [Math.ceil]
    and the comparison of a quotient with a constant) are embedded over
    [Q], with the two infinities and NaN that a division by zero produces
    in JavaScript.  Epoch nanoseconds lie above 2^53: there every result is
    rounded to the nearest double, and the embedding rounds with
    [JsNumber.round] wherever the code computes with them. *)

From Stdlib Require Import ZArith QArith Qround List Ascii String Bool Lia.
Import ListNotations.

#[local] Open Scope string_scope.
#[local] Open Scope list_scope.
#[local] Open Scope Z_scope.

(** ** JavaScript arithmetic on whole numbers *)

Module JsNumber.

(** The value of [a / b] for whole numbers [a] and [b]. *)
Inductive t : Type :=
| Finite (q : Q)
| PlusInfinity
| MinusInfinity
| NaN.

Definition div (a b : Z) : t :=
  if b =? 0 then
    if 0 <? a then PlusInfinity
    else if a <? 0 then MinusInfinity
    else NaN
  else Finite (inject_Z a / inject_Z b)%Q.

(** [x > c]; every comparison with NaN is false. *)
Definition gt (x : t) (c : Z) : bool :=
  match x with
  | Finite q => negb (Qle_bool q (inject_Z c))
  | PlusInfinity => true
  | MinusInfinity => false
  | NaN => false
  end.

(** [Math.ceil(a / b)] for a divisor that is not zero. *)
Definition ceil_div (a b : Z) : Z := Qceiling (inject_Z a / inject_Z b)%Q.

(** [a % b]: the remainder has the sign of the dividend.  The remainder
    of two doubles is a double, so this operation never rounds. *)
Definition rem (a b : Z) : Z := Z.rem a b.

(** [a / p] rounded to the nearest whole number, a tie to the even one,
    for [0 <= a] and [0 < p]. *)
Definition nearest_even (a p : Z) : Z :=
  let q := a / p in
  let r := a mod p in
  if 2 * r <? p then q
  else if p <? 2 * r then q + 1
  else if Z.even q then q else q + 1.

(** The double nearest to the whole number [z]: 53 significant bits, a
    tie to the even significand.  Whole numbers below 2^53 in magnitude
    are doubles themselves.  The numbers of this file stay far below the
    largest double, so the overflow to [Infinity] has no part here. *)
Definition round (z : Z) : Z :=
  let a := Z.abs z in
  let p := 2 ^ Z.max 0 (Z.log2 a - 52) in
  Z.sgn z * (nearest_even a p * p).

(** [a + b], [a - b] and [a * b] on doubles that hold whole numbers. *)
Definition plus (a b : Z) : Z := round (a + b).
Definition minus (a b : Z) : Z := round (a - b).
Definition times (a b : Z) : Z := round (a * b).

(** The largest [k] with [2^k <= n / d], for [0 < n] and [0 < d]. *)
Definition quotient_exponent (n d : Z) : Z :=
  let k := Z.log2 n - Z.log2 d in
  if 0 <=? k then
    if d * 2 ^ k <=? n then k else k - 1
  else
    if d <=? n * 2 ^ (- k) then k else k - 1.

(** [a / b] on doubles that hold whole numbers, for [0 < b]: the double
    nearest to the quotient, which need not be whole. *)
Definition quotient (a b : Z) : Q :=
  if a =? 0 then 0%Q
  else
    let n := Z.abs a in
    let e := quotient_exponent n b - 52 in
    if 0 <=? e then
      inject_Z (Z.sgn a * (nearest_even n (b * 2 ^ e) * 2 ^ e))
    else
      Qmake (Z.sgn a * nearest_even (n * 2 ^ (- e)) b) (Z.to_pos (2 ^ (- e))).

(** [Math.ceil(a / b)] with the quotient rounded to a double first. *)
Definition ceil_quotient (a b : Z) : Z := Qceiling (quotient a b).

(** [x || Infinity] followed by [Math.min(_, m)], for an optional whole
    number [x]: [undefined] and [0] are falsy and select [Infinity], so the
    minimum is [m]. *)
Definition min_or_infinity (x : option Z) (m : Z) : Z :=
  match x with
  | None => m
  | Some v => if v =? 0 then m else Z.min v m
  end.

End JsNumber.

(** ** Time and interval utilities *)

(** [adjustInterval(interval, range)], lines 621-628. *)
Definition needs_calibration (interval range : Z) : bool :=
  negb (interval =? 0) && JsNumber.gt (JsNumber.div range interval) 11000.

Definition adjustInterval (interval range : Z) : Z :=
  let interval :=
    if needs_calibration interval range
    then JsNumber.ceil_div range 11000
    else interval in
  Z.max interval 1000.

(** The [alignedTimes] object of [createRangeQuery], lines 241-244, on
    epoch nanoseconds: each difference and sum is the nearest double. *)
Record AlignedTimes : Type := mkAlignedTimes { al_start : Z; al_end : Z }.

Definition alignedTimes (startNs endNs : Z) : AlignedTimes :=
  {| al_start := JsNumber.minus startNs (JsNumber.rem startNs 1000000000);
     al_end :=
       JsNumber.plus endNs
         (JsNumber.minus 1000000000 (JsNumber.rem endNs 1000000000)) |}.

(** ** Streams of notifications

    The code composes RxJS observables.  An observable is embedded by what a
    subscriber sees: the values delivered so far and how the stream stands
    (completed, failed, or still open for a live tail).  Every HTTP pipeline
    in the datasource starts from a promise, so its source carries at most
    one value; the operators below are nevertheless given for any number of
    values, in delivery order. *)

Module Rx.

Inductive Ending (E : Type) : Type :=
| Completed
| Failed (e : E)
| Open.

Arguments Completed {E}.
Arguments Failed {E} e.
Arguments Open {E}.

Record Run (E A : Type) : Type := mkRun {
  emitted : list A;
  ending : Ending E
}.

Arguments mkRun {E A} emitted ending.
Arguments emitted {E A} r.
Arguments ending {E A} r.

(** [of(a)] *)
Definition of_value {E A : Type} (a : A) : Run E A := mkRun [a] Completed.

(** a [throw] inside an operator callback *)
Definition throwError {E A : Type} (e : E) : Run E A := mkRun [] (Failed e).

(** [catchError(selector)]: a failed source is continued by the stream the
    selector returns; the selector may itself throw. *)
Definition catchError {E E' A : Type}
  (selector : E -> Run E' A) (source : Run E A) : Run E' A :=
  match ending source with
  | Failed e =>
      let continuation := selector e in
      mkRun (emitted source ++ emitted continuation) (ending continuation)
  | Completed => mkRun (emitted source) Completed
  | Open => mkRun (emitted source) Open
  end.

(** [filter(predicate)] *)
Definition filter {E A : Type} (predicate : A -> bool) (source : Run E A)
  : Run E A :=
  mkRun (List.filter predicate (emitted source)) (ending source).

(** [map(project)] where [project] either returns ([inl]) or throws ([inr]);
    the first throw fails the stream. *)
Fixpoint map_values {E A B : Type}
  (project : A -> B + E) (values : list A) (last : Ending E) : Run E B :=
  match values with
  | [] => mkRun [] last
  | a :: rest =>
      match project a with
      | inl b =>
          let r := map_values project rest last in
          mkRun (b :: emitted r) (ending r)
      | inr e => throwError e
      end
  end.

Definition map {E A B : Type} (project : A -> B + E) (source : Run E A)
  : Run E B :=
  map_values project (emitted source) (ending source).

(** An observable whose subscription acts on the outside: [Env] answers
    what the outside delivers, [World] is the state the subscription reads
    and writes. *)
Definition Observable (Env World E A : Type) : Type :=
  Env -> World -> Run E A * World.

(** [source.pipe(op)] for an operator without effects. *)
Definition pipe {Env World E A E' B : Type}
  (op : Run E A -> Run E' B) (source : Observable Env World E A)
  : Observable Env World E' B :=
  fun env w => let (r, w') := source env w in (op r, w').

(** How two streams delivered one after the other end together. *)
Definition after {E : Type} (first second : Ending E) : Ending E :=
  match first, second with
  | Failed e, _ => Failed e
  | _, Failed e => Failed e
  | Open, _ => Open
  | _, Open => Open
  | Completed, Completed => Completed
  end.

(** [merge(...sources)].  RxJS subscribes to all sources at once and hands
    on what they deliver in the order of arrival; this is the delivery
    schedule in which the sources are answered in their own order, each
    having delivered everything before the next one delivers.  A failure
    fails the merged stream and the remaining sources are unsubscribed. *)
Fixpoint merge {Env World E A : Type}
  (sources : list (Observable Env World E A)) : Observable Env World E A :=
  fun env w =>
    match sources with
    | [] => (mkRun [] Completed, w)
    | source :: rest =>
        let (r, w1) := source env w in
        match ending r with
        | Failed e => (r, w1)
        | _ =>
            let (r', w2) := merge rest env w1 in
            (mkRun (emitted r ++ emitted r') (after (ending r) (ending r')), w2)
        end
    end.

(** [mergeMap(project)]: one inner subscription per value of the source. *)
Definition mergeMap {Env World E A B : Type}
  (project : A -> Observable Env World E B)
  (source : Observable Env World E A) : Observable Env World E B :=
  fun env w =>
    let (r, w1) := source env w in
    let (inner, w2) := merge (List.map project (emitted r)) env w1 in
    (mkRun (emitted inner) (after (ending inner) (ending r)), w2).

(** [switchMap(project)]: it differs from [mergeMap] only when the source
    delivers a second value while an inner stream is still open, which a
    source built from a promise never does. *)
Definition switchMap {Env World E A B : Type}
  (project : A -> Observable Env World E B)
  (source : Observable Env World E A) : Observable Env World E B :=
  mergeMap project source.

(** [defer(factory)]: the factory runs at subscription. *)
Definition defer {Env World E A : Type}
  (factory : World -> Observable Env World E A * World)
  : Observable Env World E A :=
  fun env w => let (o, w1) := factory w in o env w1.

(** [iif(condition, trueResult, falseResult)] *)
Definition iif {Env World E A : Type} (condition : bool)
  (trueResult falseResult : Observable Env World E A)
  : Observable Env World E A :=
  if condition then trueResult else falseResult.

End Rx.

(** ** Data model *)

(** A JSON payload that the datasource hands on without looking inside. *)
Definition Json : Type := string.

(** [LokiQuery] of [./types]: one target of a request. *)
Record LokiQuery : Type := mkLokiQuery {
  expr : string;
  refId : string;
  hide : bool;
  liveStreaming : bool
}.

(** [string | DateTime]; a [DateTime] is carried by its [valueOf()], the
    epoch time in milliseconds. *)
Inductive DateLike : Type :=
| DateString (text : string)
| DateTimeValue (ms : Z).

Record TimeRange : Type := mkTimeRange {
  from : DateLike;
  to : DateLike
}.

Inductive ExploreMode : Type := Metrics | Logs.

(** [RangeQueryOptions], line 53; the code tests every member for presence. *)
Record RangeQueryOptions : Type := mkRangeQueryOptions {
  range : option TimeRange;
  intervalMs : option Z;
  maxDataPoints : option Z;
  reverse : option bool
}.

(** [DataQueryRequest<LokiQuery>] of [@grafana/data]. *)
Record DataQueryRequest : Type := mkDataQueryRequest {
  targets : list LokiQuery;
  exploreMode : option ExploreMode;
  request_range : TimeRange;
  request_intervalMs : option Z;
  request_maxDataPoints : option Z;
  request_reverse : option bool
}.

(** A [DataQueryRequest] read through the [RangeQueryOptions] type. *)
Definition rangeQueryOptions (options : DataQueryRequest) : RangeQueryOptions :=
  {| range := Some (request_range options);
     intervalMs := request_intervalMs options;
     maxDataPoints := request_maxDataPoints options;
     reverse := request_reverse options |}.

Inductive Direction : Type := BACKWARD | FORWARD.

(** The result of [parseQuery] of [./query_utils]. *)
Record ParsedQuery : Type := mkParsedQuery {
  pq_query : string;
  pq_regexp : string
}.

Record LokiLegacyQueryRequest : Type := mkLokiLegacyQueryRequest {
  lq_direction : Direction;
  lq_limit : Z;
  lq_regexp : string;
  lq_query : string;
  lq_start : option Z;
  lq_end : option Z;
  lq_refId : string
}.

Record LokiRangeQueryRequest : Type := mkLokiRangeQueryRequest {
  rq_direction : Direction;
  rq_limit : Z;
  rq_regexp : string;
  rq_query : string;
  rq_start : option Z;
  rq_end : option Z;
  rq_step : option Z
}.

(** The request object of [runInstantQuery]; [time] is sent as the text
    that the template literal writes for the double kept here. *)
Record LokiInstantQueryRequest : Type := mkLokiInstantQueryRequest {
  iq_query : string;
  iq_time : Z;
  iq_limit : Z
}.

(** [LegacyTarget] of [./live_streams]. *)
Record LegacyTarget : Type := mkLegacyTarget {
  lt_query : string;
  lt_regexp : string;
  lt_url : string;
  lt_refId : string;
  lt_size : Z
}.

(** A call of [_request(apiUrl, data)].  The URL that goes to the transport
    is the base URL, [apiUrl] and the serialized [data]. *)
Inductive RequestData : Type :=
| NoData
| InstantData (query : LokiInstantQueryRequest)
| RangeData (query : LokiRangeQueryRequest)
| LegacyData (query : LokiLegacyQueryRequest).

Record HttpRequest : Type := mkHttpRequest {
  apiUrl : string;
  params : RequestData
}.

(** The [data] member of what the transport resolves or rejects with. *)
Inductive Body : Type :=
| LokiBody (resultType : string) (result : Json)
| LegacyBody (streams : Json)
| ErrorBody (error : Json)
| TextBody (text : string)
| NoBody.

(** What the transport promise settles with: a response, or the rejection
    value.  Both are objects of which the code reads these members. *)
Record HttpMessage : Type := mkHttpMessage {
  status : option Z;
  statusText : option string;
  cancelled : bool;
  body : Body;
  message : option string
}.

Inductive HttpOutcome : Type :=
| Resolved (response : HttpMessage)
| Rejected (err : HttpMessage).

Definition settled_with (outcome : HttpOutcome) : HttpMessage :=
  match outcome with
  | Resolved response => response
  | Rejected err => err
  end.

(** The backend as seen through the transport. *)
Definition Backend : Type := HttpRequest -> HttpOutcome.

(** One element of [DataQueryResponse.data].  A [TimeSeries] is the shape
    with a [datapoints] member. *)
Inductive Datum : Type :=
| TimeSeriesDatum (payload : Json)
| DataFrameDatum (payload : Json)
| TableDatum (payload : Json).

Inductive LoadingState : Type :=
| NotStarted
| Loading
| Streaming
| Done
| Error.

Record DataQueryResponse : Type := mkDataQueryResponse {
  data : list Datum;
  key : option string;
  state : option LoadingState
}.

Record DataQueryError : Type := mkDataQueryError {
  qe_message : string;
  qe_refId : string;
  qe_status : option Z;
  qe_statusText : option string
}.

(** What a pipeline of the datasource can fail with. *)
Inductive Thrown : Type :=
| QueryError (error : DataQueryError)
| JsError (text : string)
| TypeError.

(** The [version] member: ['v0'], ['v1'], or not set yet. *)
Inductive Version : Type := v0 | v1.

(** A subscription handed to the [LiveStreams] object. *)
Inductive LiveSubscription : Type :=
| getStream (target : LegacyTarget)
| getLegacyStream (target : LegacyTarget).

(** The configuration of one datasource instance. *)
Record LokiDatasource : Type := mkLokiDatasource {
  instanceSettings_url : string;
  instanceSettings_jsonData : Json;
  maxLines : Z
}.

(** What the instance changes while it runs: its [version] member, the
    requests handed to the transport and the subscriptions handed to the
    live streams, oldest first. *)
Record World : Type := mkWorld {
  version : option Version;
  requests : list HttpRequest;
  subscriptions : list LiveSubscription
}.

Definition newWorld : World :=
  {| version := None; requests := []; subscriptions := [] |}.

Definition issue (request : HttpRequest) (w : World) : World :=
  {| version := version w;
     requests := requests w ++ [request];
     subscriptions := subscriptions w |}.

Definition subscribe (s : LiveSubscription) (w : World) : World :=
  {| version := version w;
     requests := requests w;
     subscriptions := subscriptions w ++ [s] |}.

Definition set_version (v : Version) (w : World) : World :=
  {| version := Some v;
     requests := requests w;
     subscriptions := subscriptions w |}.

Definition Observable (E A : Type) : Type := Rx.Observable Backend World E A.

(** A promise: how it settles once the backend has answered. *)
Inductive Settled (A : Type) : Type :=
| Fulfilled (value : A)
| RejectedWith (reason : Thrown)
| Unsettled.

Arguments Fulfilled {A} value.
Arguments RejectedWith {A} reason.
Arguments Unsettled {A}.

Definition Promise (A : Type) : Type := Backend -> World -> Settled A * World.

(** ** Constants, lines 54-64 *)

Definition DEFAULT_MAX_LINES : Z := 1000.
Definition LEGACY_QUERY_ENDPOINT : string := "/api/prom/query".
Definition RANGE_QUERY_ENDPOINT : string := "/loki/api/v1/query_range".
Definition INSTANT_QUERY_ENDPOINT : string := "/loki/api/v1/query".

(** Modelled from the spec: [LokiResultType.Stream] is declared in
    [./types], which is not among the sources; the specification gives the
    wire value of a raw log stream as ["streams"]. *)
Definition LokiResultType_Stream : string := "streams".

(** ** Truthiness *)

Definition truthy_string (s : string) : bool := negb (s =? EmptyString)%string.

Definition truthy_text (s : option string) : bool :=
  match s with
  | Some text => truthy_string text
  | None => false
  end.

(** Truthiness of a JSON value, given by the text that [JSON.stringify]
    writes for it: [null], [false], zero and the empty string are falsy,
    and so is [undefined], which the empty text stands for. *)
Definition truthy_json (value : Json) : bool :=
  negb
    (existsb (String.eqb value)
       [EmptyString; "null"; "false"; "0";
        String "034"%char (String "034"%char EmptyString)]).

Definition truthy_number (n : option Z) : bool :=
  match n with
  | Some v => negb (v =? 0)
  | None => false
  end.

Definition is_404 (s : option Z) : bool :=
  match s with
  | Some code => code =? 404
  | None => false
  end.

(** The request [getVersion] probes the backend with: the range endpoint
    without parameters. *)
Definition probe : HttpRequest :=
  {| apiUrl := RANGE_QUERY_ENDPOINT; params := NoData |}.

(** The version that the [then] and [catch] callbacks of [getVersion] store,
    by the outcome of the probe. *)
Definition detected (outcome : HttpOutcome) : Version :=
  match outcome with
  | Resolved _ => v1
  | Rejected err => if is_404 (status err) then v0 else v1
  end.

(** How many of the requests went to an endpoint. *)
Definition count_endpoint (endpoint : string) (log : list HttpRequest) : nat :=
  List.length
    (List.filter (fun request => (apiUrl request =? endpoint)%string) log).

(** ** Collaborators

    Functions the datasource imports from files that are not among the
    sources.  They are used as given. *)

Class Collaborators : Type := {
  (** [parseQuery] of [./query_utils] *)
  parseQuery : string -> ParsedQuery;
  (** [templateSrv.replace(expr, {}, this.interpolateQueryExpr)] *)
  templateSrv_replace : string -> string;
  (** [dateMath.parse(text, roundUp).valueOf()] of [@grafana/data] *)
  dateMath_parse : string -> bool -> Z;
  (** the converters of [./result_transformer] *)
  lokiResultsToTableModel : Json -> nat -> string -> bool -> Datum;
  processRangeQueryResponse :
    Body -> LokiQuery -> LokiRangeQueryRequest -> nat -> Z -> Json ->
    option bool -> Rx.Run Thrown DataQueryResponse;
  lokiLegacyStreamsToDataframes :
    Body -> LokiLegacyQueryRequest -> Z -> Json -> option bool -> list Datum;
  (** [safeStringifyValue] and [convertToWebSocketUrl] of
      [app/core/utils/explore] *)
  safeStringifyValue : Json -> string;
  convertToWebSocketUrl : string -> string;
  encodeURIComponent : string -> string;
  (** what a subscription of [./live_streams] has delivered *)
  liveStream : LiveSubscription -> Rx.Run Thrown (list Datum)
}.

(** ** The datasource *)

Section Datasource.

Context `{Collaborators}.
Variable this : LokiDatasource.

(** The constructor's [parseInt(settingsData.maxLines, 10) || DEFAULT_MAX_LINES],
    line 93; [None] is a setting that does not parse to a number. *)
Definition configuredMaxLines (parsed : option Z) : Z :=
  if truthy_number parsed
  then match parsed with Some n => n | None => DEFAULT_MAX_LINES end
  else DEFAULT_MAX_LINES.

(** [serializeParams], lines 66-70, on the members of [data] in order. *)
Definition serializeParams (members : list (string * string)) : string :=
  String.concat "&"
    (List.map
       (fun member =>
          (encodeURIComponent (fst member) ++ "=" ++
           encodeURIComponent (snd member))%string)
       members).

(** [_request], lines 113-123: the transport is called at once; the
    observable delivers what the promise settles with. *)
Definition from_promise (outcome : HttpOutcome)
  : Rx.Run HttpMessage HttpMessage :=
  match outcome with
  | Resolved response => Rx.of_value response
  | Rejected err => Rx.throwError err
  end.

Definition _request (apiUrl : string) (data : RequestData)
  : World -> Observable HttpMessage HttpMessage * World :=
  fun w =>
    let req := {| apiUrl := apiUrl; params := data |} in
    (fun backend w' => (from_promise (backend req), w'), issue req w).

(** [toPromise()]: the last value once the stream has completed. *)
Definition toPromise {A : Type} (r : Rx.Run HttpMessage A)
  : Rx.Ending HttpMessage * option A :=
  (Rx.ending r, List.last (List.map Some (Rx.emitted r)) None).

(** [getVersion], lines 96-111. *)
Definition getVersion : World -> Promise Version * World :=
  fun w =>
    match version w with
    | Some cached => (fun _ w' => (Fulfilled cached, w'), w)
    | None =>
        let (probe, w1) := _request RANGE_QUERY_ENDPOINT NoData w in
        (fun backend w' =>
           let (r, w2) := probe backend w' in
           match toPromise r with
           | (Rx.Completed, _) => (Fulfilled v1, set_version v1 w2)
           | (Rx.Failed err, _) =>
               let detected := if negb (is_404 (status err)) then v1 else v0 in
               (Fulfilled detected, set_version detected w2)
           | (Rx.Open, _) => (Unsettled, w2)
           end,
         w1)
    end.

(** [getTime], lines 420-426.  [valueOf()] is a whole number of
    milliseconds; the product with [1e6] is the nearest double, which is
    a whole number, so [Math.ceil] leaves it as it is. *)
Definition getTime (date : DateLike) (roundUp : bool) : Z :=
  let valueOf :=
    match date with
    | DateString text => dateMath_parse text roundUp
    | DateTimeValue ms => ms
    end in
  JsNumber.times valueOf 1000000.

(** [Math.min(options.maxDataPoints || Infinity, this.maxLines)] *)
Definition limitOf (maxDataPoints : option Z) : Z :=
  JsNumber.min_or_infinity maxDataPoints (maxLines this).

(** [processError], lines 597-619. *)
Definition processError (err : HttpMessage) (target : LokiQuery)
  : DataQueryError :=
  let initial :=
    if truthy_text (statusText err)
    then match statusText err with Some text => text | None => EmptyString end
    else "Unknown error during query transaction. Please check JS console logs." in
  let from_message :=
    if truthy_text (message err)
    then match message err with Some text => text | None => initial end
    else initial in
  let final :=
    match body err with
    | TextBody text => if truthy_string text then text else from_message
    | ErrorBody error =>
        if truthy_json error then safeStringifyValue error else initial
    | LokiBody _ _ => initial
    | LegacyBody _ => initial
    | NoBody => from_message
    end in
  {| qe_message := final;
     qe_refId := refId target;
     qe_status := status err;
     qe_statusText := statusText err |}.

(** [throwUnless], lines 588-595. *)
Definition throwUnless (err : HttpMessage) (condition : bool)
  (target : LokiQuery) : Rx.Run Thrown HttpMessage :=
  if condition then Rx.of_value err
  else Rx.throwError (QueryError (processError err target)).

(** [createLegacyLiveTarget] and [createLiveTarget], lines 297-323. *)
Definition createLegacyLiveTarget (target : LokiQuery)
  (options : RangeQueryOptions) : LegacyTarget :=
  let parsed := parseQuery (expr target) in
  let baseUrl := instanceSettings_url this in
  let params := serializeParams [("query", pq_query parsed)] in
  {| lt_query := pq_query parsed;
     lt_regexp := pq_regexp parsed;
     lt_url := convertToWebSocketUrl (baseUrl ++ "/api/prom/tail?" ++ params)%string;
     lt_refId := refId target;
     lt_size := limitOf (maxDataPoints options) |}.

Definition createLiveTarget (target : LokiQuery)
  (options : RangeQueryOptions) : LegacyTarget :=
  let parsed := parseQuery (expr target) in
  let baseUrl := instanceSettings_url this in
  let params := serializeParams [("query", pq_query parsed)] in
  {| lt_query := pq_query parsed;
     lt_regexp := pq_regexp parsed;
     lt_url := convertToWebSocketUrl (baseUrl ++ "/loki/api/v1/tail?" ++ params)%string;
     lt_refId := refId target;
     lt_size := limitOf (maxDataPoints options) |}.

(** [this.streams.getStream(target)] and [getLegacyStream(target)]: the
    subscription is handed to the live streams when the stream is
    subscribed to. *)
Definition streams (s : LiveSubscription) : Observable Thrown (list Datum) :=
  fun _ w => (liveStream s, subscribe s w).

(** [from(promise)] *)
Definition from_version (p : Promise Version) : Observable Thrown Version :=
  fun backend w =>
    let (settled, w1) := p backend w in
    match settled with
    | Fulfilled value => (Rx.of_value value, w1)
    | RejectedWith reason => (Rx.throwError reason, w1)
    | Unsettled => (Rx.mkRun [] Rx.Open, w1)
    end.

(** [runLiveQuery], lines 331-351. *)
Definition liveResponse (liveTarget : LegacyTarget) (frames : list Datum)
  : DataQueryResponse + Thrown :=
  inl {| data := frames;
         key := Some ("loki-" ++ lt_refId liveTarget)%string;
         state := Some Streaming |}.

Definition runLiveQuery (target : LokiQuery) (options : RangeQueryOptions)
  : World -> Observable Thrown DataQueryResponse * World :=
  fun w =>
    let liveTarget := createLiveTarget target options in
    let (versionPromise, w1) := getVersion w in
    (Rx.pipe (Rx.map (liveResponse liveTarget))
       (Rx.mergeMap
          (fun detected =>
             Rx.iif (match detected with v1 => true | v0 => false end)
               (Rx.defer (fun w' => (streams (getStream liveTarget), w')))
               (Rx.defer (fun w' =>
                  let legacyTarget := createLegacyLiveTarget target options in
                  (streams (getLegacyStream legacyTarget), w'))))
          (from_version versionPromise)),
     w1).

(** [runLegacyQuery], lines 170-203. *)
Definition legacyQuery (target : LokiQuery) (options : RangeQueryOptions)
  : LokiLegacyQueryRequest :=
  let parsed := parseQuery (expr target) in
  {| lq_direction := BACKWARD;
     lq_limit := limitOf (maxDataPoints options);
     lq_regexp := pq_regexp parsed;
     lq_query := pq_query parsed;
     lq_start :=
       match range options with
       | Some r => Some (getTime (from r) false)
       | None => None
       end;
     lq_end :=
       match range options with
       | Some r => Some (getTime (to r) true)
       | None => None
       end;
     lq_refId := refId target |}.

Definition legacyResponse (target : LokiQuery) (options : RangeQueryOptions)
  (query : LokiLegacyQueryRequest) (response : HttpMessage)
  : DataQueryResponse + Thrown :=
  inl {| data :=
           lokiLegacyStreamsToDataframes (body response) query (maxLines this)
             (instanceSettings_jsonData this) (reverse options);
         key := Some (refId target ++ "_log")%string;
         state := None |}.

Definition runLegacyQuery (target : LokiQuery) (options : RangeQueryOptions)
  : World -> Observable Thrown DataQueryResponse * World :=
  fun w =>
    if liveStreaming target then runLiveQuery target options w
    else
      let query := legacyQuery target options in
      let (response, w1) := _request LEGACY_QUERY_ENDPOINT (LegacyData query) w in
      (Rx.pipe
         (fun source =>
            Rx.map (legacyResponse target options query)
              (Rx.filter (fun response => negb (cancelled response))
                 (Rx.catchError
                    (fun err => throwUnless err (cancelled err) target)
                    source)))
         response,
       w1).

(** [runInstantQuery], lines 205-231. *)
Definition instantQuery (target : LokiQuery) (options : DataQueryRequest)
  : LokiInstantQueryRequest :=
  let timeNs := getTime (to (request_range options)) true in
  {| iq_query := pq_query (parseQuery (expr target));
     iq_time :=
       JsNumber.plus timeNs
         (JsNumber.minus 1000000000 (JsNumber.rem timeNs 1000000000));
     iq_limit := limitOf (request_maxDataPoints options) |}.

Definition instantResponse (target : LokiQuery) (responseListLength : nat)
  (response : HttpMessage) : DataQueryResponse + Thrown :=
  match body response with
  | LokiBody resultType result =>
      if (resultType =? LokiResultType_Stream)%string then
        inr (JsError
               "Metrics mode does not support logs. Use an aggregation or switch to Logs mode.")
      else
        inl {| data :=
                 [lokiResultsToTableModel result responseListLength
                    (refId target) true];
               key := Some (refId target ++ "_instant")%string;
               state := None |}
  | LegacyBody _ => inr TypeError
  | ErrorBody _ => inr TypeError
  | TextBody _ => inr TypeError
  | NoBody => inr TypeError
  end.

Definition runInstantQuery (target : LokiQuery) (options : DataQueryRequest)
  (responseListLength : nat)
  : World -> Observable Thrown DataQueryResponse * World :=
  fun w =>
    let query := instantQuery target options in
    let (response, w1) := _request INSTANT_QUERY_ENDPOINT (InstantData query) w in
    (Rx.pipe
       (fun source =>
          Rx.map (instantResponse target responseListLength)
            (Rx.filter (fun response => if cancelled response then false else true)
               (Rx.catchError
                  (fun err => throwUnless err (cancelled err) target)
                  source)))
       response,
     w1).

(** [createRangeQuery], lines 233-259. *)
Definition createRangeQuery (target : LokiQuery) (options : RangeQueryOptions)
  : LokiRangeQueryRequest :=
  let query := pq_query (parseQuery (expr target)) in
  let aligned :=
    match range options with
    | Some r =>
        if truthy_number (intervalMs options) then
          let startNs := getTime (from r) false in
          let endNs := getTime (to r) true in
          let rangeMs :=
            JsNumber.ceil_quotient (JsNumber.minus endNs startNs) 1000000 in
          let step :=
            JsNumber.ceil_quotient
              (adjustInterval
                 (match intervalMs options with Some i => i | None => 0 end)
                 rangeMs)
              1000 in
          Some (alignedTimes startNs endNs, step)
        else None
    | None => None
    end in
  {| rq_direction := BACKWARD;
     rq_limit := limitOf (maxDataPoints options);
     rq_regexp := EmptyString;
     rq_query := query;
     rq_start := option_map (fun a => al_start (fst a)) aligned;
     rq_end := option_map (fun a => al_end (fst a)) aligned;
     rq_step := option_map snd aligned |}.

(** [runRangeQueryWithFallback], lines 264-295. *)
Definition runRangeQueryWithFallback (target : LokiQuery)
  (options : RangeQueryOptions) (responseListLength : nat)
  : World -> Observable Thrown DataQueryResponse * World :=
  fun w =>
    if liveStreaming target then runLiveQuery target options w
    else
      let query := createRangeQuery target options in
      let (response, w1) := _request RANGE_QUERY_ENDPOINT (RangeData query) w in
      (Rx.switchMap
         (fun response =>
            Rx.iif (is_404 (status response))
              (Rx.defer (fun w' => runLegacyQuery target options w'))
              (Rx.defer (fun w' =>
                 (fun _ w'' =>
                    (processRangeQueryResponse (body response) target query
                       responseListLength (maxLines this)
                       (instanceSettings_jsonData this) (reverse options),
                     w''),
                  w'))))
         (Rx.pipe
            (fun source =>
               Rx.filter (fun response => if cancelled response then false else true)
                 (Rx.catchError
                    (fun err =>
                       throwUnless err (cancelled err || is_404 (status err)) target)
                    source))
            response),
       w1).

(** [isTimeSeries], lines 647-649. *)
Definition isTimeSeries (d : Datum) : bool :=
  match d with
  | TimeSeriesDatum _ => true
  | DataFrameDatum _ => false
  | TableDatum _ => false
  end.

(** [query], lines 125-168. *)
Definition SubQuery : Type := Observable Thrown DataQueryResponse.

Definition eligible (target : LokiQuery) : bool :=
  truthy_string (expr target) && negb (hide target).

Definition interpolated (target : LokiQuery) : LokiQuery :=
  {| expr := templateSrv_replace (expr target);
     refId := refId target;
     hide := hide target;
     liveStreaming := liveStreaming target |}.

Definition logsModeCheck (options : DataQueryRequest)
  (dataQueryResponse : DataQueryResponse) : DataQueryResponse + Thrown :=
  if match exploreMode options with Some Logs => true | _ => false end
     && existsb isTimeSeries (data dataQueryResponse)
  then
    inr (JsError
           "Logs mode does not support queries that return time series data. Please perform a logs query or switch to Metrics mode.")
  else inl dataQueryResponse.

(** The two [forEach] bodies: what one target pushes on [subQueries]. *)
Definition pushMetrics (options : DataQueryRequest) (length : nat)
  (target : LokiQuery) : World -> list SubQuery * World :=
  fun w =>
    let (instant, w1) := runInstantQuery target options length w in
    let (ranged, w2) :=
      runRangeQueryWithFallback target (rangeQueryOptions options) length w1 in
    ([instant; ranged], w2).

Definition pushRange (options : DataQueryRequest) (length : nat)
  (target : LokiQuery) : World -> list SubQuery * World :=
  fun w =>
    let (ranged, w1) :=
      runRangeQueryWithFallback target (rangeQueryOptions options) length w in
    ([Rx.pipe (Rx.map (logsModeCheck options)) ranged], w1).

Fixpoint forEach (filteredTargets : list LokiQuery)
  (push : LokiQuery -> World -> list SubQuery * World)
  (subQueries : list SubQuery) (w : World) : list SubQuery * World :=
  match filteredTargets with
  | [] => (subQueries, w)
  | target :: rest =>
      let (pushed, w1) := push target w in
      forEach rest push (subQueries ++ pushed) w1
  end.

Definition emptyResult : DataQueryResponse :=
  {| data := []; key := None; state := Some Done |}.

Definition query (options : DataQueryRequest) : World -> SubQuery * World :=
  fun w =>
    let filteredTargets :=
      List.map interpolated (List.filter eligible (targets options)) in
    let length := List.length filteredTargets in
    let (subQueries, w1) :=
      match exploreMode options with
      | Some Metrics => forEach filteredTargets (pushMetrics options length) [] w
      | _ => forEach filteredTargets (pushRange options length) [] w
      end in
    match subQueries with
    | [] => (fun _ w' => (Rx.of_value emptyResult, w'), w1)
    | _ :: _ => (Rx.merge subQueries, w1)
    end.

(** The requests as [_request] receives them. *)
Definition instantRequest (target : LokiQuery) (options : DataQueryRequest)
  : HttpRequest :=
  {| apiUrl := INSTANT_QUERY_ENDPOINT;
     params := InstantData (instantQuery target options) |}.

Definition rangeRequest (target : LokiQuery) (options : RangeQueryOptions)
  : HttpRequest :=
  {| apiUrl := RANGE_QUERY_ENDPOINT;
     params := RangeData (createRangeQuery target options) |}.

Definition legacyRequest (target : LokiQuery) (options : RangeQueryOptions)
  : HttpRequest :=
  {| apiUrl := LEGACY_QUERY_ENDPOINT;
     params := LegacyData (legacyQuery target options) |}.

(** A sub-query whose subscription hands nothing to the transport. *)
Definition quiet (sub : SubQuery) : Prop :=
  forall backend w', requests (snd (sub backend w')) = requests w'.

End Datasource.


(** ** Escaping of variable values, lines 377-389 and 631-643

    A string is the sequence of the bytes of its UTF-8 text; the escape
    functions rewrite ASCII characters only, which are single bytes. *)

Definition backslash : ascii := "092"%char.
Definition quote : ascii := "039"%char.

(** [value.replace(/[...]/g, replacement)] for a pattern that matches one
    character of a class: every matching character is replaced, the others
    are kept. *)
Fixpoint replaceAll (matches : ascii -> bool) (replacement : ascii -> string)
  (value : string) : string :=
  match value with
  | EmptyString => EmptyString
  | String c rest =>
      if matches c
      then (replacement c ++ replaceAll matches replacement rest)%string
      else String c (replaceAll matches replacement rest)
  end.

(** The class [[$^*{}\[\]+?.()|]] of [lokiSpecialRegexEscape]. *)
Definition metacharacter (c : ascii) : bool :=
  existsb (Ascii.eqb c)
    ["$"; "^"; "*"; "{"; "}"; "["; "]"; "+"; "?"; "."; "("; ")"; "|"]%char.


(** [lokiRegularEscape], lines 631-636: on a string, every single quote
    becomes two backslashes and the quote. *)
Definition regularEscape (value : string) : string :=
  replaceAll (Ascii.eqb quote)
    (fun c => String backslash (String backslash (String c EmptyString)))
    value.


(** [lokiSpecialRegexEscape], lines 638-643: on a string, every backslash
    becomes four backslashes, then every character of the class gets two
    backslashes in front ([$&] is the match), then the quotes are escaped. *)
Definition specialRegexEscape (value : string) : string :=
  regularEscape
    (replaceAll metacharacter
       (fun c => String backslash (String backslash (String c EmptyString)))
       (replaceAll (Ascii.eqb backslash)
          (fun _ =>
             String backslash
               (String backslash (String backslash (String backslash EmptyString))))
          value)).




(** A character that [lokiSpecialRegexEscape] rewrites. *)
Definition escaped (c : ascii) : bool :=
  Ascii.eqb c backslash || metacharacter c || Ascii.eqb c quote.

(** What one character of the value becomes in [lokiSpecialRegexEscape]. *)
Definition escapeOne (c : ascii) : string :=
  if Ascii.eqb c backslash then
    String backslash
      (String backslash (String backslash (String backslash EmptyString)))
  else if metacharacter c || Ascii.eqb c quote then
    String backslash (String backslash (String c EmptyString))
  else String c EmptyString.

(** Reading an escaped text back: four backslashes are a backslash, two
    backslashes and a character are that character. *)
Fixpoint unescape (text : string) : string :=
  match text with
  | EmptyString => EmptyString
  | String a rest =>
      if Ascii.eqb a backslash then
        match rest with
        | String _ (String c rest') =>
            if Ascii.eqb c backslash then
              match rest' with
              | String _ rest'' => String backslash (unescape rest'')
              | EmptyString => String backslash EmptyString
              end
            else String c (unescape rest')
        | _ => String a EmptyString
        end
      else String a (unescape rest)
  end.

(** A string none of whose characters [lokiSpecialRegexEscape] rewrites. *)
Fixpoint plain (value : string) : bool :=
  match value with
  | EmptyString => true
  | String c rest => negb (escaped c) && plain rest
  end.

(** ** Context queries, lines 428-503 *)

(** The members of [LogRowModel] that the context query reads; [labels]
    holds the keys of the labels object in the order of [Object.keys], each
    with its value. *)
Record LogRowModel : Type := mkLogRowModel {
  labels : list (string * string);
  timeEpochMs : Z
}.

Record LokiContextQueryOptions : Type := mkLokiContextQueryOptions {
  context_direction : option Direction;
  context_limit : option Z
}.

(** The object that [prepareLogRowContextQueryTarget] returns. *)
Record ContextTarget : Type := mkContextTarget {
  ct_limit : Z;
  ct_query : string;
  ct_expr : string;
  ct_direction : Direction;
  ct_start : Z;
  ct_end : Z
}.

Definition doubleQuote : ascii := "034"%char.

(** [prepareLogRowContextQueryTarget], lines 475-503. *)
Definition prepareLogRowContextQueryTarget (row : LogRowModel) (limit : Z)
  (direction : Direction) : ContextTarget :=
  let query :=
    String.concat ","
      (List.map
         (fun label =>
            (fst label ++ "=" ++
             String doubleQuote (snd label ++ String doubleQuote EmptyString))%string)
         (labels row)) in
  let contextTimeBuffer := 2 * 60 * 60 * 1000 * 1000000 in
  let timeEpochNs := JsNumber.times (timeEpochMs row) 1000000 in
  match direction with
  | BACKWARD =>
      {| ct_limit := limit;
         ct_query := ("{" ++ query ++ "}")%string;
         ct_expr := ("{" ++ query ++ "}")%string;
         ct_direction := direction;
         ct_start := JsNumber.minus timeEpochNs contextTimeBuffer;
         ct_end := timeEpochNs |}
  | FORWARD =>
      {| ct_limit := limit;
         ct_query := ("{" ++ query ++ "}")%string;
         ct_expr := ("{" ++ query ++ "}")%string;
         ct_direction := direction;
         ct_start := timeEpochNs;
         ct_end := JsNumber.plus timeEpochNs contextTimeBuffer |}
  end.

(** A call of [_request(apiUrl, target)] for a context query, and the
    backend as the context query sees it. *)
Record ContextRequest : Type := mkContextRequest {
  cr_apiUrl : string;
  cr_target : ContextTarget
}.

Definition ContextBackend : Type := ContextRequest -> HttpOutcome.

(** What the promise of [getLogRowContext] is rejected with: the error
    object built in its two [catchError] callbacks, or the [TypeError] of
    reading a member of [undefined]. *)
Inductive ContextFailure : Type :=
| ContextError (text : string) (code : option Z) (codeText : option string)
| ContextTypeError.

Inductive ContextSettled : Type :=
| ContextFulfilled (value : option DataQueryResponse)
| ContextRejected (reason : ContextFailure)
| ContextPending.

(** The two converters of [./result_transformer] that the context query
    maps over the streams of an answer; each stands for the whole
    [streams.map(stream => converter(stream, reverse))]. *)
Class ContextConverters : Type := {
  lokiStreamResultToDataFrame : Json -> bool -> list Datum;
  legacyLogStreamToDataFrame : Json -> bool -> list Datum
}.

Section ContextQuery.

Context `{ContextConverters}.

Definition contextObservable (E A : Type) : Type :=
  Rx.Observable ContextBackend (list ContextRequest) E A.

Definition context_request (apiUrl : string) (target : ContextTarget)
  : list ContextRequest ->
    contextObservable HttpMessage HttpMessage * list ContextRequest :=
  fun log =>
    let req := {| cr_apiUrl := apiUrl; cr_target := target |} in
    (fun backend log' => (from_promise (backend req), log'), log ++ [req]).

(** The error object of the two [catchError] callbacks. *)
Definition contextError (err : HttpMessage) : ContextFailure :=
  ContextError "Error during context query. Please check JS console logs."
    (status err) (statusText err).

(** [res.data ? res.data.data.result.map(...) : []] *)
Definition modernContextFrames (res : HttpMessage) (reverse : bool)
  : list Datum + ContextFailure :=
  match body res with
  | NoBody => inl []
  | TextBody text => if truthy_string text then inr ContextTypeError else inl []
  | LokiBody _ result => inl (lokiStreamResultToDataFrame result reverse)
  | LegacyBody _ => inr ContextTypeError
  | ErrorBody _ => inr ContextTypeError
  end.

(** [res.data ? res.data.streams.map(...) : []] *)
Definition legacyContextFrames (res : HttpMessage) (reverse : bool)
  : DataQueryResponse + ContextFailure :=
  match body res with
  | NoBody => inl {| data := []; key := None; state := None |}
  | TextBody text =>
      if truthy_string text then inr ContextTypeError
      else inl {| data := []; key := None; state := None |}
  | LegacyBody streams =>
      inl {| data := legacyLogStreamToDataFrame streams reverse;
             key := None; state := None |}
  | LokiBody _ _ => inr ContextTypeError
  | ErrorBody _ => inr ContextTypeError
  end.

Definition contextPromise (r : Rx.Run ContextFailure DataQueryResponse)
  : ContextSettled :=
  match Rx.ending r with
  | Rx.Completed => ContextFulfilled (List.last (List.map Some (Rx.emitted r)) None)
  | Rx.Failed reason => ContextRejected reason
  | Rx.Open => ContextPending
  end.

(** The arguments that [getLogRowContext] derives from its options:
    [(options && options.limit) || 10],
    [(options && options.direction) || 'BACKWARD'] and
    [options && options.direction === 'FORWARD']. *)
Definition contextLimit (options : option LokiContextQueryOptions) : Z :=
  match options with
  | Some o =>
      if truthy_number (context_limit o)
      then match context_limit o with Some l => l | None => 10 end
      else 10
  | None => 10
  end.

Definition contextDirection (options : option LokiContextQueryOptions)
  : Direction :=
  match options with
  | Some o => match context_direction o with Some d => d | None => BACKWARD end
  | None => BACKWARD
  end.

Definition contextReverse (options : option LokiContextQueryOptions) : bool :=
  match options with
  | Some o => match context_direction o with Some FORWARD => true | _ => false end
  | None => false
  end.

Definition contextTarget (row : LogRowModel)
  (options : option LokiContextQueryOptions) : ContextTarget :=
  prepareLogRowContextQueryTarget row (contextLimit options)
    (contextDirection options).

(** [getLogRowContext], lines 428-473.  The two results handed to [iif] are
    written as arguments, so both are evaluated each time the callback of
    [switchMap] runs: the legacy request goes to the transport and the frames
    of the modern answer are built before [iif] looks at the status. *)
Definition getLogRowContext (row : LogRowModel)
  (options : option LokiContextQueryOptions)
  : list ContextRequest ->
    (ContextBackend -> list ContextRequest -> ContextSettled * list ContextRequest)
    * list ContextRequest :=
  fun log =>
    let target := contextTarget row options in
    let reverse := contextReverse options in
    let (response, log1) := context_request RANGE_QUERY_ENDPOINT target log in
    (fun backend log' =>
       let (r, log2) :=
         Rx.switchMap
           (fun res backend log'' =>
              let (legacy, log3) :=
                context_request LEGACY_QUERY_ENDPOINT target log'' in
              match modernContextFrames res reverse with
              | inr thrown => (Rx.throwError thrown, log3)
              | inl frames =>
                  Rx.iif (is_404 (status res))
                    (Rx.pipe
                       (fun source =>
                          Rx.map (fun res => legacyContextFrames res reverse)
                            (Rx.catchError
                               (fun err => Rx.throwError (contextError err))
                               source))
                       legacy)
                    (fun _ log4 =>
                       (Rx.of_value
                          {| data := frames; key := None; state := None |},
                        log4))
                    backend log3
              end)
           (Rx.pipe
              (Rx.catchError
                 (fun err =>
                    if is_404 (status err) then Rx.of_value err
                    else Rx.throwError (contextError err)))
              response)
           backend log' in
       (contextPromise r, log2),
     log1).

(** The two requests of a context query. *)
Definition modernContextRequest (row : LogRowModel)
  (options : option LokiContextQueryOptions) : ContextRequest :=
  {| cr_apiUrl := RANGE_QUERY_ENDPOINT; cr_target := contextTarget row options |}.

Definition legacyContextRequest (row : LogRowModel)
  (options : option LokiContextQueryOptions) : ContextRequest :=
  {| cr_apiUrl := LEGACY_QUERY_ENDPOINT; cr_target := contextTarget row options |}.

End ContextQuery.

From Stdlib Require Import DecimalString.

(** ** The connection test, lines 505-555 *)

(** The text of a whole number in a template string. *)
Definition numberText (n : Z) : string := NilZero.string_of_int (Z.to_int n).

(** The [data] member of an answer of the label endpoints, as far as the
    test reads it. *)
Inductive LabelBody : Type :=
| LabelValues (values : list string)
| LabelMessage (text : string)
| LabelObject
| LabelText (text : string)
| LabelNothing.

Record LabelReply : Type := mkLabelReply {
  label_status : option Z;
  label_statusText : option string;
  label_data : LabelBody
}.

Inductive LabelOutcome : Type :=
| LabelResolved (response : LabelReply)
| LabelRejected (err : LabelReply).

Definition label_settled_with (outcome : LabelOutcome) : LabelReply :=
  match outcome with
  | LabelResolved response => response
  | LabelRejected err => err
  end.

(** A call of [_request(apiUrl, { start })]. *)
Record LabelRequest : Type := mkLabelRequest {
  label_apiUrl : string;
  label_start : string
}.

Definition LabelBackend : Type := LabelRequest -> LabelOutcome.

(** The object the test resolves with. *)
Record TestResult : Type := mkTestResult {
  test_status : string;
  test_message : string
}.

Inductive TestSettled : Type :=
| TestFulfilled (value : option TestResult)
| TestRejected (reason : LabelReply)
| TestPending.

Definition labelObservable (E A : Type) : Type :=
  Rx.Observable LabelBackend (list LabelRequest) E A.

Definition label_from_promise (outcome : LabelOutcome)
  : Rx.Run LabelReply LabelReply :=
  match outcome with
  | LabelResolved response => Rx.of_value response
  | LabelRejected err => Rx.throwError err
  end.

Definition label_request (apiUrl start : string)
  : list LabelRequest -> labelObservable LabelReply LabelReply * list LabelRequest :=
  fun log =>
    let req := {| label_apiUrl := apiUrl; label_start := start |} in
    (fun backend log' => (label_from_promise (backend req), log'), log ++ [req]).

(** The callback of [map]: labels were found or not. *)
Definition connectionResult (res : LabelReply) : TestResult :=
  match label_data res with
  | LabelValues (_ :: _) =>
      {| test_status := "success";
         test_message := "Data source connected and labels found." |}
  | _ =>
      {| test_status := "error";
         test_message :=
           "Data source connected, but no labels received. Verify that Loki and Promtail is configured properly." |}
  end.

(** The callback of the last [catchError]: the message of a failure. *)
Definition connectionFailure (err : LabelReply) : TestResult :=
  let named :=
    if truthy_text (label_statusText err)
    then match label_statusText err with Some text => text | None => EmptyString end
    else "Cannot connect to Loki" in
  let coded :=
    if truthy_number (label_status err)
    then match label_status err with
         | Some code => (". " ++ numberText code)%string
         | None => EmptyString
         end
    else EmptyString in
  let detailed :=
    match label_data err with
    | LabelMessage text =>
        if truthy_string text then (". " ++ text)%string
        else ". [object Object]"
    | LabelValues _ => ". [object Object]"
    | LabelObject => ". [object Object]"
    | LabelText text =>
        if truthy_string text then (". " ++ text)%string else EmptyString
    | LabelNothing => EmptyString
    end in
  {| test_status := "error";
     test_message := ("Loki: " ++ named ++ coded ++ detailed)%string |}.

Definition testPromise (r : Rx.Run LabelReply TestResult) : TestSettled :=
  match Rx.ending r with
  | Rx.Completed => TestFulfilled (List.last (List.map Some (Rx.emitted r)) None)
  | Rx.Failed reason => TestRejected reason
  | Rx.Open => TestPending
  end.

(** The [start] parameter: ten minutes before [Date.now()], in nanoseconds. *)
Definition testStart (now : Z) : string :=
  (numberText (now - 10 * 60 * 1000) ++ "000000")%string.

(** [testDatasource], lines 505-555, at the time [now] of [Date.now()]. *)
Definition testDatasource (now : Z)
  : list LabelRequest ->
    (LabelBackend -> list LabelRequest -> TestSettled * list LabelRequest)
    * list LabelRequest :=
  fun log =>
    let start := testStart now in
    let (response, log1) := label_request "/loki/api/v1/label" start log in
    (fun backend log' =>
       let (r, log2) :=
         Rx.pipe
           (fun source =>
              Rx.catchError
                (fun err => Rx.of_value (connectionFailure err))
                (Rx.map (fun res => inl (connectionResult res)) source))
           (Rx.switchMap
              (fun response =>
                 Rx.iif (is_404 (label_status response))
                   (Rx.defer (fun log'' =>
                      label_request "/api/prom/label" start log''))
                   (Rx.defer (fun log'' =>
                      (fun _ log''' => (Rx.of_value response, log'''), log''))))
              (Rx.pipe
                 (Rx.catchError
                    (fun err =>
                       if is_404 (label_status err) then Rx.of_value err
                       else Rx.throwError err))
                 response))
           backend log' in
       (testPromise r, log2),
     log1).

Definition modernLabelRequest (now : Z) : LabelRequest :=
  {| label_apiUrl := "/loki/api/v1/label"; label_start := testStart now |}.

Definition legacyLabelRequest (now : Z) : LabelRequest :=
  {| label_apiUrl := "/api/prom/label"; label_start := testStart now |}.

(** ** A sample instance

    A concrete datasource, backend and set of collaborators, used to run the
    embedding on explicit inputs. *)

Module Sample.

Definition collaborators : Collaborators :=
  {| parseQuery := fun text => {| pq_query := text; pq_regexp := EmptyString |};
     templateSrv_replace := fun text => text;
     dateMath_parse := fun _ _ => 0;
     lokiResultsToTableModel := fun result _ _ _ => TableDatum result;
     processRangeQueryResponse :=
       fun _ target _ _ _ _ _ =>
         Rx.of_value
           {| data := [DataFrameDatum "modern"];
              key := Some (refId target);
              state := None |};
     lokiLegacyStreamsToDataframes :=
       fun response _ _ _ _ =>
         match response with
         | LegacyBody streams => [DataFrameDatum streams]
         | _ => []
         end;
     safeStringifyValue := fun value => value;
     convertToWebSocketUrl := fun url => url;
     encodeURIComponent := fun text => text;
     liveStream := fun _ => Rx.mkRun [[DataFrameDatum "line"]] Rx.Open |}.

Definition datasource : LokiDatasource :=
  {| instanceSettings_url := "http://loki";
     instanceSettings_jsonData := "{}";
     maxLines := DEFAULT_MAX_LINES |}.

Definition reply (code : Z) (flagged : bool) (content : Body) : HttpMessage :=
  {| status := Some code;
     statusText := None;
     cancelled := flagged;
     body := content;
     message := None |}.

(** A backend that only knows the legacy API. *)
Definition legacyOnly : Backend :=
  fun request =>
    if (apiUrl request =? LEGACY_QUERY_ENDPOINT)%string
    then Resolved (reply 200 false (LegacyBody "legacy"))
    else Rejected (reply 404 false NoBody).

(** A backend whose 404 arrives flagged as cancelled. *)
Definition cancelled404 : Backend :=
  fun _ => Rejected (reply 404 true NoBody).

(** A backend that answers an instant query with the given result type. *)
Definition answering (resultType : string) : Backend :=
  fun _ => Resolved (reply 200 false (LokiBody resultType "[]")).

Definition target (liveStreaming : bool) : LokiQuery :=
  {| expr := "{job=app}"; refId := "A"; hide := false;
     liveStreaming := liveStreaming |}.

Definition window (maxDataPoints : option Z) (fromMs toMs : Z)
  : RangeQueryOptions :=
  {| range := Some {| from := DateTimeValue fromMs; to := DateTimeValue toMs |};
     intervalMs := Some 1000;
     maxDataPoints := maxDataPoints;
     reverse := None |}.

Definition request (mode : option ExploreMode) (maxDataPoints : option Z)
  (batch : list LokiQuery) : DataQueryRequest :=
  {| targets := batch;
     exploreMode := mode;
     request_range := {| from := DateTimeValue 0; to := DateTimeValue 60000 |};
     request_intervalMs := Some 1000;
     request_maxDataPoints := maxDataPoints;
     request_reverse := None |}.

Definition resolved (v : Version) : World :=
  {| version := Some v; requests := []; subscriptions := [] |}.

End Sample.

(** ** More sample values *)

Module Examples.

(** A backend whose every answer is a rejection with status 500. *)
Definition failing : Backend :=
  fun _ => Rejected (Sample.reply 500 false (TextBody "boom")).

(** Collaborators whose range converter returns a time series. *)
Definition seriesCollaborators : Collaborators :=
  {| parseQuery := fun text => {| pq_query := text; pq_regexp := EmptyString |};
     templateSrv_replace := fun text => text;
     dateMath_parse := fun _ _ => 0;
     lokiResultsToTableModel := fun result _ _ _ => TableDatum result;
     processRangeQueryResponse :=
       fun _ target _ _ _ _ _ =>
         Rx.of_value
           {| data := [TimeSeriesDatum "series"];
              key := Some (refId target);
              state := None |};
     lokiLegacyStreamsToDataframes := fun _ _ _ _ _ => [];
     safeStringifyValue := fun value => value;
     convertToWebSocketUrl := fun url => url;
     encodeURIComponent := fun text => text;
     liveStream := fun _ => Rx.mkRun [] Rx.Open |}.

Definition converters : ContextConverters :=
  {| lokiStreamResultToDataFrame :=
       fun result reverse =>
         [DataFrameDatum (if reverse then "reversed" else result)];
     legacyLogStreamToDataFrame :=
       fun streams _ => [DataFrameDatum streams] |}.

Definition row : LogRowModel :=
  {| labels := [("job", "app"); ("host", "a")]; timeEpochMs := 1600000000000 |}.

(** Context backends: a modern backend, a backend that only knows the
    legacy API and answers 404 without a body, the same with the text body
    of a plain 404 page, and a backend that fails. *)
Definition contextModern : ContextBackend :=
  fun _ => Resolved (Sample.reply 200 false (LokiBody "streams" "rows")).

Definition contextLegacyOnly (notFound : Body) : ContextBackend :=
  fun request =>
    if (cr_apiUrl request =? LEGACY_QUERY_ENDPOINT)%string
    then Resolved (Sample.reply 200 false (LegacyBody "old rows"))
    else Rejected (Sample.reply 404 false notFound).

Definition contextFailing : ContextBackend :=
  fun _ => Rejected (Sample.reply 500 false NoBody).

(** Label backends. *)
Definition labelsFound : LabelBackend :=
  fun _ => LabelResolved (mkLabelReply (Some 200) None (LabelValues ["job"])).

Definition labelsLegacyOnly : LabelBackend :=
  fun request =>
    if (label_apiUrl request =? "/api/prom/label")%string
    then LabelResolved (mkLabelReply (Some 200) None (LabelValues ["job"]))
    else LabelRejected (mkLabelReply (Some 404) None LabelNothing).

Definition labelsUnreachable : LabelBackend :=
  fun _ => LabelRejected (mkLabelReply None None LabelNothing).

End Examples.

(** ** Arithmetic lemmas *)

Lemma ceil_div_pos (a b : Z) :
  0 < b -> JsNumber.ceil_div a b = - ((- a) / b).
Proof.
  intros Hb. destruct b as [|p|p]; try lia.
  unfold JsNumber.ceil_div, Qceiling, Qfloor. cbn.
  now rewrite Z.mul_1_r.
Qed.

Lemma ceil_div_bounds (a b : Z) :
  0 < b ->
  b * (JsNumber.ceil_div a b - 1) < a <= b * JsNumber.ceil_div a b.
Proof.
  intros Hb. rewrite (ceil_div_pos a b Hb).
  pose proof (Z.div_mod (- a) b ltac:(lia)) as Hdm.
  pose proof (Z.mod_pos_bound (- a) b Hb) as Hm.
  nia.
Qed.

Lemma gt_div_spec (a b c : Z) :
  b <> 0 ->
  JsNumber.gt (JsNumber.div a b) c = true <->
  (0 < b /\ c * b < a) \/ (b < 0 /\ a < c * b).
Proof.
  intros Hb. unfold JsNumber.div.
  destruct (Z.eqb_spec b 0) as [->|_]; [contradiction|].
  unfold JsNumber.gt. rewrite negb_true_iff.
  unfold Qle_bool. rewrite Z.leb_gt.
  destruct b as [|p|p]; [contradiction| |]; cbn.
  - split; [left|intros [?|?]]; lia.
  - split; [right|intros [?|?]]; lia.
Qed.

(** ** Rounding to a double *)

(** A whole number with at most 53 significant bits is a double. *)
Lemma round_exact (z e : Z) :
  0 <= e -> (2 ^ e | z) -> Z.abs z < 2 ^ (53 + e) -> JsNumber.round z = z.
Proof.
  intros He Hdiv Hlt. unfold JsNumber.round.
  set (a := Z.abs z) in *.
  set (k := Z.max 0 (Z.log2 a - 52)).
  assert (Hk : 0 <= k <= e).
  { unfold k. destruct (Z.eq_dec a 0) as [Ha | Ha].
    - rewrite Ha. cbn. lia.
    - assert (0 < a) by (unfold a in *; lia).
      assert (Z.log2 a < 53 + e) by (apply Z.log2_lt_pow2; lia).
      lia. }
  assert (Hp : 0 < 2 ^ k) by (apply Z.pow_pos_nonneg; lia).
  assert (Hka : (2 ^ k | a)).
  { unfold a. apply Z.divide_abs_r.
    apply Z.divide_trans with (2 ^ e); [ | exact Hdiv ].
    exists (2 ^ (e - k)). rewrite <- Z.pow_add_r by lia. f_equal. lia. }
  destruct Hka as [m Hm].
  unfold JsNumber.nearest_even.
  replace (a mod 2 ^ k) with 0
    by (rewrite Hm; symmetry; apply Z.mod_mul; lia).
  replace (a / 2 ^ k) with m
    by (rewrite Hm; symmetry; apply Z.div_mul; lia).
  replace (2 * 0 <? 2 ^ k) with true by (symmetry; apply Z.ltb_lt; lia).
  rewrite <- Hm. unfold a. destruct z; cbn; lia.
Qed.

(** In the binade from [2^k], the doubles are the multiples of
    [2^(k-52)], and rounding moves a number by at most half of that. *)
Lemma round_binade (z k : Z) :
  53 <= k -> 2 ^ k <= z < 2 ^ (k + 1) ->
  (2 ^ (k - 52) | JsNumber.round z) /\
  2 * Z.abs (JsNumber.round z - z) <= 2 ^ (k - 52) /\
  2 ^ k <= JsNumber.round z <= 2 ^ (k + 1).
Proof.
  intros Hk [Hlo Hhi].
  assert (H0 : 0 < 2 ^ k) by (apply Z.pow_pos_nonneg; lia).
  assert (Hz : 0 < z) by lia.
  unfold JsNumber.round.
  rewrite (Z.abs_eq z) by lia.
  assert (Hlog : Z.log2 z = k) by (apply Z.log2_unique; lia).
  rewrite Hlog. rewrite Z.max_r by lia.
  rewrite (Z.sgn_pos z Hz), Z.mul_1_l.
  set (p := 2 ^ (k - 52)).
  assert (Hp : 0 < p) by (apply Z.pow_pos_nonneg; lia).
  assert (Hpk : 2 ^ k = 2 ^ 52 * p).
  { unfold p. rewrite <- Z.pow_add_r by lia. f_equal. lia. }
  assert (Hpk1 : 2 ^ (k + 1) = 2 ^ 53 * p).
  { unfold p. rewrite <- Z.pow_add_r by lia. f_equal. lia. }
  pose proof (Z.div_mod z p ltac:(lia)) as Hdm.
  pose proof (Z.mod_pos_bound z p Hp) as Hr.
  set (q := z / p) in *. set (r := z mod p) in *.
  assert (Hq : 2 ^ 52 <= q < 2 ^ 53) by nia.
  assert (Hn : JsNumber.nearest_even z p = q \/ JsNumber.nearest_even z p = q + 1).
  { unfold JsNumber.nearest_even. fold q r.
    destruct (2 * r <? p), (p <? 2 * r), (Z.even q); auto. }
  assert (Hd : 2 * Z.abs (JsNumber.nearest_even z p * p - z) <= p).
  { unfold JsNumber.nearest_even. fold q r.
    destruct (Z.ltb_spec (2 * r) p); [ lia | ].
    destruct (Z.ltb_spec p (2 * r)); [ lia | ].
    destruct (Z.even q); lia. }
  split; [ | split ].
  - exists (JsNumber.nearest_even z p). reflexivity.
  - exact Hd.
  - rewrite Hpk, Hpk1. destruct Hn as [-> | ->]; nia.
Qed.

Lemma rem_between (n b : Z) :
  0 < b ->
  (0 <= n -> 0 <= JsNumber.rem n b <= n /\ JsNumber.rem n b < b) /\
  (n <= 0 -> n <= JsNumber.rem n b <= 0 /\ - b < JsNumber.rem n b).
Proof.
  intros Hb. unfold JsNumber.rem. split; intros Hn.
  - pose proof (Z.rem_bound_pos n b Hn Hb).
    pose proof (Z.rem_le n b Hn Hb). lia.
  - pose proof (Z.rem_opp_l' n b) as Hopp.
    pose proof (Z.rem_bound_pos (- n) b ltac:(lia) Hb).
    pose proof (Z.rem_le (- n) b ltac:(lia) Hb). lia.
Qed.

Lemma rem_billion_multiple (n : Z) :
  (1000000000 | n - JsNumber.rem n 1000000000).
Proof.
  unfold JsNumber.rem. exists (Z.quot n 1000000000).
  pose proof (Z.quot_rem' n 1000000000). lia.
Qed.

Lemma billion_multiple_of_512 (n : Z) : (1000000000 | n) -> (2 ^ 9 | n).
Proof.
  intros [k ->]. exists (k * 1953125). lia.
Qed.

(** Below 2^62 ns the two alignments of the code are exact. *)
Lemma align_down_exact (n : Z) :
  Z.abs n < 2 ^ 62 ->
  JsNumber.minus n (JsNumber.rem n 1000000000) =
    n - JsNumber.rem n 1000000000.
Proof.
  intros Hn. unfold JsNumber.minus.
  apply (round_exact _ 9); [ lia | | ].
  - apply billion_multiple_of_512, rem_billion_multiple.
  - destruct (rem_between n 1000000000 ltac:(lia)) as [Hpos Hneg].
    change (2 ^ (53 + 9)) with (2 ^ 62). lia.
Qed.

Lemma align_up_exact (n : Z) :
  - 2 ^ 62 < n < 2 ^ 62 - 1000000000 ->
  JsNumber.plus n (JsNumber.minus 1000000000 (JsNumber.rem n 1000000000)) =
    n + (1000000000 - JsNumber.rem n 1000000000).
Proof.
  intros Hn.
  destruct (rem_between n 1000000000 ltac:(lia)) as [Hpos Hneg].
  assert (Hinner :
    JsNumber.minus 1000000000 (JsNumber.rem n 1000000000) =
      1000000000 - JsNumber.rem n 1000000000).
  { unfold JsNumber.minus. apply (round_exact _ 0); [ lia | | ].
    - apply Z.divide_1_l.
    - change (2 ^ (53 + 0)) with 9007199254740992. lia. }
  rewrite Hinner. unfold JsNumber.plus.
  apply (round_exact _ 9); [ lia | | ].
  - apply billion_multiple_of_512.
    replace (n + (1000000000 - JsNumber.rem n 1000000000))
      with ((n - JsNumber.rem n 1000000000) + 1000000000) by lia.
    apply Z.divide_add_r; [ apply rem_billion_multiple | apply Z.divide_refl ].
  - change (2 ^ (53 + 9)) with (2 ^ 62). lia.
Qed.

Lemma nearest_even_lower (a p c : Z) :
  0 < p -> c * p <= a -> c <= JsNumber.nearest_even a p.
Proof.
  intros Hp Hc.
  assert (Hq : c <= a / p) by (apply Z.div_le_lower_bound; lia).
  unfold JsNumber.nearest_even.
  destruct (2 * (a mod p) <? p), (p <? 2 * (a mod p)), (Z.even (a / p)); lia.
Qed.

Lemma quotient_exponent_lower (n d : Z) :
  0 < d <= n ->
  0 <= JsNumber.quotient_exponent n d /\
  d * 2 ^ JsNumber.quotient_exponent n d <= n.
Proof.
  intros [Hd Hn]. unfold JsNumber.quotient_exponent.
  pose proof (Z.log2_le_mono d n Hn) as Hmono.
  pose proof (Z.log2_spec d Hd) as [_ Hdhi].
  pose proof (Z.log2_spec n ltac:(lia)) as [Hnlo _].
  pose proof (Z.log2_nonneg d) as Hd0.
  set (k := Z.log2 n - Z.log2 d) in *.
  replace (0 <=? k) with true by (symmetry; apply Z.leb_le; lia).
  destruct (Z.leb_spec (d * 2 ^ k) n) as [Hle | Hgt]; [ lia | ].
  assert (Hk : 1 <= k).
  { destruct (Z.eq_dec k 0) as [Hk0 | ]; [ | lia ].
    rewrite Hk0 in Hgt. cbn in Hgt. lia. }
  split; [ lia | ].
  assert (Hpow : 2 ^ Z.log2 n = 2 ^ Z.succ (Z.log2 d) * 2 ^ (k - 1)).
  { rewrite <- Z.pow_add_r by lia. f_equal. lia. }
  assert (0 < 2 ^ (k - 1)) by (apply Z.pow_pos_nonneg; lia).
  nia.
Qed.

(** A quotient of at least one stays at least one after rounding, so its
    ceiling is at least one. *)
Lemma ceil_quotient_lower (a b : Z) :
  0 < b <= a -> 1 <= JsNumber.ceil_quotient a b.
Proof.
  intros Hab.
  destruct (quotient_exponent_lower a b Hab) as [Hl0 Hl].
  unfold JsNumber.ceil_quotient.
  assert (Hq : (1 <= JsNumber.quotient a b)%Q).
  { unfold JsNumber.quotient.
    destruct (Z.eqb_spec a 0) as [ | _ ]; [ lia | ].
    rewrite (Z.abs_eq a) by lia. rewrite (Z.sgn_pos a) by lia.
    set (l := JsNumber.quotient_exponent a b) in *.
    destruct (Z.leb_spec 0 (l - 52)) as [He | He].
    - assert (Hp : 0 < 2 ^ (l - 52)) by (apply Z.pow_pos_nonneg; lia).
      assert (Hsplit : 2 ^ l = 2 ^ 52 * 2 ^ (l - 52)).
      { rewrite <- Z.pow_add_r by lia. f_equal. lia. }
      assert (Hbp : 0 < b * 2 ^ (l - 52)) by (apply Z.mul_pos_pos; lia).
      assert (Hle : 2 ^ 52 * (b * 2 ^ (l - 52)) <= a).
      { replace (2 ^ 52 * (b * 2 ^ (l - 52))) with (b * 2 ^ l)
          by (rewrite Hsplit; ring).
        exact Hl. }
      pose proof (nearest_even_lower a (b * 2 ^ (l - 52)) (2 ^ 52) Hbp Hle)
        as Hm.
      rewrite Z.mul_1_l.
      change 1%Q with (inject_Z 1). rewrite <- Zle_Qle. nia.
    - assert (Hp : 0 < 2 ^ (- (l - 52))) by (apply Z.pow_pos_nonneg; lia).
      assert (Hsplit : 2 ^ 52 = 2 ^ l * 2 ^ (- (l - 52))).
      { rewrite <- Z.pow_add_r by lia. f_equal. lia. }
      assert (Hone : 1 <= 2 ^ l) by (apply (Z.pow_le_mono_r 2 0 l); lia).
      assert (Hle : 2 ^ (- (l - 52)) * b <= a * 2 ^ (- (l - 52))).
      { rewrite (Z.mul_comm a). apply Z.mul_le_mono_nonneg_l; [ lia | ].
        apply Z.le_trans with (b * 2 ^ l); [ nia | exact Hl ]. }
      pose proof (nearest_even_lower (a * 2 ^ (- (l - 52))) b
                    (2 ^ (- (l - 52))) ltac:(lia) Hle) as Hm.
      rewrite Z.mul_1_l.
      unfold Qle. cbn [Qnum Qden]. rewrite Z2Pos.id by lia. lia. }
  apply Qceiling_resp_le in Hq. exact Hq.
Qed.

(** ** Interval calibration *)

Lemma adjustInterval_floor (interval range : Z) :
  1000 <= adjustInterval interval range.
Proof. unfold adjustInterval. lia. Qed.

(** C4, as the code has it.  The result is never below 1000 ms; and when the
    interval is not zero and [range / interval] exceeds 11000, the result is
    [Math.ceil(range / 11000)] raised to that floor of 1000 ms. *)
Theorem adjustInterval_calibrated (interval range : Z) :
  1000 <= adjustInterval interval range /\
  (interval <> 0 ->
   JsNumber.gt (JsNumber.div range interval) 11000 = true ->
   adjustInterval interval range = Z.max (JsNumber.ceil_div range 11000) 1000).
Proof.
  split; [apply adjustInterval_floor|].
  intros Hnz Hgt. unfold adjustInterval, needs_calibration.
  rewrite Hgt. destruct (Z.eqb_spec interval 0); [contradiction|reflexivity].
Qed.

Lemma adjustInterval_calibrated_witness :
  JsNumber.gt (JsNumber.div 22000000 1000) 11000 = true /\
  adjustInterval 1000 22000000 = 2000.
Proof.
  split; [reflexivity|].
  exact (proj2 (adjustInterval_calibrated 1000 22000000)
           ltac:(lia) eq_refl).
Defined.

(** C4 as stated fails: with [interval = 1] and [range = 22000] the ratio is
    22000, above 11000, and [Math.ceil(22000 / 11000)] is 2, but the floor
    makes the result 1000; with [interval = 0] and [range = 22000000] the
    JavaScript ratio is [Infinity], above 11000, the ceiling is 2000, and the
    guard on a zero interval makes the result 1000. *)
Lemma adjustInterval_not_plain_ceiling :
  (JsNumber.gt (JsNumber.div 22000 1) 11000 = true /\
   adjustInterval 1 22000 <> JsNumber.ceil_div 22000 11000) /\
  (JsNumber.gt (JsNumber.div 22000000 0) 11000 = true /\
   adjustInterval 0 22000000 <> JsNumber.ceil_div 22000000 11000).
Proof. repeat split; discriminate. Qed.

(** C10.  A zero interval never enters the recomputation, whatever the
    range: the guard [interval !== 0] decides before the ratio is looked at,
    and the result is the floor of 1000 ms. *)
Theorem adjustInterval_zero_interval (range : Z) :
  needs_calibration 0 range = false /\ adjustInterval 0 range = 1000.
Proof.
  unfold adjustInterval, needs_calibration. cbn. split; reflexivity.
Qed.

(** ** Range alignment *)

Section Properties.

Context `{Collaborators}.
Variable this : LokiDatasource.

Lemma createRangeQuery_aligned (target : LokiQuery)
  (options : RangeQueryOptions) (r : TimeRange) :
  range options = Some r ->
  truthy_number (intervalMs options) = true ->
  let a := alignedTimes (getTime (from r) false) (getTime (to r) true) in
  rq_start (createRangeQuery this target options) = Some (al_start a) /\
  rq_end (createRangeQuery this target options) = Some (al_end a).
Proof.
  intros Hr Hi. unfold createRangeQuery. rewrite Hr, Hi. split; reflexivity.
Qed.

(** C5, as the code has it.  For every [startNs] from the epoch on and
    below 2^62 the aligned start is [startNs - startNs % 1e9], a multiple
    of 1e9 that is not after [startNs].  For every [endNs] between -2^62
    and 2^62 - 1e9 the aligned end is [endNs + (1e9 - endNs % 1e9)], a
    multiple of 1e9 that is not before [endNs].  These are the [start] and
    [end] of the range request that [createRangeQuery] builds from a window
    that has a range and an interval.  2^62 ns after the epoch is
    2116-02-20T23:53:38Z; from there on a double holds only every other
    multiple of 1e9. *)
Theorem alignedTimes_expands :
  (forall startNs endNs : Z,
     let a := alignedTimes startNs endNs in
     (0 <= startNs < 2 ^ 62 ->
      al_start a = startNs - JsNumber.rem startNs 1000000000 /\
      (1000000000 | al_start a) /\
      al_start a <= startNs) /\
     (- 2 ^ 62 < endNs < 2 ^ 62 - 1000000000 ->
      al_end a = endNs + (1000000000 - JsNumber.rem endNs 1000000000) /\
      (1000000000 | al_end a) /\
      endNs <= al_end a)) /\
  (forall (target : LokiQuery) (options : RangeQueryOptions) (r : TimeRange),
     range options = Some r ->
     truthy_number (intervalMs options) = true ->
     let a := alignedTimes (getTime (from r) false) (getTime (to r) true) in
     rq_start (createRangeQuery this target options) = Some (al_start a) /\
     rq_end (createRangeQuery this target options) = Some (al_end a)).
Proof.
  split; [|exact createRangeQuery_aligned].
  intros startNs endNs. cbv zeta. unfold alignedTimes, al_start, al_end.
  split.
  - intros Hs. rewrite (align_down_exact startNs ltac:(lia)).
    split; [reflexivity|]. split; [apply rem_billion_multiple|].
    destruct (rem_between startNs 1000000000 ltac:(lia)) as [Hrem _].
    specialize (Hrem ltac:(lia)). lia.
  - intros He. rewrite (align_up_exact endNs He).
    split; [reflexivity|]. split.
    + replace (endNs + (1000000000 - JsNumber.rem endNs 1000000000))
        with ((endNs - JsNumber.rem endNs 1000000000) + 1000000000) by lia.
      apply Z.divide_add_r; [apply rem_billion_multiple|apply Z.divide_refl].
    + destruct (rem_between endNs 1000000000 ltac:(lia)) as [Hpos Hneg].
      lia.
Qed.

(** ** Line limits *)

Lemma min_or_infinity_cases (x : option Z) (m : Z) :
  (forall v, x = Some v -> v <> 0 -> JsNumber.min_or_infinity x m = Z.min v m) /\
  (x = None \/ x = Some 0 -> JsNumber.min_or_infinity x m = m).
Proof.
  split.
  - intros v -> Hv. cbn. destruct (Z.eqb_spec v 0); [contradiction|reflexivity].
  - intros [->| ->]; reflexivity.
Qed.

(** C7, as the code has it.  The instant request that [runInstantQuery]
    hands to the transport carries [limit] and the live target carries
    [size]; each is [min(maxDataPoints, maxLines)] when [maxDataPoints] is
    present and not zero, and [maxLines] when it is absent or zero. *)
Theorem limit_is_min_or_configured (target : LokiQuery)
  (options : DataQueryRequest) (live : RangeQueryOptions)
  (responseListLength : nat) (w : World) :
  requests (snd (runInstantQuery this target options responseListLength w)) =
    requests w ++ [instantRequest this target options] /\
  (forall m, request_maxDataPoints options = Some m -> m <> 0 ->
     iq_limit (instantQuery this target options) = Z.min m (maxLines this)) /\
  (request_maxDataPoints options = None \/
   request_maxDataPoints options = Some 0 ->
     iq_limit (instantQuery this target options) = maxLines this) /\
  (forall m, maxDataPoints live = Some m -> m <> 0 ->
     lt_size (createLiveTarget this target live) = Z.min m (maxLines this)) /\
  (maxDataPoints live = None \/ maxDataPoints live = Some 0 ->
     lt_size (createLiveTarget this target live) = maxLines this).
Proof.
  split; [reflexivity|].
  pose proof (min_or_infinity_cases (request_maxDataPoints options)
                (maxLines this)) as [Hi1 Hi2].
  pose proof (min_or_infinity_cases (maxDataPoints live) (maxLines this))
    as [Hl1 Hl2].
  repeat split; assumption.
Qed.

(** ** Version detection *)

Lemma getVersion_cached (w : World) (cached : Version) :
  version w = Some cached ->
  snd (getVersion w) = w /\
  forall backend w', fst (getVersion w) backend w' = (Fulfilled cached, w').
Proof.
  intros Hv. unfold getVersion. rewrite Hv. split; reflexivity.
Qed.

Lemma getVersion_probing (w : World) :
  version w = None ->
  snd (getVersion w) = issue probe w /\
  forall backend w',
    fst (getVersion w) backend w' =
      (Fulfilled (detected (backend probe)),
       set_version (detected (backend probe)) w').
Proof.
  intros Hv. unfold getVersion. rewrite Hv. split; [reflexivity|].
  intros backend w'. cbn. fold probe.
  destruct (backend probe) as [response|err]; cbn; [reflexivity|].
  destruct (is_404 (status err)); reflexivity.
Qed.

Lemma detected_v0 (outcome : HttpOutcome) :
  detected outcome = v0 <->
  exists err, outcome = Rejected err /\ status err = Some 404.
Proof.
  destruct outcome as [response|err]; cbn.
  - split; [discriminate|]. intros [e [He _]]. discriminate.
  - unfold is_404. destruct (status err) as [code|] eqn:Hs.
    + destruct (Z.eqb_spec code 404) as [->|Hne].
      * split; [|reflexivity]. intros _. exists err. split; [reflexivity|assumption].
      * split; [discriminate|]. intros [e [He Hc]].
        injection He as <-. congruence.
    + split; [discriminate|]. intros [e [He Hc]].
      injection He as <-. congruence.
Qed.

(** C3, as the code has it.  [getVersion] never rejects: whatever the
    probe's outcome, the promise is fulfilled with a version.  Without a
    cached version exactly one probe goes to the range endpoint; its answer
    stores the version it detects, whatever the field holds by then, and
    that version is ['v0'] exactly when the probe is rejected with status
    404, ['v1'] when it is resolved or rejected with another status.  With
    a cached version the call returns it, issues no request and leaves the
    instance as it is.  The call itself never touches the field, and no
    answer clears it: once set, the field stays set. *)
Theorem getVersion_resolves_and_caches (w : World) (backend : Backend) :
  exists v,
    (forall w',
       fst (fst (getVersion w) backend w') = Fulfilled v /\
       requests (snd (fst (getVersion w) backend w')) = requests w') /\
    (version w = None ->
       requests (snd (getVersion w)) = requests w ++ [probe] /\
       (forall w', version (snd (fst (getVersion w) backend w')) = Some v) /\
       (v = v0 <->
        exists err, backend probe = Rejected err /\ status err = Some 404) /\
       (v = v1 <->
        (exists response, backend probe = Resolved response) \/
        (exists err, backend probe = Rejected err /\ status err <> Some 404))) /\
    (forall cached, version w = Some cached ->
       v = cached /\
       snd (getVersion w) = w /\
       forall w', snd (fst (getVersion w) backend w') = w') /\
    version (snd (getVersion w)) = version w /\
    (forall w',
       version w' <> None ->
       version (snd (fst (getVersion w) backend w')) <> None).
Proof.
  destruct (version w) as [cached|] eqn:Hv.
  - destruct (getVersion_cached w cached Hv) as [Hs Hf].
    exists cached. split; [|split; [|split; [|split]]].
    + intros w'. rewrite Hf. split; reflexivity.
    + discriminate.
    + intros c Hc. injection Hc as <-. split; [reflexivity|].
      split; [assumption|]. intros w'. now rewrite Hf.
    + now rewrite Hs.
    + intros w' Hset. now rewrite Hf.
  - destruct (getVersion_probing w Hv) as [Hs Hf].
    exists (detected (backend probe)).
    split; [|split; [|split; [|split]]];
      [| | discriminate | now rewrite Hs | intros w' _; now rewrite Hf ].
    + intros w'. rewrite Hf. split; reflexivity.
    + intros _. split; [now rewrite Hs|].
      split; [intros w'; now rewrite Hf|].
      split; [apply detected_v0|].
      pose proof (detected_v0 (backend probe)) as H0.
      destruct (backend probe) as [response|err] eqn:Hb; cbn in *.
      * split; [intros _; left; now exists response|reflexivity].
      * destruct (is_404 (status err)) eqn:H4.
        -- split; [discriminate|].
           intros [[r Hr]|[e [He Hne]]]; [discriminate|].
           injection He as <-. destruct H0 as [H0 _].
           destruct (H0 eq_refl) as [e' [He' Hs']]. injection He' as <-.
           contradiction.
        -- split; [|reflexivity]. intros _. right. exists err.
           split; [reflexivity|]. intros Hs4. unfold is_404 in H4.
           rewrite Hs4 in H4. discriminate.
Qed.

(** ** Instant queries *)

(** C6.  When the backend answers the instant request with a response (not
    flagged as cancelled) that declares a result type, [runInstantQuery]
    fails with the mode-mismatch error and emits nothing if the type is
    ["streams"]; for any other type it emits a single response holding the
    one table of the converter, under the key [<refId>_instant], and
    completes. *)
Theorem instant_query_result_shape (target : LokiQuery)
  (options : DataQueryRequest) (responseListLength : nat) (w w' : World)
  (backend : Backend) (response : HttpMessage) (resultType : string)
  (result : Json) :
  backend (instantRequest this target options) = Resolved response ->
  cancelled response = false ->
  body response = LokiBody resultType result ->
  let run :=
    fst (fst (runInstantQuery this target options responseListLength w)
           backend w') in
  (resultType = "streams"%string ->
   run =
     Rx.mkRun []
       (Rx.Failed
          (JsError
             "Metrics mode does not support logs. Use an aggregation or switch to Logs mode."))) /\
  (resultType <> "streams"%string ->
   run =
     Rx.mkRun
       [{| data :=
             [lokiResultsToTableModel result responseListLength
                (refId target) true];
           key := Some (refId target ++ "_instant")%string;
           state := None |}]
       Rx.Completed).
Proof.
  intros Hb Hc Hbody run. subst run.
  unfold runInstantQuery, _request. cbn [fst snd].
  unfold Rx.pipe. fold (instantRequest this target options). rewrite Hb.
  cbn [from_promise fst]. unfold Rx.of_value, Rx.catchError. cbn [Rx.ending Rx.emitted].
  unfold Rx.filter. cbn [Rx.emitted List.filter Rx.ending]. rewrite Hc.
  unfold Rx.map. cbn [Rx.emitted Rx.ending Rx.map_values].
  unfold instantResponse. rewrite Hbody.
  unfold LokiResultType_Stream.
  destruct (String.eqb_spec resultType "streams") as [->|Hne].
  - split; [reflexivity|]. intros Hn. contradiction.
  - split; [intros He; contradiction|reflexivity].
Qed.

(** ** Fallback to the legacy endpoint *)

(** What the pipeline of [runLegacyQuery] makes of the transport's outcome. *)
Lemma runLegacyQuery_request (target : LokiQuery) (options : RangeQueryOptions)
  (w : World) :
  liveStreaming target = false ->
  snd (runLegacyQuery this target options w) =
    issue (legacyRequest this target options) w /\
  forall backend w',
    snd (fst (runLegacyQuery this target options w) backend w') = w' /\
    let run := fst (fst (runLegacyQuery this target options w) backend w') in
    (forall response,
       backend (legacyRequest this target options) = Resolved response ->
       cancelled response = false ->
       run =
         Rx.mkRun
           [{| data :=
                 lokiLegacyStreamsToDataframes (body response)
                   (legacyQuery this target options) (maxLines this)
                   (instanceSettings_jsonData this) (reverse options);
               key := Some (refId target ++ "_log")%string;
               state := None |}]
           Rx.Completed) /\
    (forall err,
       backend (legacyRequest this target options) = Rejected err ->
       cancelled err = false ->
       run = Rx.mkRun [] (Rx.Failed (QueryError (processError err target)))) /\
    (cancelled (settled_with (backend (legacyRequest this target options))) = true ->
     run = Rx.mkRun [] Rx.Completed).
Proof.
  intros Hlive. unfold runLegacyQuery. rewrite Hlive.
  unfold _request. cbn [fst snd]. fold (legacyRequest this target options).
  split; [reflexivity|]. intros backend w'.
  unfold Rx.pipe. cbn [fst snd]. split; [reflexivity|].
  destruct (backend (legacyRequest this target options)) as [response|err];
    cbn [settled_with from_promise].
  - unfold Rx.of_value, Rx.catchError, Rx.filter, Rx.map.
    cbn [Rx.ending Rx.emitted List.filter].
    repeat split.
    + intros r Hr Hc. injection Hr as <-. rewrite Hc. reflexivity.
    + discriminate.
    + intros Hc. rewrite Hc. reflexivity.
  - unfold Rx.throwError, Rx.catchError, Rx.filter, Rx.map, throwUnless.
    cbn [Rx.ending Rx.emitted].
    repeat split.
    + discriminate.
    + intros e He Hc. injection He as <-. rewrite Hc. reflexivity.
    + intros Hc. rewrite Hc. cbn [Rx.emitted Rx.ending Rx.of_value app List.filter].
      rewrite Hc. reflexivity.
Qed.

Lemma mergeMap_of_value {Env World E A B : Type}
  (project : A -> Rx.Observable Env World E B)
  (source : Rx.Observable Env World E A) (env : Env) (w : World) (a : A)
  (w1 : World) :
  source env w = (Rx.of_value a, w1) ->
  Rx.mergeMap project source env w = project a env w1.
Proof.
  intros Hs. unfold Rx.mergeMap. rewrite Hs.
  cbn [Rx.of_value Rx.emitted Rx.ending List.map Rx.merge].
  destruct (project a env w1) as [[values last] w2].
  destruct last; cbn [Rx.ending Rx.emitted Rx.after];
    rewrite ?List.app_nil_r; reflexivity.
Qed.

Lemma count_endpoint_app (endpoint : string) (log more : list HttpRequest) :
  count_endpoint endpoint (log ++ more) =
    (count_endpoint endpoint log + count_endpoint endpoint more)%nat.
Proof.
  unfold count_endpoint. now rewrite List.filter_app, List.length_app.
Qed.

(** C1, as the code has it.  For a target that is not live-streaming, when
    the range endpoint answers the range request with status 404 (the
    exchange not being flagged as cancelled), [runRangeQueryWithFallback]
    hands exactly one request to the legacy endpoint [/api/prom/query], and
    what it delivers is what the legacy pipeline makes of the legacy answer:
    the frames of the legacy converter under the key [<refId>_log] for a
    response, the normalized error for a rejection, nothing for a cancelled
    exchange. *)
Theorem range_404_falls_back_to_legacy (target : LokiQuery)
  (options : RangeQueryOptions) (responseListLength : nat) (w : World)
  (backend : Backend) :
  liveStreaming target = false ->
  status (settled_with (backend (rangeRequest this target options))) = Some 404 ->
  cancelled (settled_with (backend (rangeRequest this target options))) = false ->
  let built := runRangeQueryWithFallback this target options responseListLength w in
  requests (snd built) = requests w ++ [rangeRequest this target options] /\
  forall w',
    let delivered := fst built backend w' in
    requests (snd delivered) = requests w' ++ [legacyRequest this target options] /\
    count_endpoint LEGACY_QUERY_ENDPOINT (requests (snd delivered)) =
      S (count_endpoint LEGACY_QUERY_ENDPOINT (requests w')) /\
    (forall response,
       backend (legacyRequest this target options) = Resolved response ->
       cancelled response = false ->
       fst delivered =
         Rx.mkRun
           [{| data :=
                 lokiLegacyStreamsToDataframes (body response)
                   (legacyQuery this target options) (maxLines this)
                   (instanceSettings_jsonData this) (reverse options);
               key := Some (refId target ++ "_log")%string;
               state := None |}]
           Rx.Completed) /\
    (forall err,
       backend (legacyRequest this target options) = Rejected err ->
       cancelled err = false ->
       fst delivered =
         Rx.mkRun [] (Rx.Failed (QueryError (processError err target)))) /\
    (cancelled (settled_with (backend (legacyRequest this target options))) = true ->
     fst delivered = Rx.mkRun [] Rx.Completed).
Proof.
  intros Hlive H404 Hcancel built. subst built.
  unfold runRangeQueryWithFallback. rewrite Hlive.
  unfold _request. cbn [fst snd]. fold (rangeRequest this target options).
  split; [reflexivity|]. intros w'.
  assert (Hstage :
    Rx.filter (fun response : HttpMessage => if cancelled response then false else true)
      (Rx.catchError
         (fun err => throwUnless err (cancelled err || is_404 (status err)) target)
         (from_promise (backend (rangeRequest this target options)))) =
    Rx.of_value (settled_with (backend (rangeRequest this target options)))).
  { destruct (backend (rangeRequest this target options)) as [response|err];
      cbn [settled_with from_promise] in *.
    - unfold Rx.of_value, Rx.catchError, Rx.filter.
      cbn [Rx.ending Rx.emitted List.filter]. now rewrite Hcancel.
    - unfold Rx.throwError, Rx.catchError, Rx.filter, throwUnless.
      cbn [Rx.ending Rx.emitted]. rewrite Hcancel, H404.
      cbn [is_404 Z.eqb Pos.eqb orb Rx.of_value Rx.emitted Rx.ending app List.filter].
      now rewrite Hcancel. }
  unfold Rx.switchMap.
  rewrite (mergeMap_of_value _ _ backend w'
             (settled_with (backend (rangeRequest this target options))) w').
  2:{ unfold Rx.pipe. now rewrite Hstage. }
  rewrite H404. cbn [is_404 Z.eqb Pos.eqb Rx.iif]. unfold Rx.defer.
  destruct (runLegacyQuery_request target options w' Hlive) as [Hissue Hrun].
  destruct (runLegacyQuery this target options w') as [legacy w1].
  cbn [fst snd] in Hissue, Hrun. subst w1.
  specialize (Hrun backend (issue (legacyRequest this target options) w')).
  destruct (legacy backend (issue (legacyRequest this target options) w'))
    as [run w2].
  cbn [fst snd] in Hrun |- *. destruct Hrun as [-> Hcases].
  cbn [issue requests].
  split; [reflexivity|]. split.
  - rewrite count_endpoint_app. cbn. lia.
  - exact Hcases.
Qed.

(** ** Live targets *)

Lemma runLiveQuery_subscribes (target : LokiQuery)
  (options : RangeQueryOptions) (w : World) (backend : Backend) :
  let built := runLiveQuery this target options w in
  let chosen :=
    match version w with
    | Some cached => cached
    | None => detected (backend probe)
    end in
  let subscription :=
    match chosen with
    | v1 => getStream (createLiveTarget this target options)
    | v0 => getLegacyStream (createLegacyLiveTarget this target options)
    end in
  requests (snd built) =
    requests w ++ match version w with Some _ => [] | None => [probe] end /\
  subscriptions (snd built) = subscriptions w /\
  version (snd built) = version w /\
  forall w',
    requests (snd (fst built backend w')) = requests w' /\
    subscriptions (snd (fst built backend w')) =
      subscriptions w' ++ [subscription] /\
    fst (fst built backend w') =
      Rx.map (liveResponse (createLiveTarget this target options))
        (liveStream subscription).
Proof.
  intros built chosen subscription. subst built.
  unfold runLiveQuery.
  destruct (version w) as [cached|] eqn:Hv.
  - destruct (getVersion_cached w cached Hv) as [Hs Hf].
    destruct (getVersion w) as [promise w1]. cbn [fst snd] in *. subst w1.
    rewrite List.app_nil_r. repeat split; try assumption.
    all: unfold Rx.pipe;
      rewrite (mergeMap_of_value _ _ backend w' chosen w')
        by (unfold from_version; now rewrite Hf);
      subst chosen subscription; destruct cached; reflexivity.
  - destruct (getVersion_probing w Hv) as [Hs Hf].
    destruct (getVersion w) as [promise w1]. cbn [fst snd] in *. subst w1.
    repeat split; try assumption.
    all: unfold Rx.pipe;
      rewrite (mergeMap_of_value _ _ backend w' chosen (set_version chosen w'))
        by (unfold from_version; now rewrite Hf);
      subst chosen subscription; destruct (detected (backend probe)); reflexivity.
Qed.

Lemma pushRange_live (options : DataQueryRequest)
  (length : nat) (target : LokiQuery) (w : World) (backend : Backend) :
  liveStreaming target = true ->
  let window := rangeQueryOptions options in
  let pushed := pushRange this options length target w in
  let chosen :=
    match version w with
    | Some cached => cached
    | None => detected (backend probe)
    end in
  let subscription :=
    match chosen with
    | v1 => getStream (createLiveTarget this target window)
    | v0 => getLegacyStream (createLegacyLiveTarget this target window)
    end in
  requests (snd pushed) =
    requests w ++ match version w with Some _ => [] | None => [probe] end /\
  subscriptions (snd pushed) = subscriptions w /\
  exists sub,
    fst pushed = [sub] /\
    forall w',
      requests (snd (sub backend w')) = requests w' /\
      subscriptions (snd (sub backend w')) = subscriptions w' ++ [subscription] /\
      fst (sub backend w') =
        Rx.map (logsModeCheck options)
          (Rx.map (liveResponse (createLiveTarget this target window))
             (liveStream subscription)).
Proof.
  intros Hlive window pushed chosen subscription. subst pushed.
  unfold pushRange, runRangeQueryWithFallback. rewrite Hlive.
  pose proof (runLiveQuery_subscribes target window w backend) as Hrun.
  cbv zeta in Hrun. fold chosen in Hrun. fold subscription in Hrun.
  fold window. destruct (runLiveQuery this target window w) as [live w1].
  cbv beta iota. cbn [fst snd] in *.
  destruct Hrun as [Hreq [Hsub [_ Hdeliver]]].
  split; [assumption|]. split; [assumption|].
  eexists. split; [reflexivity|]. intros w'.
  destruct (Hdeliver w') as [Hr [Hs Hf]].
  unfold Rx.pipe. destruct (live backend w') as [run w2].
  cbn [fst snd] in *. now subst run.
Qed.

Lemma merge_quiet (subQueries : list SubQuery) :
  Forall quiet subQueries -> quiet (Rx.merge subQueries).
Proof.
  induction 1 as [|sub rest Hsub _ IH]; intros backend w'; [reflexivity|].
  cbn [Rx.merge]. specialize (Hsub backend w').
  destruct (sub backend w') as [r w1]. cbn [snd] in Hsub.
  destruct (Rx.ending r); cbn [snd]; try assumption.
  all: specialize (IH backend w1);
    destruct (Rx.merge rest backend w1) as [r' w2]; cbn [snd] in *; congruence.
Qed.

Lemma forEach_live (options : DataQueryRequest) (length : nat)
  (batch : list LokiQuery) :
  Forall (fun target => liveStreaming target = true) batch ->
  forall (subQueries : list SubQuery) (w : World),
    Forall quiet subQueries ->
    let pushed := forEach batch (pushRange this options length) subQueries w in
    Forall quiet (fst pushed) /\
    requests (snd pushed) =
      requests w ++
      match version w with
      | Some _ => []
      | None => List.repeat probe (List.length batch)
      end.
Proof.
  induction 1 as [|target rest Hlive _ IH]; intros subQueries w Hquiet.
  - cbn. split; [assumption|]. destruct (version w); now rewrite List.app_nil_r.
  - cbn [forEach].
    assert (Hversion : version (snd (pushRange this options length target w)) =
                       version w).
    { unfold pushRange, runRangeQueryWithFallback. rewrite Hlive.
      pose proof (runLiveQuery_subscribes target (rangeQueryOptions options) w
                    (fun _ => Resolved (mkHttpMessage None None false NoBody None)))
        as [_ [_ [Hv _]]].
      destruct (runLiveQuery this target (rangeQueryOptions options) w).
      exact Hv. }
    assert (Hone : forall backend,
      exists sub, fst (pushRange this options length target w) = [sub] /\
                  forall w', requests (snd (sub backend w')) = requests w').
    { intros backend.
      destruct (pushRange_live options length target w backend
                  Hlive) as [_ [_ [sub [Hsub Hd]]]].
      exists sub. split; [assumption|]. intros w'. apply (Hd w'). }
    pose proof (pushRange_live options length target w
                  (fun _ => Resolved (mkHttpMessage None None false NoBody None))
                  Hlive) as [Hreq _].
    destruct (pushRange this options length target w) as [pushed w1].
    cbn [fst snd] in *.
    specialize (IH (subQueries ++ pushed) w1).
    assert (Hq : Forall quiet (subQueries ++ pushed)).
    { apply Forall_app. split; [assumption|].
      destruct (Hone (fun _ => Resolved (mkHttpMessage None None false NoBody None)))
        as [sub [-> _]].
      constructor; [|constructor]. intros backend w'.
      destruct (Hone backend) as [sub' [Heq Hd]]. injection Heq as <-.
      apply Hd. }
    destruct (IH Hq) as [IHq IHr]. split; [assumption|].
    rewrite IHr, Hreq, Hversion.
    destruct (version w); cbn [List.length List.repeat];
      rewrite <- ?List.app_assoc; reflexivity.
Qed.

Lemma query_live_batch (options : DataQueryRequest) (w : World)
  (backend : Backend) :
  exploreMode options <> Some Metrics ->
  Forall (fun target => eligible target = true -> liveStreaming target = true)
    (targets options) ->
  requests (snd (query this options w)) =
    requests w ++
    match version w with
    | Some _ => []
    | None =>
        List.repeat probe
          (List.length (List.filter eligible (targets options)))
    end /\
  forall w',
    requests (snd (fst (query this options w) backend w')) = requests w'.
Proof.
  intros Hmode Hall.
  assert (Hlive : Forall (fun target => liveStreaming target = true)
                    (List.map interpolated
                       (List.filter eligible (targets options)))).
  { apply List.Forall_map. apply List.Forall_forall. intros target Hin.
    apply List.filter_In in Hin as [Hin He]. cbn [interpolated liveStreaming].
    rewrite List.Forall_forall in Hall. now apply Hall. }
  unfold query.
  remember (List.length
              (List.map interpolated (List.filter eligible (targets options))))
    as n eqn:Hn.
  pose proof (forEach_live options n _ Hlive [] w (List.Forall_nil _))
    as [Hq Hr].
  rewrite List.length_map in Hr.
  assert (Hbranch :
    match exploreMode options with
    | Some Metrics =>
        forEach (List.map interpolated (List.filter eligible (targets options)))
          (pushMetrics this options n) [] w
    | _ =>
        forEach (List.map interpolated (List.filter eligible (targets options)))
          (pushRange this options n) [] w
    end =
    forEach (List.map interpolated (List.filter eligible (targets options)))
      (pushRange this options n) [] w).
  { destruct (exploreMode options) as [[|]|]; [contradiction| |]; reflexivity. }
  rewrite Hbranch.
  destruct (forEach _ _ [] w) as [subQueries w1]. cbn [fst snd] in Hq, Hr.
  destruct subQueries as [|sub rest]; cbn [fst snd].
  - split; [assumption|reflexivity].
  - split; [assumption|]. intros w'. apply (merge_quiet _ Hq).
Qed.

(** C2, as the code has it.  In every mode other than metrics, what [query]
    starts for a target with [liveStreaming] set is the live-stream
    subscription: starting it hands the transport nothing but the version
    probe, and only when no version is cached; delivering hands the
    transport nothing, hands one subscription to the live streams (the
    modern tail for ['v1'], the legacy tail for ['v0']) and emits its
    batches, each under the logs-mode check of [query].  For a batch whose
    eligible targets are all live, [query] thus hands the transport one
    probe per eligible target when no version is cached, no request at all
    when one is, and nothing when its result is subscribed to. *)
Theorem live_target_runs_as_subscription (options : DataQueryRequest)
  (w : World) (backend : Backend) :
  (forall (length : nat) (target : LokiQuery),
     liveStreaming target = true ->
     let window := rangeQueryOptions options in
     let pushed := pushRange this options length target w in
     let chosen :=
       match version w with
       | Some cached => cached
       | None => detected (backend probe)
       end in
     let subscription :=
       match chosen with
       | v1 => getStream (createLiveTarget this target window)
       | v0 => getLegacyStream (createLegacyLiveTarget this target window)
       end in
     requests (snd pushed) =
       requests w ++ match version w with Some _ => [] | None => [probe] end /\
     subscriptions (snd pushed) = subscriptions w /\
     exists sub,
       fst pushed = [sub] /\
       forall w',
         requests (snd (sub backend w')) = requests w' /\
         subscriptions (snd (sub backend w')) =
           subscriptions w' ++ [subscription] /\
         fst (sub backend w') =
           Rx.map (logsModeCheck options)
             (Rx.map (liveResponse (createLiveTarget this target window))
                (liveStream subscription))) /\
  (exploreMode options <> Some Metrics ->
   Forall (fun target => eligible target = true -> liveStreaming target = true)
     (targets options) ->
   requests (snd (query this options w)) =
     requests w ++
     match version w with
     | Some _ => []
     | None =>
         List.repeat probe
           (List.length (List.filter eligible (targets options)))
     end /\
   forall w',
     requests (snd (fst (query this options w) backend w')) = requests w').
Proof.
  split.
  - intros length target Hlive.
    exact (pushRange_live options length target w backend Hlive).
  - exact (query_live_batch options w backend).
Qed.

(** ** Empty batches *)

Lemma no_eligible_target (batch : list LokiQuery) :
  Forall (fun target => expr target = EmptyString \/ hide target = true) batch ->
  List.filter eligible batch = [].
Proof.
  induction 1 as [|target rest Hhead _ IH]; [reflexivity|].
  cbn [List.filter]. unfold eligible at 1, truthy_string.
  destruct Hhead as [-> | ->].
  - cbn. exact IH.
  - rewrite Bool.andb_false_r. exact IH.
Qed.

(** C8.  When every target of the batch has an empty expression or is
    hidden, [query] hands nothing to the transport or to the live streams,
    neither when it is called nor when its result is subscribed to, and the
    result delivers exactly one response, with empty data and state Done,
    and completes. *)
Theorem query_without_eligible_targets (options : DataQueryRequest)
  (w : World) (backend : Backend) :
  Forall (fun target => expr target = EmptyString \/ hide target = true)
    (targets options) ->
  snd (query this options w) = w /\
  forall w',
    fst (query this options w) backend w' =
      (Rx.mkRun [{| data := []; key := None; state := Some Done |}]
         Rx.Completed,
       w').
Proof.
  intros Hnone. unfold query.
  rewrite (no_eligible_target _ Hnone). cbn [List.map forEach List.length].
  destruct (exploreMode options) as [[|]|]; split; reflexivity.
Qed.

End Properties.

(** ** The properties on the sample instance *)

#[local] Existing Instance Sample.collaborators.

Lemma alignedTimes_expands_witness :
  (0 <= 1600000000123000064 < 2 ^ 62 /\
   - 2 ^ 62 < 1600003600456000000 < 2 ^ 62 - 1000000000 /\
   al_start (alignedTimes 1600000000123000064 1600003600456000000) =
     1600000000000000000 /\
   al_end (alignedTimes 1600000000123000064 1600003600456000000) =
     1600003601000000000 /\
   al_start (alignedTimes 1600000000123000064 1600003600456000000) <=
     1600000000123000064) /\
  (range (Sample.window None 1600000000123 1600003600456) =
     Some {| from := DateTimeValue 1600000000123;
             to := DateTimeValue 1600003600456 |} /\
   truthy_number (intervalMs (Sample.window None 1600000000123 1600003600456)) =
     true /\
   getTime (DateTimeValue 1600000000123) false = 1600000000123000064 /\
   getTime (DateTimeValue 1600003600456) true = 1600003600456000000 /\
   rq_start
     (createRangeQuery Sample.datasource (Sample.target false)
        (Sample.window None 1600000000123 1600003600456)) =
     Some 1600000000000000000 /\
   rq_end
     (createRangeQuery Sample.datasource (Sample.target false)
        (Sample.window None 1600000000123 1600003600456)) =
     Some 1600003601000000000).
Proof.
  destruct (@alignedTimes_expands Sample.collaborators Sample.datasource)
    as [Hbounds Hquery].
  assert (Hs : 0 <= 1600000000123000064 < 2 ^ 62)
    by (split; vm_compute; [discriminate|reflexivity]).
  assert (He : - 2 ^ 62 < 1600003600456000000 < 2 ^ 62 - 1000000000)
    by (split; vm_compute; reflexivity).
  split.
  - destruct (Hbounds 1600000000123000064 1600003600456000000)
      as [Hstart Hend].
    destruct (Hstart Hs) as [Hs1 [_ Hle]].
    destruct (Hend He) as [He1 _].
    split; [exact Hs|]. split; [exact He|].
    split; [exact Hs1|]. split; [exact He1|exact Hle].
  - destruct (Hquery (Sample.target false)
                (Sample.window None 1600000000123 1600003600456)
                {| from := DateTimeValue 1600000000123;
                   to := DateTimeValue 1600003600456 |}
                eq_refl eq_refl) as [Hs1 He1].
    split; [reflexivity|]. split; [reflexivity|].
    split; [vm_compute; reflexivity|]. split; [vm_compute; reflexivity|].
    split; [exact Hs1|exact He1].
Defined.

(** C5 as stated fails where the numbers leave the range that doubles
    hold exactly.  A window that starts at 2200-01-01T00:00:01.001Z has
    the start 7258118401000999936 ns, the double nearest to the product
    with 1e6, and its aligned start is 7258118400999999488, which is not a
    multiple of 1e9.  It also fails for a start before the epoch:
    [-1000000 % 1e9] is [-1000000], so the aligned start of a window that
    starts one millisecond before the epoch is [0], after the start. *)
Lemma alignedTimes_not_always_aligned :
  (getTime (DateTimeValue 7258118401001) false = 7258118401000999936 /\
   rq_start
     (createRangeQuery Sample.datasource (Sample.target false)
        (Sample.window None 7258118401001 7258118402001)) =
     Some 7258118400999999488 /\
   ~ (1000000000 | 7258118400999999488)) /\
  (getTime (DateTimeValue (-1)) false = -1000000 /\
   rq_start
     (createRangeQuery Sample.datasource (Sample.target false)
        (Sample.window None (-1) 1000)) = Some 0 /\
   ~ (al_start (alignedTimes (-1000000) 1000000000) <= -1000000)).
Proof.
  split; (split; [vm_compute; reflexivity|]);
    (split; [vm_compute; reflexivity|]).
  - intros [k Hk]. lia.
  - intros Hle. vm_compute in Hle. apply Hle. reflexivity.
Qed.

Lemma limit_is_min_or_configured_witness :
  request_maxDataPoints (Sample.request None (Some 500) []) = Some 500 /\
  500 <> 0 /\
  iq_limit
    (instantQuery Sample.datasource (Sample.target false)
       (Sample.request None (Some 500) [])) = 500 /\
  maxDataPoints (Sample.window None 0 60000) = None /\
  lt_size
    (createLiveTarget Sample.datasource (Sample.target true)
       (Sample.window None 0 60000)) = 1000.
Proof.
  destruct (@limit_is_min_or_configured Sample.collaborators Sample.datasource
              (Sample.target false) (Sample.request None (Some 500) [])
              (Sample.window None 0 60000) 1%nat newWorld)
    as [_ [Hinstant [_ [_ Hlive]]]].
  split; [reflexivity|]. split; [discriminate|].
  split; [exact (Hinstant 500 eq_refl ltac:(discriminate))|].
  split; [reflexivity|].
  pose proof (@limit_is_min_or_configured Sample.collaborators Sample.datasource
              (Sample.target true) (Sample.request None (Some 500) [])
              (Sample.window None 0 60000) 1%nat newWorld)
    as [_ [_ [_ [_ Hlive']]]].
  exact (Hlive' (or_introl eq_refl)).
Defined.

(** C7 as stated fails when [maxDataPoints] is zero: with 1000 configured
    lines, the instant request's [limit] and the live target's [size] are
    1000, not [min(0, 1000)]. *)
Lemma limit_with_zero_maxDataPoints :
  iq_limit
    (instantQuery Sample.datasource (Sample.target false)
       (Sample.request None (Some 0) [])) <> Z.min 0 (maxLines Sample.datasource) /\
  lt_size
    (createLiveTarget Sample.datasource (Sample.target true)
       (Sample.window (Some 0) 0 60000)) <> Z.min 0 (maxLines Sample.datasource).
Proof. split; discriminate. Qed.

Lemma getVersion_resolves_and_caches_witness :
  version newWorld = None /\
  version (Sample.resolved v1) = Some v1 /\
  fst (fst (getVersion newWorld) Sample.legacyOnly (snd (getVersion newWorld))) =
    Fulfilled v0 /\
  requests (snd (getVersion newWorld)) = [probe] /\
  version (Sample.resolved v1) <> None /\
  version
    (snd (fst (getVersion newWorld) Sample.legacyOnly (Sample.resolved v1))) <>
    None /\
  fst (getVersion (Sample.resolved v1)) Sample.legacyOnly (Sample.resolved v1) =
    (Fulfilled v1, Sample.resolved v1).
Proof.
  split; [reflexivity|]. split; [reflexivity|].
  destruct (getVersion_resolves_and_caches newWorld Sample.legacyOnly)
    as [v [Hfulfilled [Hprobing [_ [_ Hset]]]]].
  destruct (Hprobing eq_refl) as [Hrequests [_ [Hlegacy _]]].
  assert (Hv : v = v0).
  { apply Hlegacy. exists (Sample.reply 404 false NoBody).
    split; reflexivity. }
  subst v.
  split; [exact (proj1 (Hfulfilled (snd (getVersion newWorld))))|].
  split; [exact Hrequests|].
  assert (Hstored : version (Sample.resolved v1) <> None) by discriminate.
  split; [exact Hstored|].
  split; [exact (Hset (Sample.resolved v1) Hstored)|].
  destruct (getVersion_resolves_and_caches (Sample.resolved v1)
              Sample.legacyOnly)
    as [v [Hcached [_ [Hkeep _]]]].
  destruct (Hkeep v1 eq_refl) as [-> [_ Hsame]].
  specialize (Hcached (Sample.resolved v1)).
  specialize (Hsame (Sample.resolved v1)).
  destruct (fst (getVersion (Sample.resolved v1)) Sample.legacyOnly
              (Sample.resolved v1)) as [settled w].
  cbn [fst snd] in *. destruct Hcached as [-> _]. now subst w.
Defined.

(** C3 as stated fails: the version is reset when a probe is still on its
    way.  Two calls are made on a new instance before either probe is
    answered.  The first answer is a 404 and sets the field to ['v0'];
    the second probe is answered by a backend that knows the range
    endpoint, and its answer sets the field to ['v1']. *)
Lemma getVersion_resets_set_version :
  let first := getVersion newWorld in
  let second := getVersion (snd first) in
  let afterFirst := snd (fst first Sample.legacyOnly (snd second)) in
  let afterSecond := snd (fst second (Sample.answering "matrix") afterFirst) in
  requests (snd second) = [probe; probe] /\
  version afterFirst = Some v0 /\
  version afterSecond = Some v1.
Proof. cbv zeta. repeat split. Qed.

Lemma instant_query_result_shape_witness :
  Sample.answering "streams"
    (instantRequest Sample.datasource (Sample.target false)
       (Sample.request (Some Metrics) None [])) =
    Resolved (Sample.reply 200 false (LokiBody "streams" "[]")) /\
  fst (fst (runInstantQuery Sample.datasource (Sample.target false)
              (Sample.request (Some Metrics) None []) 1 newWorld)
         (Sample.answering "streams") newWorld) =
    Rx.mkRun []
      (Rx.Failed
         (JsError
            "Metrics mode does not support logs. Use an aggregation or switch to Logs mode.")) /\
  fst (fst (runInstantQuery Sample.datasource (Sample.target false)
              (Sample.request (Some Metrics) None []) 1 newWorld)
         (Sample.answering "vector") newWorld) =
    Rx.mkRun
      [{| data := [TableDatum "[]"]; key := Some "A_instant"%string;
          state := None |}]
      Rx.Completed.
Proof.
  split; [reflexivity|]. split.
  - exact (proj1
             (@instant_query_result_shape Sample.collaborators Sample.datasource
                (Sample.target false) (Sample.request (Some Metrics) None [])
                1%nat newWorld newWorld (Sample.answering "streams")
                (Sample.reply 200 false (LokiBody "streams" "[]"))
                "streams"%string "[]"%string eq_refl eq_refl eq_refl)
             eq_refl).
  - exact (proj2
             (@instant_query_result_shape Sample.collaborators Sample.datasource
                (Sample.target false) (Sample.request (Some Metrics) None [])
                1%nat newWorld newWorld (Sample.answering "vector")
                (Sample.reply 200 false (LokiBody "vector" "[]"))
                "vector"%string "[]"%string eq_refl eq_refl eq_refl)
             ltac:(discriminate)).
Defined.

Lemma range_404_falls_back_to_legacy_witness :
  liveStreaming (Sample.target false) = false /\
  status
    (settled_with
       (Sample.legacyOnly
          (rangeRequest Sample.datasource (Sample.target false)
             (Sample.window None 0 60000)))) = Some 404 /\
  requests
    (snd
       (fst (runRangeQueryWithFallback Sample.datasource (Sample.target false)
               (Sample.window None 0 60000) 1 newWorld)
          Sample.legacyOnly newWorld)) =
    [legacyRequest Sample.datasource (Sample.target false)
       (Sample.window None 0 60000)] /\
  fst
    (fst (runRangeQueryWithFallback Sample.datasource (Sample.target false)
            (Sample.window None 0 60000) 1 newWorld)
       Sample.legacyOnly newWorld) =
    Rx.mkRun
      [{| data := [DataFrameDatum "legacy"]; key := Some "A_log"%string;
          state := None |}]
      Rx.Completed.
Proof.
  split; [reflexivity|]. split; [reflexivity|].
  destruct (@range_404_falls_back_to_legacy Sample.collaborators
              Sample.datasource (Sample.target false)
              (Sample.window None 0 60000) 1%nat newWorld Sample.legacyOnly
              eq_refl eq_refl eq_refl) as [_ Hdelivered].
  destruct (Hdelivered newWorld) as [Hrequests [_ [Hresponse _]]].
  split; [exact Hrequests|].
  exact (Hresponse (Sample.reply 200 false (LegacyBody "legacy"))
           eq_refl eq_refl).
Defined.

(** C1 as stated fails for a live-streaming target: against a backend that
    answers 404 on the range endpoint, [runRangeQueryWithFallback] hands the
    transport the version probe only, no request to [/api/prom/query], and
    delivers the batches of the legacy tail.  It also fails when the 404
    arrives flagged as cancelled: the range request stays the only one and
    nothing is delivered. *)
Lemma range_404_without_legacy_request :
  (let built :=
     runRangeQueryWithFallback Sample.datasource (Sample.target true)
       (Sample.window None 0 60000) 1 newWorld in
   let delivered := fst built Sample.legacyOnly (snd built) in
   status (settled_with (Sample.legacyOnly probe)) = Some 404 /\
   requests (snd delivered) = [probe] /\
   count_endpoint LEGACY_QUERY_ENDPOINT (requests (snd delivered)) = 0%nat /\
   fst delivered =
     Rx.mkRun
       [{| data := [DataFrameDatum "line"]; key := Some "loki-A"%string;
           state := Some Streaming |}]
       Rx.Open) /\
  (let built :=
     runRangeQueryWithFallback Sample.datasource (Sample.target false)
       (Sample.window None 0 60000) 1 newWorld in
   let delivered := fst built Sample.cancelled404 (snd built) in
   status
     (settled_with
        (Sample.cancelled404
           (rangeRequest Sample.datasource (Sample.target false)
              (Sample.window None 0 60000)))) = Some 404 /\
   count_endpoint LEGACY_QUERY_ENDPOINT (requests (snd delivered)) = 0%nat /\
   fst delivered = Rx.mkRun [] Rx.Completed).
Proof. split; repeat split; reflexivity. Qed.

Lemma live_target_runs_as_subscription_witness :
  liveStreaming (Sample.target true) = true /\
  exploreMode (Sample.request (Some Logs) None [Sample.target true]) <>
    Some Metrics /\
  requests
    (snd (pushRange Sample.datasource
            (Sample.request (Some Logs) None [Sample.target true]) 1
            (Sample.target true) (Sample.resolved v1))) = [] /\
  requests
    (snd (query Sample.datasource
            (Sample.request (Some Logs) None [Sample.target true])
            (Sample.resolved v1))) = [] /\
  requests
    (snd (fst (query Sample.datasource
                 (Sample.request (Some Logs) None [Sample.target true])
                 (Sample.resolved v1))
            Sample.legacyOnly (Sample.resolved v1))) = [].
Proof.
  split; [reflexivity|]. split; [discriminate|].
  destruct (@live_target_runs_as_subscription Sample.collaborators
              Sample.datasource
              (Sample.request (Some Logs) None [Sample.target true])
              (Sample.resolved v1) Sample.legacyOnly) as [Htarget Hbatch].
  split.
  - exact (proj1 (Htarget 1%nat (Sample.target true) eq_refl)).
  - assert (Hall : Forall
                     (fun target =>
                        eligible target = true -> liveStreaming target = true)
                     (targets
                        (Sample.request (Some Logs) None [Sample.target true]))).
    { constructor; [reflexivity|constructor]. }
    destruct (Hbatch ltac:(discriminate) Hall) as [Hcall Hdeliver].
    split; [exact Hcall|exact (Hdeliver (Sample.resolved v1))].
Defined.

(** C2 as stated fails twice.  In metrics mode, [query] hands the transport
    the instant request of a live-streaming target, although the version is
    cached.  In logs mode without a cached version, it hands the transport
    the version probe. *)
Lemma live_target_issues_requests :
  requests
    (snd (query Sample.datasource
            (Sample.request (Some Metrics) None [Sample.target true])
            (Sample.resolved v1))) =
    [instantRequest Sample.datasource (Sample.target true)
       (Sample.request (Some Metrics) None [Sample.target true])] /\
  requests
    (snd (query Sample.datasource
            (Sample.request (Some Logs) None [Sample.target true])
            newWorld)) = [probe].
Proof. split; reflexivity. Qed.

Lemma query_without_eligible_targets_witness :
  Forall (fun target => expr target = EmptyString \/ hide target = true)
    [mkLokiQuery EmptyString "A" false false; mkLokiQuery "{job=app}" "B" true true] /\
  snd (query Sample.datasource
         (Sample.request (Some Metrics) None
            [mkLokiQuery EmptyString "A" false false;
             mkLokiQuery "{job=app}" "B" true true])
         newWorld) = newWorld /\
  fst (query Sample.datasource
         (Sample.request (Some Metrics) None
            [mkLokiQuery EmptyString "A" false false;
             mkLokiQuery "{job=app}" "B" true true])
         newWorld) Sample.legacyOnly newWorld =
    (Rx.mkRun [{| data := []; key := None; state := Some Done |}] Rx.Completed,
     newWorld).
Proof.
  assert (Hnone :
    Forall (fun target => expr target = EmptyString \/ hide target = true)
      [mkLokiQuery EmptyString "A" false false; mkLokiQuery "{job=app}" "B" true true]).
  { constructor; [left; reflexivity|].
    constructor; [right; reflexivity|constructor]. }
  split; [exact Hnone|].
  destruct (@query_without_eligible_targets Sample.collaborators
              Sample.datasource
              (Sample.request (Some Metrics) None
                 [mkLokiQuery EmptyString "A" false false;
                  mkLokiQuery "{job=app}" "B" true true])
              newWorld Sample.legacyOnly Hnone) as [Hcall Hdeliver].
  split; [exact Hcall|exact (Hdeliver newWorld)].
Defined.

(** * Further properties of the datasource *)

(** ** Escaping *)

Lemma replaceAll_app (matches : ascii -> bool) (replacement : ascii -> string)
  (a b : string) :
  replaceAll matches replacement (a ++ b)%string =
    (replaceAll matches replacement a ++ replaceAll matches replacement b)%string.
Proof.
  induction a as [|c a IH]; [reflexivity|].
  cbn [String.append replaceAll]. destruct (matches c).
  - rewrite IH. clear IH.
    induction (replacement c) as [|d r IHr]; [reflexivity|].
    cbn [String.append]. now rewrite IHr.
  - cbn [String.append]. now rewrite IH.
Qed.

Lemma metacharacter_not_backslash : metacharacter backslash = false.
Proof. reflexivity. Qed.

Lemma metacharacter_not_quote (c : ascii) :
  metacharacter c = true -> Ascii.eqb quote c = false.
Proof.
  intros Hm. destruct (Ascii.eqb_spec quote c) as [<-|]; [|reflexivity].
  discriminate Hm.
Qed.

(** The three passes of [lokiSpecialRegexEscape] rewrite the value character
    by character. *)
Lemma specialRegexEscape_cons (c : ascii) (rest : string) :
  specialRegexEscape (String c rest) =
    (escapeOne c ++ specialRegexEscape rest)%string.
Proof.
  unfold specialRegexEscape, regularEscape, escapeOne.
  cbn [replaceAll]. rewrite (Ascii.eqb_sym backslash c).
  destruct (Ascii.eqb_spec c backslash) as [->|Hb].
  - cbn. reflexivity.
  - cbn [replaceAll]. destruct (metacharacter c) eqn:Hm.
    + cbn [orb]. rewrite !replaceAll_app. cbn [replaceAll String.append].
      change (Ascii.eqb quote backslash) with false.
      cbn [String.append]. rewrite (metacharacter_not_quote c Hm).
      reflexivity.
    + cbn [replaceAll orb]. rewrite (Ascii.eqb_sym quote c).
      destruct (Ascii.eqb c quote); reflexivity.
Qed.

Lemma unescape_escapeOne (c : ascii) (text : string) :
  unescape (escapeOne c ++ text)%string = String c (unescape text).
Proof.
  unfold escapeOne. destruct (Ascii.eqb_spec c backslash) as [->|Hb].
  - reflexivity.
  - destruct (metacharacter c || Ascii.eqb c quote) eqn:Hs.
    + cbn [String.append unescape]. rewrite Ascii.eqb_refl.
      apply Ascii.eqb_neq in Hb. now rewrite Hb.
    + cbn [String.append unescape]. apply Ascii.eqb_neq in Hb. now rewrite Hb.
Qed.

Lemma unescape_specialRegexEscape (value : string) :
  unescape (specialRegexEscape value) = value.
Proof.
  induction value as [|c rest IH]; [reflexivity|].
  rewrite specialRegexEscape_cons, unescape_escapeOne. now rewrite IH.
Qed.

(** X1.  [lokiSpecialRegexEscape] loses nothing: two different strings are
    never escaped to the same text. *)
Theorem specialRegexEscape_injective (a b : string) :
  specialRegexEscape a = specialRegexEscape b -> a = b.
Proof.
  intros Heq.
  rewrite <- (unescape_specialRegexEscape a), <- (unescape_specialRegexEscape b).
  now rewrite Heq.
Qed.

Lemma specialRegexEscape_injective_witness :
  specialRegexEscape "a" = specialRegexEscape "a" /\ "a"%string = "a"%string.
Proof.
  split; [reflexivity|].
  exact (specialRegexEscape_injective "a" "a" eq_refl).
Defined.

Lemma length_append (a b : string) :
  String.length (a ++ b)%string = (String.length a + String.length b)%nat.
Proof. induction a as [|c a IH]; cbn; [reflexivity|now rewrite IH]. Qed.

Lemma escapeOne_length (c : ascii) :
  (escaped c = false /\ escapeOne c = String c EmptyString) \/
  (escaped c = true /\ (1 < String.length (escapeOne c))%nat).
Proof.
  unfold escaped, escapeOne.
  destruct (Ascii.eqb c backslash); cbn [orb].
  - right. split; [reflexivity|cbn; lia].
  - destruct (metacharacter c || Ascii.eqb c quote) eqn:Hs.
    + right. split; [reflexivity|cbn; lia].
    + left. split; reflexivity.
Qed.

Lemma specialRegexEscape_length (value : string) :
  (String.length value <= String.length (specialRegexEscape value))%nat.
Proof.
  induction value as [|c rest IH]; [cbn; lia|].
  rewrite specialRegexEscape_cons, length_append. cbn [String.length].
  destruct (escapeOne_length c) as [[_ ->]|[_ Hl]]; cbn [String.length]; lia.
Qed.

(** X2.  [lokiSpecialRegexEscape] leaves a string as it is exactly when the
    string has no backslash, no single quote and no character of the class
    [$^*{}[]+?.()|]; otherwise the result is longer than the string. *)
Theorem specialRegexEscape_fixed (value : string) :
  (plain value = true -> specialRegexEscape value = value) /\
  (plain value = false ->
   (String.length value < String.length (specialRegexEscape value))%nat).
Proof.
  induction value as [|c rest [IHfix IHgrow]]; [split; [reflexivity|discriminate]|].
  rewrite specialRegexEscape_cons. cbn [plain].
  pose proof (specialRegexEscape_length rest) as Hle.
  destruct (escapeOne_length c) as [[He ->]|[He Hl]]; rewrite He; cbn [negb andb].
  - split.
    + intros Hp. cbn [String.append]. now rewrite (IHfix Hp).
    + intros Hp. cbn [String.append String.length]. specialize (IHgrow Hp). lia.
  - split; [discriminate|]. intros _.
    rewrite length_append. cbn [String.length]. lia.
Qed.

Lemma specialRegexEscape_fixed_witness :
  plain "job" = true /\ specialRegexEscape "job" = "job"%string /\
  plain "a.b" = false /\
  (String.length "a.b" < String.length (specialRegexEscape "a.b"))%nat.
Proof.
  split; [reflexivity|].
  split; [exact (proj1 (specialRegexEscape_fixed "job") eq_refl)|].
  split; [reflexivity|].
  exact (proj2 (specialRegexEscape_fixed "a.b") eq_refl).
Defined.

Lemma backslash_not_rewritten_class :
  metacharacter backslash || Ascii.eqb backslash quote = false.
Proof. reflexivity. Qed.

(** X3.  In the text that [lokiSpecialRegexEscape] returns, every single
    quote and every character of the class [$^*{}[]+?.()|] has two
    backslashes right before it. *)
Theorem specialRegexEscape_protects (value : string) (i : nat) (c : ascii) :
  String.get i (specialRegexEscape value) = Some c ->
  metacharacter c || Ascii.eqb c quote = true ->
  exists j,
    i = S (S j) /\
    String.get j (specialRegexEscape value) = Some backslash /\
    String.get (S j) (specialRegexEscape value) = Some backslash.
Proof.
  revert i. induction value as [|d rest IH]; intros i Hget Hclass.
  - destruct i; discriminate Hget.
  - rewrite specialRegexEscape_cons in *. unfold escapeOne in *.
    destruct (Ascii.eqb_spec d backslash) as [->|Hb].
    + cbn [String.append] in *.
      destruct i as [|[|[|[|i]]]]; cbn [String.get] in Hget.
      1-4: injection Hget as <-;
        rewrite backslash_not_rewritten_class in Hclass; discriminate.
      destruct (IH i Hget Hclass) as [j [-> [H1 H2]]].
      exists (S (S (S (S j)))). cbn [String.get]. auto.
    + destruct (metacharacter d || Ascii.eqb d quote) eqn:Hd.
      * cbn [String.append] in *.
        destruct i as [|[|[|i]]]; cbn [String.get] in Hget.
        1-2: injection Hget as <-;
          rewrite backslash_not_rewritten_class in Hclass; discriminate.
        -- exists 0%nat. cbn [String.get]. auto.
        -- destruct (IH i Hget Hclass) as [j [-> [H1 H2]]].
           exists (S (S (S j))). cbn [String.get]. auto.
      * cbn [String.append] in *.
        destruct i as [|i]; cbn [String.get] in Hget.
        -- injection Hget as <-. rewrite Hd in Hclass. discriminate.
        -- destruct (IH i Hget Hclass) as [j [-> [H1 H2]]].
           exists (S j). cbn [String.get]. auto.
Qed.

Lemma specialRegexEscape_protects_witness :
  String.get 3 (specialRegexEscape "a.b") = Some "."%char /\
  metacharacter "." || Ascii.eqb "." quote = true /\
  String.get 1 (specialRegexEscape "a.b") = Some backslash /\
  String.get 2 (specialRegexEscape "a.b") = Some backslash.
Proof.
  split; [reflexivity|]. split; [reflexivity|].
  destruct (specialRegexEscape_protects "a.b" 3 "."%char eq_refl eq_refl)
    as [j [Hi [H1 H2]]].
  injection Hi as <-. split; assumption.
Defined.




(** ** The point cap *)

Lemma adjustInterval_cap (interval range : Z) :
  0 < interval ->
  range <= 11000 * adjustInterval interval range.
Proof.
  intros Hpos. unfold adjustInterval, needs_calibration.
  destruct (Z.eqb_spec interval 0) as [->|_]; [lia|]. cbn [negb andb].
  destruct (JsNumber.gt (JsNumber.div range interval) 11000) eqn:Hgt.
  - pose proof (ceil_div_bounds range 11000 ltac:(lia)). lia.
  - assert (Hn : ~ ((0 < interval /\ 11000 * interval < range) \/
                    (interval < 0 /\ range < 11000 * interval))).
    { intros Hc. apply (gt_div_spec range interval 11000 ltac:(lia)) in Hc.
      congruence. }
    lia.
Qed.

(** X5.  For a positive interval the calibrated interval keeps the query
    within the cap the comment of [adjustInterval] names: the range holds at
    most 11000 intervals of the returned length. *)
Theorem adjustInterval_point_cap (interval range : Z) :
  0 < interval ->
  range <= 11000 * adjustInterval interval range.
Proof. exact (adjustInterval_cap interval range). Qed.

Lemma adjustInterval_point_cap_witness :
  0 < 15 /\ 86400000 <= 11000 * adjustInterval 15 86400000.
Proof. split; [lia|]. exact (adjustInterval_point_cap 15 86400000 ltac:(lia)). Defined.

Section Delivery.

Context `{Collaborators}.
Variable this : LokiDatasource.

(** X6.  [createRangeQuery] sets [start], [end] and [step] together: all
    three when the window has a range and an interval that is not zero,
    none of them otherwise.  When they are set, [start] and [end] are the
    aligned bounds and the step is at least one second, whatever the
    interval and the window. *)
Theorem createRangeQuery_step (target : LokiQuery) (options : RangeQueryOptions) :
  let query := createRangeQuery this target options in
  ((range options = None \/ truthy_number (intervalMs options) = false) ->
   rq_start query = None /\ rq_end query = None /\ rq_step query = None) /\
  (forall r i,
     range options = Some r -> intervalMs options = Some i -> i <> 0 ->
     let a := alignedTimes (getTime (from r) false) (getTime (to r) true) in
     rq_start query = Some (al_start a) /\
     rq_end query = Some (al_end a) /\
     exists step, rq_step query = Some step /\ 1 <= step).
Proof.
  intros query. subst query. unfold createRangeQuery. split.
  - intros [Hr|Hi].
    + rewrite Hr. repeat split; reflexivity.
    + rewrite Hi. destruct (range options); repeat split; reflexivity.
  - intros r i Hr Hi Hnz. rewrite Hr, Hi.
    assert (Ht : truthy_number (Some i) = true).
    { cbn. now destruct (Z.eqb_spec i 0). }
    rewrite Ht. cbn [option_map fst snd].
    split; [reflexivity|]. split; [reflexivity|].
    eexists. split; [reflexivity|].
    apply ceil_quotient_lower.
    pose proof (adjustInterval_floor i
                  (JsNumber.ceil_quotient
                     (JsNumber.minus (getTime (to r) true)
                        (getTime (from r) false)) 1000000)).
    lia.
Qed.

Lemma instant_time_bounds (timeNs : Z) :
  - 2 ^ 62 < timeNs < 2 ^ 62 - 1000000000 ->
  let time :=
    JsNumber.plus timeNs
      (JsNumber.minus 1000000000 (JsNumber.rem timeNs 1000000000)) in
  (1000000000 | time) /\ timeNs < time /\
  (0 <= timeNs -> time <= timeNs + 1000000000).
Proof.
  intros Hn. cbv zeta. rewrite (align_up_exact timeNs Hn).
  destruct (rem_between timeNs 1000000000 ltac:(lia)) as [Hpos Hneg].
  split; [|split].
  - replace (timeNs + (1000000000 - JsNumber.rem timeNs 1000000000))
      with ((timeNs - JsNumber.rem timeNs 1000000000) + 1000000000) by lia.
    apply Z.divide_add_r; [apply rem_billion_multiple|apply Z.divide_refl].
  - lia.
  - intros H0. specialize (Hpos H0). lia.
Qed.

(** X7.  When the end of the window lies less than 2^62 ns from the epoch,
    with a second to spare (an end before 2116-02-20T23:53:37Z), the
    [time] of the instant request is a whole second strictly after that
    end, also when the end is a whole second already; for an end that is
    not before the epoch it is at most one second later. *)
Theorem instantQuery_time (target : LokiQuery) (options : DataQueryRequest) :
  let timeNs := getTime (to (request_range options)) true in
  let time := iq_time (instantQuery this target options) in
  - 2 ^ 62 < timeNs < 2 ^ 62 - 1000000000 ->
  (1000000000 | time) /\ timeNs < time /\
  (0 <= timeNs -> time <= timeNs + 1000000000).
Proof.
  exact (instant_time_bounds (getTime (to (request_range options)) true)).
Qed.

End Delivery.

Lemma createRangeQuery_step_witness :
  range (Sample.window None 1600000000123 1600003600456) =
    Some {| from := DateTimeValue 1600000000123;
            to := DateTimeValue 1600003600456 |} /\
  intervalMs (Sample.window None 1600000000123 1600003600456) = Some 1000 /\
  1000 <> 0 /\
  rq_start
    (createRangeQuery Sample.datasource (Sample.target false)
       (Sample.window None 1600000000123 1600003600456)) =
    Some 1600000000000000000 /\
  rq_end
    (createRangeQuery Sample.datasource (Sample.target false)
       (Sample.window None 1600000000123 1600003600456)) =
    Some 1600003601000000000 /\
  exists step,
    rq_step
      (createRangeQuery Sample.datasource (Sample.target false)
         (Sample.window None 1600000000123 1600003600456)) = Some step /\
    1 <= step.
Proof.
  split; [reflexivity|]. split; [reflexivity|].
  split; [discriminate|].
  exact (proj2 (@createRangeQuery_step Sample.collaborators Sample.datasource
                  (Sample.target false)
                  (Sample.window None 1600000000123 1600003600456))
           {| from := DateTimeValue 1600000000123;
              to := DateTimeValue 1600003600456 |} 1000
           eq_refl eq_refl ltac:(discriminate)).
Defined.

(** The rounding shows in the step.  A window of exactly 11000000 ms that
    lies across 2^60 ns (2006-07-14) has its end rounded up by 128 ns, so
    [rangeMs] is 11000001: with an interval of one second the ratio exceeds
    11000 and the step is 2. *)
Example createRangeQuery_rounded_step :
  getTime (DateTimeValue 1152916504606) false = 1152916504606000000 /\
  getTime (DateTimeValue 1152927504606) true = 1152927504606000128 /\
  rq_step
    (createRangeQuery Sample.datasource (Sample.target false)
       (Sample.window None 1152916504606 1152927504606)) = Some 2.
Proof. repeat split; vm_compute; reflexivity. Qed.

Lemma instantQuery_time_witness :
  - 2 ^ 62 < getTime (to (request_range (Sample.request None None []))) true <
    2 ^ 62 - 1000000000 /\
  0 <= getTime (to (request_range (Sample.request None None []))) true /\
  iq_time
    (instantQuery Sample.datasource (Sample.target false)
       (Sample.request None None [])) <=
    getTime (to (request_range (Sample.request None None []))) true + 1000000000.
Proof.
  assert (Hrange :
    - 2 ^ 62 < getTime (to (request_range (Sample.request None None []))) true <
      2 ^ 62 - 1000000000) by (split; vm_compute; reflexivity).
  assert (Hpos :
    0 <= getTime (to (request_range (Sample.request None None []))) true)
    by (vm_compute; discriminate).
  split; [exact Hrange|]. split; [exact Hpos|].
  exact (proj2 (proj2 (@instantQuery_time Sample.collaborators Sample.datasource
                         (Sample.target false) (Sample.request None None [])
                         Hrange)) Hpos).
Defined.

(** Past 2^62 ns the time of the instant request need not be later than
    the end of the window: for a window that ends at 2200-01-01T00:00:01Z
    the sum is rounded back to the end itself. *)
Example instantQuery_time_past_2116 :
  let options :=
    {| targets := [];
       exploreMode := None;
       request_range :=
         {| from := DateTimeValue 7258118341000;
            to := DateTimeValue 7258118401000 |};
       request_intervalMs := Some 1000;
       request_maxDataPoints := None;
       request_reverse := None |} in
  getTime (to (request_range options)) true = 7258118400999999488 /\
  iq_time (instantQuery Sample.datasource (Sample.target false) options) =
    7258118400999999488.
Proof. split; vm_compute; reflexivity. Qed.

(** ** What the HTTP pipelines deliver *)

Section Pipelines.

Context `{Collaborators}.
Variable this : LokiDatasource.

Lemma mergeMap_nothing {Env World E A B : Type}
  (project : A -> Rx.Observable Env World E B)
  (source : Rx.Observable Env World E A) (env : Env) (w w1 : World)
  (last : Rx.Ending E) :
  source env w = (Rx.mkRun [] last, w1) ->
  Rx.mergeMap project source env w = (Rx.mkRun [] last, w1).
Proof.
  intros Hs. unfold Rx.mergeMap. rewrite Hs.
  cbn [Rx.emitted Rx.ending List.map Rx.merge].
  destruct last; reflexivity.
Qed.

(** What [runRangeQueryWithFallback] delivers for a target that is not
    live, by the outcome of the range request. *)
Lemma runRangeQueryWithFallback_delivery (target : LokiQuery)
  (options : RangeQueryOptions) (responseListLength : nat) (w w' : World)
  (backend : Backend) :
  liveStreaming target = false ->
  fst (runRangeQueryWithFallback this target options responseListLength w)
    backend w' =
    if cancelled (settled_with (backend (rangeRequest this target options)))
    then (Rx.mkRun [] Rx.Completed, w')
    else if is_404 (status (settled_with (backend (rangeRequest this target options))))
    then Rx.defer (runLegacyQuery this target options) backend w'
    else
      match backend (rangeRequest this target options) with
      | Resolved response =>
          (processRangeQueryResponse (body response) target
             (createRangeQuery this target options) responseListLength
             (maxLines this) (instanceSettings_jsonData this) (reverse options),
           w')
      | Rejected err =>
          (Rx.mkRun [] (Rx.Failed (QueryError (processError err target))), w')
      end.
Proof.
  intros Hlive. unfold runRangeQueryWithFallback. rewrite Hlive.
  unfold _request. cbn [fst snd]. fold (rangeRequest this target options).
  unfold Rx.switchMap.
  destruct (backend (rangeRequest this target options)) as [response|err] eqn:Hb;
    cbn [settled_with].
  - destruct (cancelled response) eqn:Hc.
    + apply mergeMap_nothing. unfold Rx.pipe. rewrite Hb.
      cbn [from_promise]. unfold Rx.of_value, Rx.catchError, Rx.filter.
      cbn [Rx.ending Rx.emitted List.filter]. now rewrite Hc.
    + rewrite (mergeMap_of_value _ _ backend w' response w').
      2:{ unfold Rx.pipe. rewrite Hb. cbn [from_promise].
          unfold Rx.of_value, Rx.catchError, Rx.filter.
          cbn [Rx.ending Rx.emitted List.filter]. now rewrite Hc. }
      destruct (is_404 (status response)); reflexivity.
  - destruct (cancelled err) eqn:Hc.
    + apply mergeMap_nothing. unfold Rx.pipe. rewrite Hb.
      cbn [from_promise]. unfold Rx.throwError, Rx.catchError, Rx.filter, throwUnless.
      cbn [Rx.ending Rx.emitted]. rewrite Hc.
      cbn [orb Rx.of_value Rx.emitted Rx.ending app List.filter]. now rewrite Hc.
    + destruct (is_404 (status err)) eqn:H4.
      * rewrite (mergeMap_of_value _ _ backend w' err w').
        2:{ unfold Rx.pipe. rewrite Hb. cbn [from_promise].
            unfold Rx.throwError, Rx.catchError, Rx.filter, throwUnless.
            cbn [Rx.ending Rx.emitted]. rewrite Hc, H4.
            cbn [orb Rx.of_value Rx.emitted Rx.ending app List.filter].
            now rewrite Hc. }
        rewrite H4. reflexivity.
      * apply mergeMap_nothing. unfold Rx.pipe. rewrite Hb.
        cbn [from_promise]. unfold Rx.throwError, Rx.catchError, Rx.filter, throwUnless.
        cbn [Rx.ending Rx.emitted]. rewrite Hc, H4. reflexivity.
Qed.

(** What the pipeline of [runLegacyQuery] delivers for a target that is not
    live, by the outcome of the legacy request. *)
Lemma runLegacyQuery_delivery (target : LokiQuery)
  (options : RangeQueryOptions) (w w' : World) (backend : Backend) :
  liveStreaming target = false ->
  snd (runLegacyQuery this target options w) =
    issue (legacyRequest this target options) w /\
  fst (runLegacyQuery this target options w) backend w' =
    (if cancelled (settled_with (backend (legacyRequest this target options)))
     then Rx.mkRun [] Rx.Completed
     else
       match backend (legacyRequest this target options) with
       | Resolved response =>
           Rx.mkRun
             [{| data :=
                   lokiLegacyStreamsToDataframes (body response)
                     (legacyQuery this target options) (maxLines this)
                     (instanceSettings_jsonData this) (reverse options);
                 key := Some (refId target ++ "_log")%string;
                 state := None |}]
             Rx.Completed
       | Rejected err =>
           Rx.mkRun [] (Rx.Failed (QueryError (processError err target)))
       end,
     w').
Proof.
  intros Hlive.
  destruct (runLegacyQuery_request this target options w Hlive) as [Hissue Hrun].
  split; [assumption|].
  destruct (Hrun backend w') as [Hw Hcases]. cbv zeta in Hcases.
  destruct Hcases as [Hresolved [Hrejected Hcancelled]].
  destruct (fst (runLegacyQuery this target options w) backend w') as [run w1].
  cbn [fst snd] in *. subst w1. f_equal.
  destruct (cancelled (settled_with (backend (legacyRequest this target options))))
    eqn:Hc; [now apply Hcancelled|].
  destruct (backend (legacyRequest this target options)) as [response|err];
    cbn [settled_with] in Hc; [now apply Hresolved|now apply Hrejected].
Qed.

(** What the pipeline of [runInstantQuery] delivers, by the outcome of the
    instant request. *)
Lemma runInstantQuery_delivery (target : LokiQuery)
  (options : DataQueryRequest) (responseListLength : nat) (w w' : World)
  (backend : Backend) :
  snd (runInstantQuery this target options responseListLength w) =
    issue (instantRequest this target options) w /\
  fst (runInstantQuery this target options responseListLength w) backend w' =
    (if cancelled (settled_with (backend (instantRequest this target options)))
     then Rx.mkRun [] Rx.Completed
     else
       match backend (instantRequest this target options) with
       | Resolved response =>
           match instantResponse target responseListLength response with
           | inl envelope => Rx.mkRun [envelope] Rx.Completed
           | inr thrown => Rx.mkRun [] (Rx.Failed thrown)
           end
       | Rejected err =>
           Rx.mkRun [] (Rx.Failed (QueryError (processError err target)))
       end,
     w').
Proof.
  unfold runInstantQuery, _request. cbn [fst snd].
  fold (instantRequest this target options). split; [reflexivity|].
  unfold Rx.pipe. f_equal.
  destruct (backend (instantRequest this target options)) as [response|err];
    cbn [settled_with from_promise].
  - unfold Rx.of_value, Rx.catchError, Rx.filter, Rx.map.
    cbn [Rx.ending Rx.emitted List.filter].
    destruct (cancelled response); [reflexivity|].
    cbn [Rx.map_values Rx.emitted Rx.ending].
    destruct (instantResponse target responseListLength response);
      reflexivity.
  - unfold Rx.throwError, Rx.catchError, Rx.filter, Rx.map, throwUnless.
    cbn [Rx.ending Rx.emitted].
    destruct (cancelled err) eqn:Hc; [|reflexivity].
    cbn [Rx.of_value Rx.emitted Rx.ending app List.filter]. now rewrite Hc.
Qed.

(** X8.  For a target that is not live, [runRangeQueryWithFallback] hands
    the range request to the transport when it is called.  When the answer
    is delivered it hands over the legacy request exactly if the answer has
    status 404 and is not flagged as cancelled, and nothing otherwise; the
    cached version and the live subscriptions stay as they are. *)
Theorem legacy_request_exactly_on_404 (target : LokiQuery)
  (options : RangeQueryOptions) (responseListLength : nat) (w w' : World)
  (backend : Backend) :
  liveStreaming target = false ->
  let answer := settled_with (backend (rangeRequest this target options)) in
  let built := runRangeQueryWithFallback this target options responseListLength w in
  snd built = issue (rangeRequest this target options) w /\
  requests (snd (fst built backend w')) =
    requests w' ++
    (if negb (cancelled answer) && is_404 (status answer)
     then [legacyRequest this target options]
     else []) /\
  version (snd (fst built backend w')) = version w' /\
  subscriptions (snd (fst built backend w')) = subscriptions w'.
Proof.
  intros Hlive answer built. subst answer built. split.
  { unfold runRangeQueryWithFallback. rewrite Hlive. reflexivity. }
  rewrite (runRangeQueryWithFallback_delivery target options responseListLength
             w w' backend Hlive).
  destruct (cancelled (settled_with (backend (rangeRequest this target options)))).
  { cbn [negb andb fst snd]. rewrite List.app_nil_r. auto. }
  cbn [negb andb].
  destruct (is_404 (status (settled_with (backend (rangeRequest this target options))))).
  - unfold Rx.defer.
    destruct (runLegacyQuery_delivery target options w'
                (issue (legacyRequest this target options) w') backend Hlive)
      as [Hissue Hrun].
    destruct (runLegacyQuery this target options w') as [legacy w1].
    cbn [fst snd] in Hissue, Hrun. subst w1. rewrite Hrun.
    cbn [fst snd issue requests version subscriptions]. auto.
  - destruct (backend (rangeRequest this target options));
      cbn [fst snd]; rewrite List.app_nil_r; auto.
Qed.

(** X9.  For a target that is not live, when the range request is answered
    by a response that is not cancelled and whose status is not 404,
    [runRangeQueryWithFallback] delivers exactly what
    [processRangeQueryResponse] makes of the response body. *)
Theorem modern_response_is_converted (target : LokiQuery)
  (options : RangeQueryOptions) (responseListLength : nat) (w w' : World)
  (backend : Backend) (response : HttpMessage) :
  liveStreaming target = false ->
  backend (rangeRequest this target options) = Resolved response ->
  cancelled response = false ->
  status response <> Some 404 ->
  fst (fst (runRangeQueryWithFallback this target options responseListLength w)
         backend w') =
    processRangeQueryResponse (body response) target
      (createRangeQuery this target options) responseListLength
      (maxLines this) (instanceSettings_jsonData this) (reverse options).
Proof.
  intros Hlive Hb Hc Hs.
  rewrite (runRangeQueryWithFallback_delivery target options responseListLength
             w w' backend Hlive).
  rewrite Hb. cbn [settled_with]. rewrite Hc.
  assert (H4 : is_404 (status response) = false).
  { unfold is_404. destruct (status response) as [code|]; [|reflexivity].
    destruct (Z.eqb_spec code 404) as [->|]; [contradiction|reflexivity]. }
  rewrite H4. reflexivity.
Qed.

(** X10.  For a target that is not live, when the range request is rejected
    with a status other than 404 and is not cancelled,
    [runRangeQueryWithFallback] delivers nothing and fails with the error of
    [processError], which carries the target's [refId] and the status and
    status text of the rejection. *)
Theorem range_failure_is_normalized (target : LokiQuery)
  (options : RangeQueryOptions) (responseListLength : nat) (w w' : World)
  (backend : Backend) (err : HttpMessage) :
  liveStreaming target = false ->
  backend (rangeRequest this target options) = Rejected err ->
  cancelled err = false ->
  status err <> Some 404 ->
  exists error,
    fst (fst (runRangeQueryWithFallback this target options responseListLength w)
           backend w') = Rx.mkRun [] (Rx.Failed (QueryError error)) /\
    qe_refId error = refId target /\
    qe_status error = status err /\
    qe_statusText error = statusText err.
Proof.
  intros Hlive Hb Hc Hs.
  rewrite (runRangeQueryWithFallback_delivery target options responseListLength
             w w' backend Hlive).
  rewrite Hb. cbn [settled_with]. rewrite Hc.
  assert (H4 : is_404 (status err) = false).
  { unfold is_404. destruct (status err) as [code|]; [|reflexivity].
    destruct (Z.eqb_spec code 404) as [->|]; [contradiction|reflexivity]. }
  rewrite H4. exists (processError err target). repeat split.
Qed.

(** X11.  A cancelled exchange is silent in every HTTP pipeline: when the
    answer to the range, the instant or the legacy request is flagged as
    cancelled, resolved or rejected and whatever its status, the sub-query
    delivers nothing, completes without an error, and hands nothing more to
    the transport. *)
Theorem cancelled_exchange_is_silent (target : LokiQuery)
  (request : DataQueryRequest) (options : RangeQueryOptions)
  (responseListLength : nat) (w w' : World) (backend : Backend) :
  (liveStreaming target = false ->
   cancelled (settled_with (backend (rangeRequest this target options))) = true ->
   fst (runRangeQueryWithFallback this target options responseListLength w)
     backend w' = (Rx.mkRun [] Rx.Completed, w')) /\
  (cancelled (settled_with (backend (instantRequest this target request))) = true ->
   fst (runInstantQuery this target request responseListLength w) backend w' =
     (Rx.mkRun [] Rx.Completed, w')) /\
  (liveStreaming target = false ->
   cancelled (settled_with (backend (legacyRequest this target options))) = true ->
   fst (runLegacyQuery this target options w) backend w' =
     (Rx.mkRun [] Rx.Completed, w')).
Proof.
  split; [|split].
  - intros Hlive Hc.
    rewrite (runRangeQueryWithFallback_delivery target options responseListLength
               w w' backend Hlive).
    now rewrite Hc.
  - intros Hc.
    rewrite (proj2 (runInstantQuery_delivery target request responseListLength
                      w w' backend)).
    now rewrite Hc.
  - intros Hlive Hc.
    rewrite (proj2 (runLegacyQuery_delivery target options w w' backend Hlive)).
    now rewrite Hc.
Qed.

(** X12.  [runInstantQuery] has no fallback: it hands exactly one request to
    the transport, when it is called, and none when the answer is delivered;
    a rejection that is not cancelled fails the sub-query with the error of
    [processError], with status 404 like with any other status. *)
Theorem instant_query_never_falls_back (target : LokiQuery)
  (options : DataQueryRequest) (responseListLength : nat) (w w' : World)
  (backend : Backend) :
  let built := runInstantQuery this target options responseListLength w in
  snd built = issue (instantRequest this target options) w /\
  snd (fst built backend w') = w' /\
  (forall err,
     backend (instantRequest this target options) = Rejected err ->
     cancelled err = false ->
     fst (fst built backend w') =
       Rx.mkRun [] (Rx.Failed (QueryError (processError err target)))).
Proof.
  intros built. subst built.
  destruct (runInstantQuery_delivery target options responseListLength w w'
              backend) as [Hissue Hrun].
  rewrite Hrun. cbn [fst snd]. split; [assumption|]. split; [reflexivity|].
  intros err Hb Hc. rewrite Hb. cbn [settled_with]. now rewrite Hc.
Qed.

End Pipelines.

(** ** What [query] starts, and when *)

Section Dispatch.

Context `{Collaborators}.
Variable this : LokiDatasource.

Lemma runRangeQueryWithFallback_call (target : LokiQuery)
  (options : RangeQueryOptions) (responseListLength : nat) (w : World) :
  let built := runRangeQueryWithFallback this target options responseListLength w in
  requests (snd built) =
    requests w ++
    (if liveStreaming target
     then match version w with Some _ => [] | None => [probe] end
     else [rangeRequest this target options]) /\
  version (snd built) = version w /\
  subscriptions (snd built) = subscriptions w.
Proof.
  cbv zeta. unfold runRangeQueryWithFallback.
  destruct (liveStreaming target).
  - destruct (runLiveQuery_subscribes this target options w
                (fun _ => Resolved (mkHttpMessage None None false NoBody None)))
      as [Hr [Hs [Hv _]]].
    auto.
  - cbn. auto.
Qed.

Lemma forEach_calls (push : LokiQuery -> World -> list SubQuery * World)
  (first : LokiQuery -> list HttpRequest) (w0 : World) :
  (forall target w,
     version w = version w0 ->
     requests (snd (push target w)) = requests w ++ first target /\
     version (snd (push target w)) = version w /\
     subscriptions (snd (push target w)) = subscriptions w) ->
  forall batch subQueries w,
    version w = version w0 ->
    requests (snd (forEach batch push subQueries w)) =
      requests w ++ List.flat_map first batch /\
    version (snd (forEach batch push subQueries w)) = version w /\
    subscriptions (snd (forEach batch push subQueries w)) = subscriptions w.
Proof.
  intros Hpush. induction batch as [|target rest IH]; intros subQueries w Hv.
  - cbn. rewrite List.app_nil_r. auto.
  - cbn [forEach List.flat_map].
    destruct (Hpush target w Hv) as [Hr [Hver Hs]].
    destruct (push target w) as [pushed w1]. cbn [fst snd] in *.
    destruct (IH (subQueries ++ pushed) w1 ltac:(congruence))
      as [IHr [IHv IHs]].
    rewrite IHr, Hr, IHv, IHs, <- List.app_assoc.
    repeat split; congruence.
Qed.

(** X13.  [query] hands the first request of every sub-query to the
    transport at once, when it is called, in the order of the targets that
    are neither hidden nor empty: in metrics mode the instant request of a
    target and then its range request, in the other modes the range request
    only; a live target has the version probe in place of the range
    request, and only while no version is cached.  Calling [query] changes
    neither the cached version nor the live subscriptions. *)
Theorem query_hands_first_requests_over (options : DataQueryRequest) (w : World) :
  let filtered := List.map interpolated (List.filter eligible (targets options)) in
  let first (target : LokiQuery) :=
    (match exploreMode options with
     | Some Metrics => [instantRequest this target options]
     | _ => []
     end) ++
    (if liveStreaming target
     then match version w with Some _ => [] | None => [probe] end
     else [rangeRequest this target (rangeQueryOptions options)]) in
  requests (snd (query this options w)) =
    requests w ++ List.flat_map first filtered /\
  version (snd (query this options w)) = version w /\
  subscriptions (snd (query this options w)) = subscriptions w.
Proof.
  intros filtered first. unfold query. fold filtered.
  set (n := List.length filtered).
  assert (Hall :
    requests
      (snd match exploreMode options with
           | Some Metrics => forEach filtered (pushMetrics this options n) [] w
           | _ => forEach filtered (pushRange this options n) [] w
           end) = requests w ++ List.flat_map first filtered /\
    version
      (snd match exploreMode options with
           | Some Metrics => forEach filtered (pushMetrics this options n) [] w
           | _ => forEach filtered (pushRange this options n) [] w
           end) = version w /\
    subscriptions
      (snd match exploreMode options with
           | Some Metrics => forEach filtered (pushMetrics this options n) [] w
           | _ => forEach filtered (pushRange this options n) [] w
           end) = subscriptions w).
  { assert (Hrange : forall target w1,
      version w1 = version w ->
      requests (snd (pushRange this options n target w1)) =
        requests w1 ++
        (if liveStreaming target
         then match version w with Some _ => [] | None => [probe] end
         else [rangeRequest this target (rangeQueryOptions options)]) /\
      version (snd (pushRange this options n target w1)) = version w1 /\
      subscriptions (snd (pushRange this options n target w1)) = subscriptions w1).
    { intros target w1 Hv. unfold pushRange.
      pose proof (runRangeQueryWithFallback_call target
                    (rangeQueryOptions options) n w1) as Hcall.
      cbv zeta in Hcall. rewrite <- Hv.
      destruct (runRangeQueryWithFallback this target
                  (rangeQueryOptions options) n w1). exact Hcall. }
    assert (Hmetrics : forall target w1,
      version w1 = version w ->
      requests (snd (pushMetrics this options n target w1)) =
        requests w1 ++
        ([instantRequest this target options] ++
         (if liveStreaming target
          then match version w with Some _ => [] | None => [probe] end
          else [rangeRequest this target (rangeQueryOptions options)])) /\
      version (snd (pushMetrics this options n target w1)) = version w1 /\
      subscriptions (snd (pushMetrics this options n target w1)) =
        subscriptions w1).
    { intros target w1 Hv. unfold pushMetrics.
      destruct (runInstantQuery_delivery this target options n w1 w1
                  (fun _ => Resolved (mkHttpMessage None None false NoBody None)))
        as [Hinstant _].
      destruct (runInstantQuery this target options n w1) as [instant w2].
      cbn [snd] in Hinstant. subst w2.
      pose proof (runRangeQueryWithFallback_call target
                    (rangeQueryOptions options) n
                    (issue (instantRequest this target options) w1)) as Hcall.
      cbv zeta in Hcall. cbn [issue version requests subscriptions] in Hcall.
      rewrite <- Hv.
      destruct (runRangeQueryWithFallback this target
                  (rangeQueryOptions options) n
                  (issue (instantRequest this target options) w1)).
      cbn [snd] in *. rewrite List.app_assoc. exact Hcall. }
    subst first.
    destruct (exploreMode options) as [[|]|].
    - exact (forEach_calls _ _ w Hmetrics filtered [] w eq_refl).
    - exact (forEach_calls _ _ w Hrange filtered [] w eq_refl).
    - exact (forEach_calls _ _ w Hrange filtered [] w eq_refl). }
  destruct (match exploreMode options with
            | Some Metrics => forEach filtered (pushMetrics this options n) [] w
            | _ => forEach filtered (pushRange this options n) [] w
            end) as [subQueries w1].
  cbn [snd] in Hall. destruct subQueries; exact Hall.
Qed.

Lemma map_values_all_pass {E A : Type} (project : A -> A + E)
  (values : list A) (last : Rx.Ending E) :
  Forall (fun a => project a = inl a) values ->
  Rx.map_values project values last = Rx.mkRun values last.
Proof.
  induction 1 as [|a rest Ha _ IH]; [reflexivity|].
  cbn [Rx.map_values]. rewrite Ha, IH. reflexivity.
Qed.

Lemma map_values_first_throw {E A : Type} (project : A -> A + E)
  (passed : list A) (bad : A) (others : list A) (e : E) (last : Rx.Ending E) :
  Forall (fun a => project a = inl a) passed ->
  project bad = inr e ->
  Rx.map_values project (passed ++ bad :: others) last =
    Rx.mkRun passed (Rx.Failed e).
Proof.
  intros Hpassed Hbad.
  induction Hpassed as [|a rest Ha _ IH]; cbn [app Rx.map_values].
  - now rewrite Hbad.
  - rewrite Ha, IH. reflexivity.
Qed.

(** X14.  In the modes other than metrics, what a target's sub-query
    delivers passes the logs-mode check of [query].  Outside logs mode, and
    in logs mode as long as no response holds a time series, the responses
    pass unchanged.  In logs mode the first response that holds a time
    series fails the sub-query with the logs-mode error: the responses
    before it are delivered, that response and the later ones are not. *)
Theorem logs_mode_rejects_time_series (options : DataQueryRequest)
  (length : nat) (target : LokiQuery) (w w' : World) (backend : Backend) :
  let ranged :=
    fst (runRangeQueryWithFallback this target (rangeQueryOptions options)
           length w) backend w' in
  let holds_series (response : DataQueryResponse) :=
    existsb isTimeSeries (data response) in
  exists sub,
    fst (pushRange this options length target w) = [sub] /\
    snd (sub backend w') = snd ranged /\
    (exploreMode options <> Some Logs -> fst (sub backend w') = fst ranged) /\
    (Forall (fun response => holds_series response = false)
       (Rx.emitted (fst ranged)) ->
     fst (sub backend w') = fst ranged) /\
    (forall passed bad others,
       exploreMode options = Some Logs ->
       Rx.emitted (fst ranged) = passed ++ bad :: others ->
       Forall (fun response => holds_series response = false) passed ->
       holds_series bad = true ->
       fst (sub backend w') =
         Rx.mkRun passed
           (Rx.Failed
              (JsError
                 "Logs mode does not support queries that return time series data. Please perform a logs query or switch to Metrics mode."))).
Proof.
  intros ranged holds_series. subst ranged. unfold pushRange.
  destruct (runRangeQueryWithFallback this target (rangeQueryOptions options)
              length w) as [observable w1].
  cbn [fst snd]. eexists. split; [reflexivity|].
  unfold Rx.pipe. destruct (observable backend w') as [[values last] w2].
  cbn [fst snd Rx.emitted]. unfold Rx.map. cbn [Rx.emitted Rx.ending].
  split; [reflexivity|]. split; [|split].
  - intros Hmode. apply map_values_all_pass.
    apply List.Forall_forall. intros response _. unfold logsModeCheck.
    destruct (exploreMode options) as [[|]|]; [reflexivity|contradiction|reflexivity].
  - intros Hnone. apply map_values_all_pass.
    apply List.Forall_forall. intros response Hin.
    rewrite List.Forall_forall in Hnone. specialize (Hnone response Hin).
    unfold logsModeCheck. subst holds_series. cbn beta in Hnone. rewrite Hnone.
    now rewrite Bool.andb_false_r.
  - intros passed bad others Hmode -> Hpassed Hbad.
    apply map_values_first_throw.
    + apply List.Forall_forall. intros response Hin.
      rewrite List.Forall_forall in Hpassed. specialize (Hpassed response Hin).
      unfold logsModeCheck. subst holds_series. cbn beta in Hpassed.
      rewrite Hpassed. now rewrite Bool.andb_false_r.
    + unfold logsModeCheck. subst holds_series. cbn beta in Hbad.
      rewrite Hmode, Hbad. reflexivity.
Qed.

(** X15.  A live query on an instance without a cached version caches the
    version that its probe detects, so that a live query started afterwards
    hands nothing to the transport, neither when it is called nor when it
    is delivered, and leaves the cached version as it is. *)
Theorem live_query_caches_version (target next : LokiQuery)
  (options nextOptions : RangeQueryOptions) (w w' : World)
  (backend nextBackend : Backend) :
  version w = None ->
  let delivered := snd (fst (runLiveQuery this target options w) backend w') in
  version delivered = Some (detected (backend probe)) /\
  snd (runLiveQuery this next nextOptions delivered) = delivered /\
  forall w'',
    requests (snd (fst (runLiveQuery this next nextOptions delivered)
                     nextBackend w'')) = requests w'' /\
    version (snd (fst (runLiveQuery this next nextOptions delivered)
                    nextBackend w'')) = version w''.
Proof.
  intros Hv delivered.
  assert (Hcached : version delivered = Some (detected (backend probe))).
  { subst delivered. unfold runLiveQuery.
    destruct (getVersion_probing w Hv) as [_ Hf].
    destruct (getVersion w) as [promise w1]. cbn [fst snd] in *.
    unfold Rx.pipe.
    rewrite (mergeMap_of_value _ _ backend w' (detected (backend probe))
               (set_version (detected (backend probe)) w'))
      by (unfold from_version; now rewrite Hf).
    destruct (detected (backend probe)); reflexivity. }
  split; [assumption|].
  destruct (getVersion_cached delivered _ Hcached) as [Hs Hf].
  unfold runLiveQuery.
  destruct (getVersion delivered) as [promise w1]. cbn [fst snd] in *. subst w1.
  split; [reflexivity|]. intros w''.
  unfold Rx.pipe.
  rewrite (mergeMap_of_value _ _ nextBackend w'' (detected (backend probe)) w'')
    by (unfold from_version; now rewrite Hf).
  destruct (detected (backend probe)); split; reflexivity.
Qed.

(** X16.  Two calls of [getVersion] made before either probe is answered
    both hand a probe to the transport, and each answer stores what it
    detects: the version that stays is the one of the answer that arrives
    last, also when the field was set by the other answer before. *)
Theorem in_flight_probe_overwrites (w : World) (firstAnswers lastAnswers : Backend) :
  version w = None ->
  let first := getVersion w in
  let second := getVersion (snd first) in
  requests (snd second) = requests w ++ [probe; probe] /\
  let afterFirst := snd (fst first firstAnswers (snd second)) in
  let afterLast := snd (fst second lastAnswers afterFirst) in
  version afterFirst = Some (detected (firstAnswers probe)) /\
  version afterLast = Some (detected (lastAnswers probe)) /\
  requests afterLast = requests w ++ [probe; probe].
Proof.
  intros Hv first second. subst first second.
  destruct (getVersion_probing w Hv) as [Hs1 Hf1].
  assert (Hv2 : version (snd (getVersion w)) = None) by now rewrite Hs1.
  destruct (getVersion_probing (snd (getVersion w)) Hv2) as [Hs2 Hf2].
  split.
  - rewrite Hs2, Hs1. cbn [issue requests]. now rewrite <- List.app_assoc.
  - cbv zeta. rewrite Hf1. cbn [snd]. rewrite Hf2. cbn [snd].
    rewrite Hs2, Hs1. cbn [issue set_version requests version].
    rewrite <- List.app_assoc. auto.
Qed.


End Dispatch.

(** ** Context queries *)

Section ContextProperties.

Context `{ContextConverters}.

(** What the promise of [getLogRowContext] settles with, by the answers of
    the backend. *)
Lemma getLogRowContext_delivery (row : LogRowModel)
  (options : option LokiContextQueryOptions) (log log' : list ContextRequest)
  (backend : ContextBackend) :
  snd (getLogRowContext row options log) =
    log ++ [modernContextRequest row options] /\
  fst (getLogRowContext row options log) backend log' =
    let continue (res : HttpMessage) :=
      match modernContextFrames res (contextReverse options) with
      | inr thrown =>
          (ContextRejected thrown, log' ++ [legacyContextRequest row options])
      | inl frames =>
          (if is_404 (status res) then
             match backend (legacyContextRequest row options) with
             | Resolved answer =>
                 match legacyContextFrames answer (contextReverse options) with
                 | inl response => ContextFulfilled (Some response)
                 | inr thrown => ContextRejected thrown
                 end
             | Rejected err => ContextRejected (contextError err)
             end
           else
             ContextFulfilled
               (Some {| data := frames; key := None; state := None |}),
           log' ++ [legacyContextRequest row options])
      end in
    match backend (modernContextRequest row options) with
    | Resolved res => continue res
    | Rejected err =>
        if is_404 (status err) then continue err
        else (ContextRejected (contextError err), log')
    end.
Proof.
  unfold getLogRowContext, context_request. cbn [fst snd].
  fold (modernContextRequest row options).
  fold (legacyContextRequest row options).
  split; [reflexivity|]. cbv zeta.
  match goal with
  | |- context [Rx.switchMap ?p _] => set (project := p)
  end.
  assert (Hproject : forall res,
    project res backend log' =
      match modernContextFrames res (contextReverse options) with
      | inr thrown =>
          (Rx.throwError thrown, log' ++ [legacyContextRequest row options])
      | inl frames =>
          (if is_404 (status res) then
             match backend (legacyContextRequest row options) with
             | Resolved answer =>
                 match legacyContextFrames answer (contextReverse options) with
                 | inl response => Rx.of_value response
                 | inr thrown => Rx.throwError thrown
                 end
             | Rejected err => Rx.throwError (contextError err)
             end
           else Rx.of_value {| data := frames; key := None; state := None |},
           log' ++ [legacyContextRequest row options])
      end).
  { intros res. subst project. cbv beta iota.
    destruct (modernContextFrames res (contextReverse options)) as [frames|thrown];
      [|reflexivity].
    destruct (is_404 (status res)); cbn [Rx.iif]; [|reflexivity].
    unfold Rx.pipe.
    destruct (backend (legacyContextRequest row options)) as [answer|err];
      cbn [from_promise].
    - unfold Rx.of_value, Rx.catchError, Rx.map.
      cbn [Rx.ending Rx.emitted Rx.map_values].
      destruct (legacyContextFrames answer (contextReverse options));
        reflexivity.
    - reflexivity. }
  assert (Hcontinue : forall res source,
    source backend log' = (Rx.of_value res, log') ->
    (let (r, log2) := Rx.switchMap project source backend log' in
     (contextPromise r, log2)) =
    match modernContextFrames res (contextReverse options) with
    | inr thrown =>
        (ContextRejected thrown, log' ++ [legacyContextRequest row options])
    | inl frames =>
        (if is_404 (status res) then
           match backend (legacyContextRequest row options) with
           | Resolved answer =>
               match legacyContextFrames answer (contextReverse options) with
               | inl response => ContextFulfilled (Some response)
               | inr thrown => ContextRejected thrown
               end
           | Rejected err => ContextRejected (contextError err)
           end
         else
           ContextFulfilled
             (Some {| data := frames; key := None; state := None |}),
         log' ++ [legacyContextRequest row options])
    end).
  { intros res source Hsource. unfold Rx.switchMap.
    rewrite (mergeMap_of_value _ _ backend log' res log' Hsource), Hproject.
    destruct (modernContextFrames res (contextReverse options)) as [frames|thrown];
      [|reflexivity].
    destruct (is_404 (status res)); [|reflexivity].
    destruct (backend (legacyContextRequest row options)) as [answer|err];
      [|reflexivity].
    destruct (legacyContextFrames answer (contextReverse options)); reflexivity. }
  destruct (backend (modernContextRequest row options)) as [res|err] eqn:Hb.
  - apply Hcontinue. unfold Rx.pipe. now rewrite Hb.
  - destruct (is_404 (status err)) eqn:H4.
    + rewrite (Hcontinue err); [now rewrite H4|].
      unfold Rx.pipe. rewrite Hb. cbn [from_promise].
      unfold Rx.throwError, Rx.catchError. cbn [Rx.ending Rx.emitted].
      rewrite H4. reflexivity.
    + unfold Rx.switchMap.
      rewrite (mergeMap_nothing _ _ backend log' log'
                 (Rx.Failed (contextError err))); [reflexivity|].
      unfold Rx.pipe. rewrite Hb. cbn [from_promise].
      unfold Rx.throwError, Rx.catchError. cbn [Rx.ending Rx.emitted].
      rewrite H4. reflexivity.
Qed.

(** X18.  The target of a context query ends at the row's time for
    BACKWARD, which is also the direction when the options give none, and
    starts there for FORWARD, the row's time being the double nearest to
    its milliseconds times 1e6.  For a row between 2006-07-14T23:58:24.607Z
    and 2043-01-25T21:56:49.213Z that double is at most 128 ns off and the
    two bounds and the two hours stay in one binade, so the target spans
    exactly two hours.  The limit is 10 lines when the options are missing
    or give no limit or the limit 0, and the given limit otherwise. *)
Theorem context_target_window (row : LogRowModel)
  (options : option LokiContextQueryOptions) :
  let target := contextTarget row options in
  let timeEpochNs := JsNumber.times (timeEpochMs row) 1000000 in
  (ct_direction target = BACKWARD -> ct_end target = timeEpochNs) /\
  (ct_direction target = FORWARD -> ct_start target = timeEpochNs) /\
  (1152921504607 <= timeEpochMs row <= 2305835809213 ->
   ct_end target - ct_start target = 7200000000000 /\
   Z.abs (timeEpochNs - timeEpochMs row * 1000000) <= 128) /\
  (options = None -> ct_direction target = BACKWARD /\ ct_limit target = 10) /\
  (forall o,
     options = Some o ->
     (context_direction o = None -> ct_direction target = BACKWARD) /\
     (context_limit o = None \/ context_limit o = Some 0 -> ct_limit target = 10) /\
     (forall l, context_limit o = Some l -> l <> 0 -> ct_limit target = l)).
Proof.
  cbv zeta. unfold contextTarget, prepareLogRowContextQueryTarget.
  split; [destruct (contextDirection options); cbn; [reflexivity|discriminate]|].
  split; [destruct (contextDirection options); cbn; [discriminate|reflexivity]|].
  split; [|split].
  - intros Hrow. unfold JsNumber.times.
    assert (Hbinade : 2 ^ 60 <= timeEpochMs row * 1000000 < 2 ^ (60 + 1)).
    { change (2 ^ 60) with 1152921504606846976.
      change (2 ^ (60 + 1)) with 2305843009213693952. lia. }
    destruct (round_binade (timeEpochMs row * 1000000) 60 ltac:(lia) Hbinade)
      as [Hgrid [Hnear _]].
    change (2 ^ (60 - 52)) with 256 in Hgrid, Hnear.
    set (t := JsNumber.round (timeEpochMs row * 1000000)) in *.
    assert (Hdown : JsNumber.minus t (2 * 60 * 60 * 1000 * 1000000) =
                      t - 7200000000000).
    { unfold JsNumber.minus. apply (round_exact _ 8); [lia| |].
      - change (2 ^ 8) with 256. apply Z.divide_sub_r; [exact Hgrid|].
        exists 28125000000. reflexivity.
      - change (2 ^ (53 + 8)) with 2305843009213693952. lia. }
    assert (Hup : JsNumber.plus t (2 * 60 * 60 * 1000 * 1000000) =
                    t + 7200000000000).
    { unfold JsNumber.plus. apply (round_exact _ 8); [lia| |].
      - change (2 ^ 8) with 256. apply Z.divide_add_r; [exact Hgrid|].
        exists 28125000000. reflexivity.
      - change (2 ^ (53 + 8)) with 2305843009213693952. lia. }
    split; [|lia].
    destruct (contextDirection options); cbn [ct_end ct_start];
      [rewrite Hdown|rewrite Hup]; lia.
  - intros ->. split; reflexivity.
  - intros o ->. split; [|split].
    + intros Hd. cbn. rewrite Hd. reflexivity.
    + intros [Hl|Hl]; cbn [contextLimit]; rewrite Hl;
        destruct (contextDirection (Some o)); reflexivity.
    + intros l Hl Hnz. cbn [contextLimit]. rewrite Hl. cbn [truthy_number].
      destruct (Z.eqb_spec l 0); [contradiction|].
      destruct (contextDirection (Some o)); reflexivity.
Qed.

(** X19.  [getLogRowContext] hands the modern request to the transport when
    it is called.  When the answer is delivered it hands over the legacy
    request, with the same target, whenever the answer is a response or a
    rejection with status 404: the legacy request is an argument of [iif]
    and so goes out before the status is looked at, after a successful
    modern response too.  Only a rejection with another status hands
    nothing more to the transport. *)
Theorem context_query_always_asks_legacy (row : LogRowModel)
  (options : option LokiContextQueryOptions) (log log' : list ContextRequest)
  (backend : ContextBackend) :
  snd (getLogRowContext row options log) =
    log ++ [modernContextRequest row options] /\
  (forall res,
     backend (modernContextRequest row options) = Resolved res ->
     snd (fst (getLogRowContext row options log) backend log') =
       log' ++ [legacyContextRequest row options]) /\
  (forall err,
     backend (modernContextRequest row options) = Rejected err ->
     snd (fst (getLogRowContext row options log) backend log') =
       if is_404 (status err)
       then log' ++ [legacyContextRequest row options]
       else log').
Proof.
  destruct (getLogRowContext_delivery row options log log' backend)
    as [Hcall Hdelivered].
  split; [assumption|]. rewrite Hdelivered. cbv zeta. split.
  - intros res ->.
    destruct (modernContextFrames res (contextReverse options)); reflexivity.
  - intros err ->. destruct (is_404 (status err)); [|reflexivity].
    destruct (modernContextFrames err (contextReverse options)); reflexivity.
Qed.

(** X20.  When the modern request is rejected with a status other than 404,
    the promise of [getLogRowContext] is rejected with the fixed message
    and the status and status text of the rejection.  When it is answered
    by a response whose status is not 404 and whose body has a result, the
    promise is fulfilled with the frames of that result, in reverse order
    exactly for the direction FORWARD. *)
Theorem context_query_modern_answer (row : LogRowModel)
  (options : option LokiContextQueryOptions) (log log' : list ContextRequest)
  (backend : ContextBackend) :
  (forall err,
     backend (modernContextRequest row options) = Rejected err ->
     status err <> Some 404 ->
     fst (fst (getLogRowContext row options log) backend log') =
       ContextRejected
         (ContextError
            "Error during context query. Please check JS console logs."
            (status err) (statusText err))) /\
  (forall res resultType result,
     backend (modernContextRequest row options) = Resolved res ->
     status res <> Some 404 ->
     body res = LokiBody resultType result ->
     fst (fst (getLogRowContext row options log) backend log') =
       ContextFulfilled
         (Some
            {| data :=
                 lokiStreamResultToDataFrame result
                   (match contextDirection options with
                    | FORWARD => true
                    | BACKWARD => false
                    end);
               key := None;
               state := None |})).
Proof.
  assert (Hnot : forall code, code <> Some 404 -> is_404 code = false).
  { intros [code|] Hc; [|reflexivity]. cbn.
    destruct (Z.eqb_spec code 404) as [->|]; [contradiction|reflexivity]. }
  rewrite (proj2 (getLogRowContext_delivery row options log log' backend)).
  cbv zeta. split.
  - intros err -> Hs. rewrite (Hnot _ Hs). reflexivity.
  - intros res resultType result -> Hs Hbody.
    unfold modernContextFrames. rewrite Hbody, (Hnot _ Hs). cbn [fst].
    do 3 f_equal. unfold contextReverse, contextDirection.
    destruct options as [o|]; [|reflexivity].
    destruct (context_direction o) as [[|]|]; reflexivity.
Qed.

(** X21.  The fallback of [getLogRowContext] depends on the body of the 404.
    With no body, the promise settles with what the legacy answer gives:
    the frames of its streams, or the fixed error for a rejection.  With a
    text body that is not empty, building the frames of the modern answer
    reads a member of [undefined]: the promise is rejected with a
    [TypeError], whatever the legacy endpoint answers. *)
Theorem context_query_fallback (row : LogRowModel)
  (options : option LokiContextQueryOptions) (log log' : list ContextRequest)
  (backend : ContextBackend) (err : HttpMessage) :
  backend (modernContextRequest row options) = Rejected err ->
  status err = Some 404 ->
  (body err = NoBody ->
   (forall answer streams,
      backend (legacyContextRequest row options) = Resolved answer ->
      body answer = LegacyBody streams ->
      fst (fst (getLogRowContext row options log) backend log') =
        ContextFulfilled
          (Some
             {| data :=
                  legacyLogStreamToDataFrame streams (contextReverse options);
                key := None;
                state := None |})) /\
   (forall failure,
      backend (legacyContextRequest row options) = Rejected failure ->
      fst (fst (getLogRowContext row options log) backend log') =
        ContextRejected (contextError failure))) /\
  (forall text,
     body err = TextBody text -> text <> EmptyString ->
     fst (fst (getLogRowContext row options log) backend log') =
       ContextRejected ContextTypeError).
Proof.
  intros Hb H4.
  rewrite (proj2 (getLogRowContext_delivery row options log log' backend)).
  cbv zeta. rewrite Hb, H4. cbn [is_404 Z.eqb Pos.eqb].
  unfold modernContextFrames. split.
  - intros Hbody. rewrite Hbody. cbn [fst]. split.
    + intros answer streams -> Hanswer. unfold legacyContextFrames.
      now rewrite Hanswer.
    + intros failure ->. reflexivity.
  - intros text Hbody Hne. rewrite Hbody.
    assert (Ht : truthy_string text = true).
    { unfold truthy_string. destruct (String.eqb_spec text EmptyString);
        [contradiction|reflexivity]. }
    rewrite Ht. reflexivity.
Qed.

End ContextProperties.

(** ** The connection test *)

(** What the promise of [testDatasource] settles with, by the answers of
    the backend. *)
Lemma testDatasource_delivery (now : Z) (log log' : list LabelRequest)
  (backend : LabelBackend) :
  snd (testDatasource now log) = log ++ [modernLabelRequest now] /\
  fst (testDatasource now log) backend log' =
    let fallback :=
      (TestFulfilled
         (Some
            match backend (legacyLabelRequest now) with
            | LabelResolved answer => connectionResult answer
            | LabelRejected err => connectionFailure err
            end),
       log' ++ [legacyLabelRequest now]) in
    match backend (modernLabelRequest now) with
    | LabelResolved res =>
        if is_404 (label_status res) then fallback
        else (TestFulfilled (Some (connectionResult res)), log')
    | LabelRejected err =>
        if is_404 (label_status err) then fallback
        else (TestFulfilled (Some (connectionFailure err)), log')
    end.
Proof.
  unfold testDatasource, label_request. cbn [fst snd].
  fold (modernLabelRequest now). fold (legacyLabelRequest now).
  split; [reflexivity|]. cbv zeta.
  match goal with
  | |- context [Rx.switchMap ?p _] => set (project := p)
  end.
  assert (Hproject : forall res,
    project res backend log' =
      if is_404 (label_status res)
      then (label_from_promise (backend (legacyLabelRequest now)),
            log' ++ [legacyLabelRequest now])
      else (Rx.of_value res, log')).
  { intros res. subst project. cbv beta.
    destruct (is_404 (label_status res)); reflexivity. }
  assert (Hcontinue : forall res source,
    source backend log' = (Rx.of_value res, log') ->
    (let (r, log2) :=
       Rx.pipe
         (fun source0 =>
            Rx.catchError (fun err => Rx.of_value (connectionFailure err))
              (Rx.map (fun res0 => inl (connectionResult res0)) source0))
         (Rx.switchMap project source) backend log' in
     (testPromise r, log2)) =
    if is_404 (label_status res)
    then
      (TestFulfilled
         (Some
            match backend (legacyLabelRequest now) with
            | LabelResolved answer => connectionResult answer
            | LabelRejected err => connectionFailure err
            end),
       log' ++ [legacyLabelRequest now])
    else (TestFulfilled (Some (connectionResult res)), log')).
  { intros res source Hsource. unfold Rx.pipe, Rx.switchMap.
    rewrite (mergeMap_of_value _ _ backend log' res log' Hsource), Hproject.
    destruct (is_404 (label_status res)); [|reflexivity].
    destruct (backend (legacyLabelRequest now)); reflexivity. }
  destruct (backend (modernLabelRequest now)) as [res|err] eqn:Hb.
  - apply Hcontinue. unfold Rx.pipe. now rewrite Hb.
  - destruct (is_404 (label_status err)) eqn:H4.
    + rewrite (Hcontinue err); [now rewrite H4|].
      unfold Rx.pipe. rewrite Hb. cbn [label_from_promise].
      unfold Rx.throwError, Rx.catchError. cbn [Rx.ending Rx.emitted].
      rewrite H4. reflexivity.
    + unfold Rx.pipe at 1. unfold Rx.switchMap.
      rewrite (mergeMap_nothing _ _ backend log' log' (Rx.Failed err));
        [reflexivity|].
      unfold Rx.pipe. rewrite Hb. cbn [label_from_promise].
      unfold Rx.throwError, Rx.catchError. cbn [Rx.ending Rx.emitted].
      rewrite H4. reflexivity.
Qed.

Lemma connectionResult_success (res : LabelReply) :
  test_status (connectionResult res) = "success"%string <->
  exists value values, label_data res = LabelValues (value :: values).
Proof.
  unfold connectionResult.
  destruct (label_data res) as [[|value values]|text| |text|]; cbn; split;
    try discriminate; try (intros [v [vs Hv]]; discriminate).
  - intros _. now exists value, values.
  - reflexivity.
Qed.

Lemma connectionFailure_error (err : LabelReply) :
  test_status (connectionFailure err) = "error"%string.
Proof. reflexivity. Qed.

(** X22.  [testDatasource] never rejects: whatever the label endpoints
    answer, its promise is fulfilled with a result, and the result is a
    success exactly when the answer it rests on is a response whose values
    are not empty: the modern response if its status is not 404, the legacy
    response after a modern answer with status 404. *)
Theorem testDatasource_always_resolves (now : Z) (log log' : list LabelRequest)
  (backend : LabelBackend) :
  exists result,
    fst (fst (testDatasource now log) backend log') = TestFulfilled (Some result) /\
    (test_status result = "success"%string <->
     exists res value values,
       label_data res = LabelValues (value :: values) /\
       ((backend (modernLabelRequest now) = LabelResolved res /\
         is_404 (label_status res) = false) \/
        (is_404 (label_status
                   (label_settled_with (backend (modernLabelRequest now)))) = true /\
         backend (legacyLabelRequest now) = LabelResolved res))).
Proof.
  rewrite (proj2 (testDatasource_delivery now log log' backend)). cbv zeta.
  destruct (backend (modernLabelRequest now)) as [res|err] eqn:Hm;
    cbn [label_settled_with].
  - destruct (is_404 (label_status res)) eqn:H4.
    + destruct (backend (legacyLabelRequest now)) as [answer|failure] eqn:Hl;
        eexists; (split; [reflexivity|]).
      * rewrite connectionResult_success. split.
        -- intros [v [vs Hv]]. exists answer, v, vs. split; [assumption|].
           right. split; reflexivity.
        -- intros [r [v [vs [Hv [[Hr Hn]|[_ Hr]]]]]].
           ++ injection Hr as <-. congruence.
           ++ injection Hr as <-. now exists v, vs.
      * rewrite connectionFailure_error. split; [discriminate|].
        intros [r [v [vs [Hv [[Hr Hn]|[_ Hr]]]]]]; [|discriminate].
        injection Hr as <-. congruence.
    + eexists. split; [reflexivity|].
      rewrite connectionResult_success. split.
      * intros [v [vs Hv]]. exists res, v, vs. split; [assumption|].
        left. split; [reflexivity|assumption].
      * intros [r [v [vs [Hv [[Hr Hn]|[Hy _]]]]]]; [|discriminate].
        injection Hr as <-. now exists v, vs.
  - destruct (is_404 (label_status err)) eqn:H4.
    + destruct (backend (legacyLabelRequest now)) as [answer|failure] eqn:Hl;
        eexists; (split; [reflexivity|]).
      * rewrite connectionResult_success. split.
        -- intros [v [vs Hv]]. exists answer, v, vs. split; [assumption|].
           right. split; reflexivity.
        -- intros [r [v [vs [Hv [[Hr Hn]|[_ Hr]]]]]]; [discriminate|].
           injection Hr as <-. now exists v, vs.
      * rewrite connectionFailure_error. split; [discriminate|].
        intros [r [v [vs [Hv [[Hr Hn]|[_ Hr]]]]]]; discriminate.
    + eexists. split; [reflexivity|].
      rewrite connectionFailure_error. split; [discriminate|].
      intros [r [v [vs [Hv [[Hr Hn]|[Hy _]]]]]]; discriminate.
Qed.

(** X23.  [testDatasource] asks the modern label endpoint when it is called
    and the legacy label endpoint, with the same [start], exactly when the
    modern answer has status 404; it hands the transport nothing else. *)
Theorem testDatasource_requests (now : Z) (log log' : list LabelRequest)
  (backend : LabelBackend) :
  snd (testDatasource now log) = log ++ [modernLabelRequest now] /\
  snd (fst (testDatasource now log) backend log') =
    log' ++
    (if is_404 (label_status
                  (label_settled_with (backend (modernLabelRequest now))))
     then [legacyLabelRequest now]
     else []) /\
  label_start (legacyLabelRequest now) = label_start (modernLabelRequest now).
Proof.
  destruct (testDatasource_delivery now log log' backend) as [Hcall Hdelivered].
  split; [assumption|]. split; [|reflexivity].
  rewrite Hdelivered. cbv zeta.
  destruct (backend (modernLabelRequest now)) as [res|err];
    cbn [label_settled_with].
  - destruct (is_404 (label_status res)); cbn [snd];
      [reflexivity|now rewrite List.app_nil_r].
  - destruct (is_404 (label_status err)); cbn [snd];
      [reflexivity|now rewrite List.app_nil_r].
Qed.

(** X24.  When the modern label request is rejected with a status other
    than 404, [testDatasource] resolves with the status ["error"] and a
    message that starts with ["Loki: "]; for a rejection without status
    text, status and body the message is
    ["Loki: Cannot connect to Loki"]. *)
Theorem testDatasource_failure_message (now : Z) (log log' : list LabelRequest)
  (backend : LabelBackend) (err : LabelReply) :
  backend (modernLabelRequest now) = LabelRejected err ->
  label_status err <> Some 404 ->
  exists rest,
    fst (fst (testDatasource now log) backend log') =
      TestFulfilled
        (Some {| test_status := "error";
                 test_message := ("Loki: " ++ rest)%string |}) /\
    (label_statusText err = None -> label_status err = None ->
     label_data err = LabelNothing ->
     rest = "Cannot connect to Loki"%string).
Proof.
  intros Hb Hs.
  rewrite (proj2 (testDatasource_delivery now log log' backend)). cbv zeta.
  rewrite Hb.
  assert (H4 : is_404 (label_status err) = false).
  { unfold is_404. destruct (label_status err) as [code|]; [|reflexivity].
    destruct (Z.eqb_spec code 404) as [->|]; [contradiction|reflexivity]. }
  rewrite H4. unfold connectionFailure. eexists. split; [reflexivity|].
  intros -> -> ->. reflexivity.
Qed.

(** ** The further properties on the sample instance *)

Lemma legacy_request_exactly_on_404_witness :
  liveStreaming (Sample.target false) = false /\
  requests
    (snd (fst (runRangeQueryWithFallback Sample.datasource (Sample.target false)
                 (Sample.window None 0 60000) 1 newWorld)
            Examples.failing newWorld)) = [] /\
  requests
    (snd (fst (runRangeQueryWithFallback Sample.datasource (Sample.target false)
                 (Sample.window None 0 60000) 1 newWorld)
            Sample.legacyOnly newWorld)) =
    [legacyRequest Sample.datasource (Sample.target false)
       (Sample.window None 0 60000)].
Proof.
  split; [reflexivity|]. split.
  - exact (proj1 (proj2
             (@legacy_request_exactly_on_404 Sample.collaborators
                Sample.datasource (Sample.target false)
                (Sample.window None 0 60000) 1%nat newWorld newWorld
                Examples.failing eq_refl))).
  - exact (proj1 (proj2
             (@legacy_request_exactly_on_404 Sample.collaborators
                Sample.datasource (Sample.target false)
                (Sample.window None 0 60000) 1%nat newWorld newWorld
                Sample.legacyOnly eq_refl))).
Defined.

Lemma modern_response_is_converted_witness :
  liveStreaming (Sample.target false) = false /\
  Sample.answering "streams"
    (rangeRequest Sample.datasource (Sample.target false)
       (Sample.window None 0 60000)) =
    Resolved (Sample.reply 200 false (LokiBody "streams" "[]")) /\
  status (Sample.reply 200 false (LokiBody "streams" "[]")) <> Some 404 /\
  fst (fst (runRangeQueryWithFallback Sample.datasource (Sample.target false)
              (Sample.window None 0 60000) 1 newWorld)
         (Sample.answering "streams") newWorld) =
    Rx.of_value
      {| data := [DataFrameDatum "modern"]; key := Some "A"%string;
         state := None |}.
Proof.
  split; [reflexivity|]. split; [reflexivity|]. split; [discriminate|].
  exact (@modern_response_is_converted Sample.collaborators Sample.datasource
           (Sample.target false) (Sample.window None 0 60000) 1%nat newWorld
           newWorld (Sample.answering "streams")
           (Sample.reply 200 false (LokiBody "streams" "[]"))
           eq_refl eq_refl eq_refl ltac:(discriminate)).
Defined.

Lemma range_failure_is_normalized_witness :
  liveStreaming (Sample.target false) = false /\
  Examples.failing
    (rangeRequest Sample.datasource (Sample.target false)
       (Sample.window None 0 60000)) =
    Rejected (Sample.reply 500 false (TextBody "boom")) /\
  exists error,
    fst (fst (runRangeQueryWithFallback Sample.datasource (Sample.target false)
                (Sample.window None 0 60000) 1 newWorld)
           Examples.failing newWorld) =
      Rx.mkRun [] (Rx.Failed (QueryError error)) /\
    qe_refId error = "A"%string /\ qe_status error = Some 500.
Proof.
  split; [reflexivity|]. split; [reflexivity|].
  destruct (@range_failure_is_normalized Sample.collaborators Sample.datasource
              (Sample.target false) (Sample.window None 0 60000) 1%nat newWorld
              newWorld Examples.failing
              (Sample.reply 500 false (TextBody "boom"))
              eq_refl eq_refl eq_refl ltac:(discriminate))
    as [error [Hrun [Hid [Hstatus _]]]].
  exists error. split; [exact Hrun|]. split; [exact Hid|exact Hstatus].
Defined.

Lemma cancelled_exchange_is_silent_witness :
  liveStreaming (Sample.target false) = false /\
  cancelled
    (settled_with
       (Sample.cancelled404
          (rangeRequest Sample.datasource (Sample.target false)
             (Sample.window None 0 60000)))) = true /\
  fst (runRangeQueryWithFallback Sample.datasource (Sample.target false)
         (Sample.window None 0 60000) 1 newWorld) Sample.cancelled404 newWorld =
    (Rx.mkRun [] Rx.Completed, newWorld) /\
  fst (runInstantQuery Sample.datasource (Sample.target false)
         (Sample.request None None []) 1 newWorld) Sample.cancelled404 newWorld =
    (Rx.mkRun [] Rx.Completed, newWorld) /\
  fst (runLegacyQuery Sample.datasource (Sample.target false)
         (Sample.window None 0 60000) newWorld) Sample.cancelled404 newWorld =
    (Rx.mkRun [] Rx.Completed, newWorld).
Proof.
  split; [reflexivity|]. split; [reflexivity|].
  destruct (@cancelled_exchange_is_silent Sample.collaborators Sample.datasource
              (Sample.target false) (Sample.request None None [])
              (Sample.window None 0 60000) 1%nat newWorld newWorld
              Sample.cancelled404) as [Hrange [Hinstant Hlegacy]].
  split; [exact (Hrange eq_refl eq_refl)|].
  split; [exact (Hinstant eq_refl)|exact (Hlegacy eq_refl eq_refl)].
Defined.

Lemma instant_query_never_falls_back_witness :
  Sample.legacyOnly
    (instantRequest Sample.datasource (Sample.target false)
       (Sample.request (Some Metrics) None [])) =
    Rejected (Sample.reply 404 false NoBody) /\
  cancelled (Sample.reply 404 false NoBody) = false /\
  exists error,
    fst (fst (runInstantQuery Sample.datasource (Sample.target false)
                (Sample.request (Some Metrics) None []) 1 newWorld)
           Sample.legacyOnly newWorld) =
      Rx.mkRun [] (Rx.Failed (QueryError error)) /\
    qe_status error = Some 404.
Proof.
  split; [reflexivity|]. split; [reflexivity|].
  destruct (@instant_query_never_falls_back Sample.collaborators
              Sample.datasource (Sample.target false)
              (Sample.request (Some Metrics) None []) 1%nat newWorld newWorld
              Sample.legacyOnly) as [_ [_ Hrejected]].
  eexists. split.
  - exact (Hrejected (Sample.reply 404 false NoBody) eq_refl eq_refl).
  - reflexivity.
Defined.

Lemma logs_mode_rejects_time_series_witness :
  exploreMode (Sample.request (Some Logs) None []) = Some Logs /\
  exists sub,
    fst (@pushRange Examples.seriesCollaborators Sample.datasource
           (Sample.request (Some Logs) None []) 1 (Sample.target false)
           newWorld) = [sub] /\
    fst (sub (Sample.answering "matrix") newWorld) =
      Rx.mkRun []
        (Rx.Failed
           (JsError
              "Logs mode does not support queries that return time series data. Please perform a logs query or switch to Metrics mode.")).
Proof.
  split; [reflexivity|].
  destruct (@logs_mode_rejects_time_series Examples.seriesCollaborators
              Sample.datasource (Sample.request (Some Logs) None []) 1%nat
              (Sample.target false) newWorld newWorld
              (Sample.answering "matrix"))
    as [sub [Hsub [_ [_ [_ Hthrow]]]]].
  exists sub. split; [exact Hsub|].
  exact (Hthrow []
           {| data := [TimeSeriesDatum "series"]; key := Some "A"%string;
              state := None |}
           [] eq_refl eq_refl (Forall_nil _) eq_refl).
Defined.

Lemma live_query_caches_version_witness :
  version newWorld = None /\
  version
    (snd (fst (runLiveQuery Sample.datasource (Sample.target true)
                 (Sample.window None 0 60000) newWorld)
            Sample.legacyOnly newWorld)) = Some v0 /\
  snd (runLiveQuery Sample.datasource (Sample.target true)
         (Sample.window None 0 60000)
         (snd (fst (runLiveQuery Sample.datasource (Sample.target true)
                      (Sample.window None 0 60000) newWorld)
                 Sample.legacyOnly newWorld))) =
    snd (fst (runLiveQuery Sample.datasource (Sample.target true)
                (Sample.window None 0 60000) newWorld)
           Sample.legacyOnly newWorld).
Proof.
  split; [reflexivity|].
  destruct (@live_query_caches_version Sample.collaborators Sample.datasource
              (Sample.target true) (Sample.target true)
              (Sample.window None 0 60000) (Sample.window None 0 60000)
              newWorld newWorld Sample.legacyOnly Sample.legacyOnly eq_refl)
    as [Hversion [Hcall _]].
  split; [exact Hversion|exact Hcall].
Defined.

Lemma in_flight_probe_overwrites_witness :
  version newWorld = None /\
  version
    (snd (fst (getVersion newWorld) (Sample.answering "streams")
            (snd (getVersion (snd (getVersion newWorld)))))) = Some v1 /\
  version
    (snd (fst (getVersion (snd (getVersion newWorld))) Sample.legacyOnly
            (snd (fst (getVersion newWorld) (Sample.answering "streams")
                    (snd (getVersion (snd (getVersion newWorld)))))))) =
    Some v0.
Proof.
  split; [reflexivity|].
  destruct (in_flight_probe_overwrites newWorld (Sample.answering "streams")
              Sample.legacyOnly eq_refl) as [_ [Hfirst [Hlast _]]].
  split; [exact Hfirst|exact Hlast].
Defined.


Lemma context_target_window_witness :
  1152921504607 <= timeEpochMs Examples.row <= 2305835809213 /\
  ct_direction (contextTarget Examples.row None) = BACKWARD /\
  ct_end (contextTarget Examples.row None) = 1600000000000000000 /\
  ct_end (contextTarget Examples.row None) -
    ct_start (contextTarget Examples.row None) = 7200000000000 /\
  ct_limit (contextTarget Examples.row None) = 10.
Proof.
  assert (Hrow : 1152921504607 <= timeEpochMs Examples.row <= 2305835809213)
    by (cbn; lia).
  destruct (context_target_window Examples.row None)
    as [Hbackward [_ [Hspan [Hdefault _]]]].
  destruct (Hdefault eq_refl) as [Hdirection Hlimit].
  split; [exact Hrow|].
  split; [exact Hdirection|].
  split; [exact (Hbackward Hdirection)|].
  split; [exact (proj1 (Hspan Hrow))|exact Hlimit].
Defined.

(** For later rows the two hours of a context target need not be exact:
    for a row less than two hours before 2^61 ns, the end of the FORWARD
    target is rounded in the next binade and the target spans 256 ns
    more. *)
Example context_target_window_past_2043 :
  let row := {| labels := []; timeEpochMs := 2305835809219 |} in
  let target :=
    contextTarget row
      (Some {| context_direction := Some FORWARD; context_limit := None |}) in
  ct_start target = 2305835809219000064 /\
  ct_end target - ct_start target = 7200000000256.
Proof. split; vm_compute; reflexivity. Qed.

Lemma context_query_always_asks_legacy_witness :
  Examples.contextModern (modernContextRequest Examples.row None) =
    Resolved (Sample.reply 200 false (LokiBody "streams" "rows")) /\
  snd (fst (@getLogRowContext Examples.converters Examples.row None [])
         Examples.contextModern []) =
    [legacyContextRequest Examples.row None] /\
  Examples.contextFailing (modernContextRequest Examples.row None) =
    Rejected (Sample.reply 500 false NoBody) /\
  snd (fst (@getLogRowContext Examples.converters Examples.row None [])
         Examples.contextFailing []) = [].
Proof.
  split; [reflexivity|].
  destruct (@context_query_always_asks_legacy Examples.converters Examples.row
              None [] [] Examples.contextModern) as [_ [Hresolved _]].
  split; [exact (Hresolved _ eq_refl)|].
  split; [reflexivity|].
  destruct (@context_query_always_asks_legacy Examples.converters Examples.row
              None [] [] Examples.contextFailing) as [_ [_ Hrejected]].
  exact (Hrejected _ eq_refl).
Defined.

Lemma context_query_modern_answer_witness :
  Examples.contextFailing (modernContextRequest Examples.row None) =
    Rejected (Sample.reply 500 false NoBody) /\
  status (Sample.reply 500 false NoBody) <> Some 404 /\
  fst (fst (@getLogRowContext Examples.converters Examples.row None [])
         Examples.contextFailing []) =
    ContextRejected
      (ContextError "Error during context query. Please check JS console logs."
         (Some 500) None) /\
  fst (fst (@getLogRowContext Examples.converters Examples.row None [])
         Examples.contextModern []) =
    ContextFulfilled
      (Some {| data := [DataFrameDatum "rows"]; key := None; state := None |}).
Proof.
  split; [reflexivity|]. split; [discriminate|].
  split.
  - exact (proj1
             (@context_query_modern_answer Examples.converters Examples.row
                None [] [] Examples.contextFailing)
             (Sample.reply 500 false NoBody) eq_refl ltac:(discriminate)).
  - exact (proj2
             (@context_query_modern_answer Examples.converters Examples.row
                None [] [] Examples.contextModern)
             (Sample.reply 200 false (LokiBody "streams" "rows"))
             "streams"%string "rows"%string eq_refl ltac:(discriminate)
             eq_refl).
Defined.

Lemma context_query_fallback_witness :
  Examples.contextLegacyOnly NoBody (modernContextRequest Examples.row None) =
    Rejected (Sample.reply 404 false NoBody) /\
  fst (fst (@getLogRowContext Examples.converters Examples.row None [])
         (Examples.contextLegacyOnly NoBody) []) =
    ContextFulfilled
      (Some {| data := [DataFrameDatum "old rows"]; key := None;
               state := None |}) /\
  Examples.contextLegacyOnly (TextBody "404 page not found")
    (modernContextRequest Examples.row None) =
    Rejected (Sample.reply 404 false (TextBody "404 page not found")) /\
  fst (fst (@getLogRowContext Examples.converters Examples.row None [])
         (Examples.contextLegacyOnly (TextBody "404 page not found")) []) =
    ContextRejected ContextTypeError.
Proof.
  split; [reflexivity|]. split.
  - exact (proj1
             (proj1
                (@context_query_fallback Examples.converters Examples.row None
                   [] [] (Examples.contextLegacyOnly NoBody)
                   (Sample.reply 404 false NoBody) eq_refl eq_refl)
                eq_refl)
             (Sample.reply 200 false (LegacyBody "old rows"))
             "old rows"%string eq_refl eq_refl).
  - split; [reflexivity|].
    exact (proj2
             (@context_query_fallback Examples.converters Examples.row None
                [] [] (Examples.contextLegacyOnly (TextBody "404 page not found"))
                (Sample.reply 404 false (TextBody "404 page not found"))
                eq_refl eq_refl)
             "404 page not found"%string eq_refl ltac:(discriminate)).
Defined.

Lemma testDatasource_always_resolves_witness :
  exists result,
    fst (fst (testDatasource 1600000000000 []) Examples.labelsLegacyOnly []) =
      TestFulfilled (Some result) /\
    test_status result = "success"%string.
Proof.
  destruct (testDatasource_always_resolves 1600000000000 [] []
              Examples.labelsLegacyOnly) as [result [Hresult Hsuccess]].
  exists result. split; [exact Hresult|].
  apply Hsuccess.
  exists (mkLabelReply (Some 200) None (LabelValues ["job"%string])),
    "job"%string, [].
  split; [reflexivity|]. right. split; reflexivity.
Defined.

Lemma testDatasource_failure_message_witness :
  Examples.labelsUnreachable (modernLabelRequest 1600000000000) =
    LabelRejected (mkLabelReply None None LabelNothing) /\
  label_status (mkLabelReply None None LabelNothing) <> Some 404 /\
  fst (fst (testDatasource 1600000000000 []) Examples.labelsUnreachable []) =
    TestFulfilled
      (Some {| test_status := "error";
               test_message := "Loki: Cannot connect to Loki" |}).
Proof.
  split; [reflexivity|]. split; [discriminate|].
  destruct (testDatasource_failure_message 1600000000000 [] []
              Examples.labelsUnreachable (mkLabelReply None None LabelNothing)
              eq_refl ltac:(discriminate)) as [rest [Hresult Hrest]].
  rewrite (Hrest eq_refl eq_refl eq_refl) in Hresult. exact Hresult.
Defined.

(** ** The configured maximum *)

Lemma min_or_infinity_le (x : option Z) (m : Z) :
  JsNumber.min_or_infinity x m <= m.
Proof.
  destruct x as [v|]; cbn; [|lia]. destruct (v =? 0); lia.
Qed.

(** X25.  The requests and live targets that [query] builds never ask for
    more lines than the datasource is configured for: the [limit] of the
    range, legacy and instant requests and the [size] of both live targets
    are at most [maxLines], whatever [maxDataPoints] the window carries.
    The context query is outside this cap: [getLogRowContext] hands the
    limit of its options on as it is, also when it exceeds [maxLines]. *)
Theorem limit_never_exceeds_maxLines `{Collaborators} (this : LokiDatasource)
  (target : LokiQuery) (options : RangeQueryOptions)
  (request : DataQueryRequest) :
  rq_limit (createRangeQuery this target options) <= maxLines this /\
  lq_limit (legacyQuery this target options) <= maxLines this /\
  iq_limit (instantQuery this target request) <= maxLines this /\
  lt_size (createLiveTarget this target options) <= maxLines this /\
  lt_size (createLegacyLiveTarget this target options) <= maxLines this /\
  (forall row direction l,
     l <> 0 ->
     ct_limit
       (cr_target
          (modernContextRequest row
             (Some {| context_direction := direction;
                      context_limit := Some l |}))) = l).
Proof.
  unfold createRangeQuery, legacyQuery, instantQuery, createLiveTarget,
    createLegacyLiveTarget, limitOf.
  cbn [rq_limit lq_limit iq_limit lt_size].
  repeat split; try apply min_or_infinity_le.
  intros row direction l Hl.
  unfold modernContextRequest, contextTarget, prepareLogRowContextQueryTarget.
  cbn [cr_target contextLimit context_limit truthy_number].
  destruct (Z.eqb_spec l 0); [contradiction|].
  destruct (contextDirection _); reflexivity.
Qed.

Lemma limit_never_exceeds_maxLines_witness :
  5000 <> 0 /\
  maxLines Sample.datasource = 1000 /\
  rq_limit
    (createRangeQuery Sample.datasource (Sample.target false)
       (Sample.window (Some 5000) 0 60000)) = 1000 /\
  ct_limit
    (cr_target
       (modernContextRequest Examples.row
          (Some {| context_direction := None; context_limit := Some 5000 |}))) =
    5000.
Proof.
  assert (Hl : 5000 <> 0) by discriminate.
  split; [exact Hl|]. split; [reflexivity|]. split; [reflexivity|].
  exact (proj2 (proj2 (proj2 (proj2 (proj2
           (@limit_never_exceeds_maxLines Sample.collaborators
              Sample.datasource (Sample.target false)
              (Sample.window (Some 5000) 0 60000)
              (Sample.request None None [])))))) Examples.row None 5000 Hl).
Defined.
